(** * Segmentation Lab: the frame pipeline and the model-switching code

    A shallow embedding of the JavaScript sources of the virtual-background
    pipeline:

    - [BackgroundModelFactory]  (js/services/BackgroundModelFactory.js),
    - [MediaPipeModel], [BodyPixModel], [BodyPixModelNet]  (models/),
    - [BackgroundService]  (js/services/backgroundService.js: the object
      returned by [initVirtualBackground]),
    - [ModelLabUI]  (js/components/ModelLabUI.js: the step that records a
      choice of model).

    JavaScript numbers are modelled as rationals [Q] with exact arithmetic
    (rounding, NaN and the infinities of IEEE doubles are outside the model).
    Asynchronous functions are cut at their [await]s: the part before an
    [await] and the continuation after it are separate transitions, so that
    other callbacks can be interleaved between them exactly where the event
    loop of the browser allows it.  Values the browser supplies
    ([performance.now()], [video.currentTime], the outcome of a promise) are
    arguments of the transitions. *)

From Stdlib Require Import QArith Qminmax Qround Lia Lqa Bool Ascii String List Sorted.
From stdpp Require Import base gmap strings list pretty.

(** ** JavaScript conventions used by the sources *)

Module Js.

(** Truthiness of a number: [if (x)] holds for every number but zero. *)
Definition truthy (x : Q) : bool := negb (Qeq_bool x 0).

(** Truthiness of a string: every string but the empty one. *)
Definition truthy_str (s : string) : bool :=
  match s with EmptyString => false | _ => true end.

(** [String.prototype.toLowerCase] on the ASCII range; the model names of
    the application are ASCII.  A string is a sequence of bytes here:
    letters beyond that range, which JavaScript maps as well (the Kelvin
    sign to 'k', for one), are not represented. *)
Definition lower_ascii (c : ascii) : ascii :=
  let n := nat_of_ascii c in
  if (65 <=? n)%nat && (n <=? 90)%nat then ascii_of_nat (n + 32) else c.

Fixpoint toLowerCase (s : string) : string :=
  match s with
  | EmptyString => EmptyString
  | String c r => String (lower_ascii c) (toLowerCase r)
  end.

(** The property names every object inherits from [Object.prototype]:
    [obj[k]] is a truthy value for them even when [k] is not an own key. *)
Definition objectPrototypeKeys : list string :=
  [ "constructor"; "toString"; "toLocaleString"; "valueOf";
    "hasOwnProperty"; "isPrototypeOf"; "propertyIsEnumerable";
    "__proto__"; "__defineGetter__"; "__defineSetter__";
    "__lookupGetter__"; "__lookupSetter__" ].

(** The result of reading [obj[k]] on an object literal. *)
Inductive property (A : Type) : Type :=
| Own (a : A)      (* an own key of the literal *)
| Inherited        (* a member of Object.prototype: truthy, no fields *)
| Undefined.
Arguments Own {A} a.
Arguments Inherited {A}.
Arguments Undefined {A}.

Definition get {A} (obj : gmap string A) (k : string) : property A :=
  match obj !! k with
  | Some a => Own a
  | None => if bool_decide (k ∈ objectPrototypeKeys) then Inherited
            else Undefined
  end.

End Js.

(** ** BackgroundModelFactory *)

Module BackgroundModelFactory.

Inductive performance := Unknown | Low | Medium | High.

Record variant := {
  vname : string;
  resolution : string;
  vsimdRequired : bool;
  fps : string;
  backend : option string
}.

Record modelInfo := {
  name : string;
  description : option string;
  variants : list variant;
  isImplemented : bool
}.

(** The [config] argument of [setUserPreferredModel]: only [simdRequired]
    is read by the factory; the other fields are stored as they come. *)
Record config := {
  simdRequired : bool;
  cvariant : option string;
  cresolution : option string;
  cbackend : option string
}.

Definition emptyConfig : config :=
  {| simdRequired := false; cvariant := None;
     cresolution := None; cbackend := None |}.

Record factory := {
  simdSupport : bool;
  webglSupport : bool;
  webgl2Support : bool;
  devicePerformance : performance;
  availableModels : gmap string modelInfo;
  userPreferredModel : option string;
  userPreferredConfig : option config;
  debugLog : list string       (* the messages handed to debugCallback *)
}.

Definition mkVariant n r s f b : variant :=
  {| vname := n; resolution := r; vsimdRequired := s; fps := f; backend := b |}.

Definition models0 : gmap string modelInfo :=
  <["mediapipe" := {| name := "MediaPipe";
                      description := Some "Google MediaPipe Selfie Segmentation";
                      variants := []; isImplemented := true |}]>
  (<["bodypix" := {| name := "BodyPix";
                     description := Some "TensorFlow.js BodyPix (640x360, ~11 FPS)";
                     variants := []; isImplemented := true |}]>
  (<["mlkit" := {| name := "ML Kit"; description := None;
                   variants :=
                     [ mkVariant "ML Kit WebAssembly" "256x256" false "~9 FPS" None;
                       mkVariant "ML Kit WebAssembly SIMD" "256x256" true "~17-19 FPS" None ];
                   isImplemented := false |}]>
  (<["meet" := {| name := "Google Meet"; description := None;
                  variants :=
                    [ mkVariant "Meet 256x144" "256x144" false "~14-16 FPS" (Some "Canvas 2D + CPU");
                      mkVariant "Meet 256x144 WebGL" "256x144" false "~16 FPS" (Some "WebGL 2");
                      mkVariant "Meet 256x144 SIMD" "256x144" true "~26 FPS" (Some "Canvas 2D + CPU");
                      mkVariant "Meet 256x144 SIMD WebGL" "256x144" true "~31 FPS" (Some "WebGL 2");
                      mkVariant "Meet 160x96" "160x96" false "~29-35 FPS" None;
                      mkVariant "Meet 160x96 SIMD" "160x96" true "~48-60 FPS" None ];
                  isImplemented := false |}]> ∅))).

(** The constructor. *)
Definition new : factory :=
  {| simdSupport := false; webglSupport := false; webgl2Support := false;
     devicePerformance := Unknown; availableModels := models0;
     userPreferredModel := None; userPreferredConfig := None;
     debugLog := [] |}.

Definition debug (msg : string) (f : factory) : factory :=
  {| simdSupport := simdSupport f; webglSupport := webglSupport f;
     webgl2Support := webgl2Support f;
     devicePerformance := devicePerformance f;
     availableModels := availableModels f;
     userPreferredModel := userPreferredModel f;
     userPreferredConfig := userPreferredConfig f;
     debugLog := debugLog f ++ [msg] |}.

Definition setPreference (m : option string) (c : option config)
           (f : factory) : factory :=
  {| simdSupport := simdSupport f; webglSupport := webglSupport f;
     webgl2Support := webgl2Support f;
     devicePerformance := devicePerformance f;
     availableModels := availableModels f;
     userPreferredModel := m;
     userPreferredConfig := c;
     debugLog := debugLog f |}.

(** [setUserPreferredModel(modelType, config)]: the three validations in
    the order of the source, then the assignment. *)
Definition setUserPreferredModel (modelType : string) (cfg : config)
           (f : factory) : factory * bool :=
  match Js.get (availableModels f) (Js.toLowerCase modelType) with
  | Js.Undefined =>
      (debug ("Model " +:+ modelType +:+ " not found in available models") f,
       false)
  | Js.Inherited =>
      (debug ("Model " +:+ modelType +:+ " is not implemented yet") f, false)
  | Js.Own info =>
      if negb (isImplemented info) then
        (debug ("Model " +:+ modelType +:+ " is not implemented yet") f, false)
      else if simdRequired cfg && negb (simdSupport f) then
        (debug ("Model " +:+ modelType
                +:+ " requires SIMD but browser doesn't support it") f, false)
      else
        (debug ("User preferred model set to " +:+ modelType)
           (setPreference (Some (Js.toLowerCase modelType)) (Some cfg) f),
         true)
  end.

Definition resetUserPreferredModel (f : factory) : factory * bool :=
  (debug "User preferred model reset to auto" (setPreference None None f),
   true).

(** [_selectOptimalModel]: the three branches all answer 'mediapipe'. *)
Definition _selectOptimalModel (f : factory) : string :=
  match devicePerformance f with
  | High => if simdSupport f then "mediapipe" else "mediapipe"
  | Medium => "mediapipe"
  | _ => "mediapipe"
  end.

(** The adapters [createModel] can instantiate. *)
Inductive modelKind := MediaPipe | BodyPix.

Global Instance modelKind_eq_dec : EqDecision modelKind.
Proof. solve_decision. Defined.

(** [createModel(modelType = 'auto', options = {})].  [importOk k] tells
    whether the dynamic [import()] of adapter [k] succeeds; the result is
    the kind of the instance returned, [None] for [null]. *)
Definition createModel (importOk : modelKind -> bool) (modelType : string)
           (f : factory) : factory * option modelKind :=
  let preferred :=
    match userPreferredModel f with
    | Some p => Js.truthy_str p && bool_decide (modelType = "auto")
    | None => false
    end in
  let '(modelType, f) :=
    if preferred
    then let p := default "" (userPreferredModel f) in
         (p, debug ("Using user preferred model: " +:+ p) f)
    else (modelType, f) in
  let f := debug ("Creating background model: " +:+ modelType
                  +:+ " with options:") f in
  let '(modelType, f) :=
    if bool_decide (modelType = "auto")
    then let m := _selectOptimalModel f in
         (m, debug ("Auto-selected model: " +:+ m) f)
    else (modelType, f) in
  (* try { switch (modelType.toLowerCase()) ... } *)
  let '(wanted, f) :=
    if bool_decide (Js.toLowerCase modelType = "mediapipe") then (MediaPipe, f)
    else if bool_decide (Js.toLowerCase modelType = "bodypix") then (BodyPix, f)
    else (MediaPipe,
          debug ("Unknown model type: " +:+ modelType
                 +:+ ", falling back to MediaPipe") f) in
  if importOk wanted then (f, Some wanted)
  else
    (* catch (error): fall back to MediaPipe if it can be imported; the
       text "import failed" stands for error.message *)
    let f :=
      debug ("Error creating model " +:+ modelType +:+ ": import failed") f in
    if importOk MediaPipe then (f, Some MediaPipe)
    else (debug "Could not create fallback model either: import failed" f,
          None).

(** The spec's wording of a selection the host can honour: the model is
    known, it is implemented, and a SIMD requirement is met by the host. *)
Definition supportedSelection (modelType : string) (cfg : config)
           (f : factory) : bool :=
  match availableModels f !! Js.toLowerCase modelType with
  | Some info =>
      isImplemented info && (negb (simdRequired cfg) || simdSupport f)
  | None => false
  end.

End BackgroundModelFactory.


(** ** What a 2D context shows after a draw *)

Module Canvas.

Inductive surface :=
| Blank
| SourceFrame                    (* ctx.drawImage(videoElement, ...): the raw frame *)
| BlurComposite (mask : nat)     (* blurred frame, person matted on top *)
| ImageComposite (mask : nat)    (* background image, person matted on top *)
| BlurredOnly                    (* the blurred frame alone *)
| BackgroundOnly.                (* the background image alone *)

Global Instance surface_eq_dec : EqDecision surface.
Proof. solve_decision. Defined.

End Canvas.

(** ** models/MediaPipeModel.js *)

Module MediaPipeModel.

Import Canvas.

Inductive settled := Pending | ResolvedTrue | Rejected.

Record state := {
  segmenter : option nat;          (* the SelfieSegmentation instance *)
  isInitialized : bool;
  lastResults : option nat;        (* the results object, by its mask *)
  processingFrame : bool;
  loadingPromise : option nat;     (* identity of the promise *)
  skippedFrames : nat;
  maxSkippedFrames : nat;
  bufferCanvas : option (Z * Z);
  isLowPowerMode : bool;
  lastProcessingTime : Q
}.

(** The constructor. *)
Definition new : state :=
  {| segmenter := None; isInitialized := false; lastResults := None;
     processingFrame := false; loadingPromise := None; skippedFrames := 0;
     maxSkippedFrames := 1; bufferCanvas := None; isLowPowerMode := false;
     lastProcessingTime := 0 |}.

(** What lives outside the adapter: the SelfieSegmentation instances
    constructed so far, the promises created by [init], and the instance
    captured by the executor of a promise that has not settled. *)
Record heap := {
  constructed : nat;
  promises : list settled;
  preloading : option (nat * nat)   (* promise, instance *)
}.

Definition heap0 : heap :=
  {| constructed := 0; promises := []; preloading := None |}.

(** [init()], up to the first [await] of the executor.  [ctorOk] tells
    whether [new SelfieSegmentation(...)] succeeds.  The result is the
    promise whose outcome the caller receives ([init] being an [async]
    function, the caller's own promise follows the one returned here). *)
Definition init (ctorOk : bool) (sh : state * heap) : state * heap * nat :=
  let '(st, h) := sh in
  match loadingPromise st with
  | Some p => (st, h, p)
  | None =>
      let p := length (promises h) in
      if ctorOk then
        ({| segmenter := segmenter st; isInitialized := isInitialized st;
            lastResults := lastResults st;
            processingFrame := processingFrame st;
            loadingPromise := Some p; skippedFrames := skippedFrames st;
            maxSkippedFrames := maxSkippedFrames st;
            bufferCanvas := Some (640, 480)%Z;
            isLowPowerMode := isLowPowerMode st;
            lastProcessingTime := lastProcessingTime st |},
         {| constructed := S (constructed h);
            promises := promises h ++ [Pending];
            preloading := Some (p, constructed h) |},
         p)
      else
        ({| segmenter := segmenter st; isInitialized := false;
            lastResults := lastResults st;
            processingFrame := processingFrame st;
            loadingPromise := Some p; skippedFrames := skippedFrames st;
            maxSkippedFrames := maxSkippedFrames st;
            bufferCanvas := Some (640, 480)%Z;
            isLowPowerMode := isLowPowerMode st;
            lastProcessingTime := lastProcessingTime st |},
         {| constructed := constructed h;
            promises := promises h ++ [Rejected];
            preloading := preloading h |},
         p)
  end.

(** The continuation of the executor once the preload has been awaited:
    the instance is installed and the promise resolves to [true]. *)
Definition init_complete (sh : state * heap) : state * heap :=
  let '(st, h) := sh in
  match preloading h with
  | None => (st, h)
  | Some (p, inst) =>
      ({| segmenter := Some inst; isInitialized := true;
          lastResults := lastResults st;
          processingFrame := processingFrame st;
          loadingPromise := loadingPromise st;
          skippedFrames := skippedFrames st;
          maxSkippedFrames := maxSkippedFrames st;
          bufferCanvas := bufferCanvas st;
          isLowPowerMode := isLowPowerMode st;
          lastProcessingTime := lastProcessingTime st |},
       {| constructed := constructed h;
          promises := <[p := ResolvedTrue]> (promises h);
          preloading := None |})
  end.

(** What [init()] of a new adapter hands to [debugCallback].  [preload]
    lists the remarks of the preload step (a timeout, a preload error, a
    dummy image that does not load: none of them is fatal); [failure] is
    the message of the error that makes the promise reject, [None] when the
    promise resolves to [true]. *)
Definition initSaid (preload : list string) (failure : option string)
  : list string :=
  "Loading MediaPipe Selfie Segmentation model..." ::
  match failure with
  | None =>
      preload ++ ["MediaPipe Selfie Segmentation model loaded successfully"]
  | Some message => ["Failed to load MediaPipe model: " +:+ message]
  end.

(** The callback registered with [selfieSegmentation.onResults]. *)
Definition onResults (r : nat) (st : state) : state :=
  {| segmenter := segmenter st; isInitialized := isInitialized st;
     lastResults := Some r; processingFrame := false;
     loadingPromise := loadingPromise st; skippedFrames := skippedFrames st;
     maxSkippedFrames := maxSkippedFrames st; bufferCanvas := bufferCanvas st;
     isLowPowerMode := isLowPowerMode st;
     lastProcessingTime := lastProcessingTime st |}.

(** The body of the [setInterval] callback of [_setupAdaptivePerformance]. *)
Definition adaptiveTick (st : state) : state :=
  let set (low : bool) (m : nat) :=
    {| segmenter := segmenter st; isInitialized := isInitialized st;
       lastResults := lastResults st; processingFrame := processingFrame st;
       loadingPromise := loadingPromise st; skippedFrames := skippedFrames st;
       maxSkippedFrames := m; bufferCanvas := bufferCanvas st;
       isLowPowerMode := low;
       lastProcessingTime := lastProcessingTime st |} in
  if Qlt_le_dec 33 (lastProcessingTime st) then
    if negb (isLowPowerMode st) then set true 2%nat else st
  else if Qlt_le_dec (lastProcessingTime st) 20 then
    if isLowPowerMode st then set false 1%nat else st
  else st.

(** [dispose()]. *)
Definition dispose (st : state) : state :=
  match segmenter st with
  | Some _ =>
      {| segmenter := None; isInitialized := false; lastResults := None;
         processingFrame := false; loadingPromise := None; skippedFrames := 0;
         maxSkippedFrames := maxSkippedFrames st;
         bufferCanvas := bufferCanvas st; isLowPowerMode := false;
         lastProcessingTime := lastProcessingTime st |}
  | None => st
  end.

(** The arguments of [processFrame] that the adapter reads. *)
Record frame := {
  videoWidth : Z;
  videoHeight : Z;
  backgroundType : string;
  backgroundImage : option bool     (* the image, with its [complete] flag *)
}.

Record canvas := {
  width : Z;
  height : Z;
  shown : surface
}.

Record result := {
  segmentationTime : Q;
  totalTime : Q
}.

(** [_drawResultsWithBackground]: what ends up on the canvas, and whether
    the method returns normally.  The person is matted through
    [this.bufferCanvas]; were it [null], the TypeError would leave only the
    background that was drawn first. *)
Definition _drawResultsWithBackground (buf : option (Z * Z)) (mask : nat)
           (fr : frame) : surface * bool :=
  if bool_decide (backgroundType fr = "blur") then
    match buf with
    | Some _ => (BlurComposite mask, true)
    | None => (BlurredOnly, false)
    end
  else if bool_decide (backgroundType fr = "beach")
          || bool_decide (backgroundType fr = "office")
          || bool_decide (backgroundType fr = "custom") then
    match backgroundImage fr with
    | Some true =>
        match buf with
        | Some _ => (ImageComposite mask, true)
        | None => (BackgroundOnly, false)
        end
    | _ => (SourceFrame, true)
    end
  else (SourceFrame, true).

(** "Reuse the last results if there are any, else the raw frame". *)
Definition drawLast (st : state) (fr : frame) : surface * bool :=
  match lastResults st with
  | Some r => _drawResultsWithBackground (bufferCanvas st) r fr
  | None => (SourceFrame, true)
  end.

Definition draw (s : surface) (cv : canvas) : canvas :=
  {| width := width cv; height := height cv; shown := s |}.

Definition set_flags (skipped : nat) (processing : bool) (st : state) : state :=
  {| segmenter := segmenter st; isInitialized := isInitialized st;
     lastResults := lastResults st; processingFrame := processing;
     loadingPromise := loadingPromise st; skippedFrames := skipped;
     maxSkippedFrames := maxSkippedFrames st; bufferCanvas := bufferCanvas st;
     isLowPowerMode := isLowPowerMode st;
     lastProcessingTime := lastProcessingTime st |}.

Definition set_bufferCanvas (b : option (Z * Z)) (st : state) : state :=
  {| segmenter := segmenter st; isInitialized := isInitialized st;
     lastResults := lastResults st; processingFrame := processingFrame st;
     loadingPromise := loadingPromise st; skippedFrames := skippedFrames st;
     maxSkippedFrames := maxSkippedFrames st; bufferCanvas := b;
     isLowPowerMode := isLowPowerMode st;
     lastProcessingTime := lastProcessingTime st |}.

Definition set_lastProcessingTime (t : Q) (st : state) : state :=
  {| segmenter := segmenter st; isInitialized := isInitialized st;
     lastResults := lastResults st; processingFrame := processingFrame st;
     loadingPromise := loadingPromise st; skippedFrames := skippedFrames st;
     maxSkippedFrames := maxSkippedFrames st; bufferCanvas := bufferCanvas st;
     isLowPowerMode := isLowPowerMode st;
     lastProcessingTime := t |}.

(** How the synchronous part of [processFrame] ends. *)
Inductive begun :=
| Returned (r : result)     (* the promise is fulfilled without inference *)
| Threw                     (* a TypeError escapes: the promise is rejected *)
| AwaitingSend.             (* segmenter.send was issued and is awaited *)

(** [a || b] on a dimension. *)
Definition or_dim (a b : Z) : Z := if (a =? 0)%Z then b else a.

(** [processFrame], from its entry to its first [await] or [return].
    [t0] is [startTime], [t1] the clock when an early [return] is built. *)
Definition processFrame_begin (t0 t1 : Q) (fr : frame)
           (sc : state * canvas) : state * canvas * begun :=
  let '(st, cv) := sc in
  let early := Returned {| segmentationTime := 0; totalTime := t1 - t0 |} in
  (* Ensure canvas dimensions match video *)
  let resize :=
    negb (width cv =? videoWidth fr)%Z || negb (height cv =? videoHeight fr)%Z in
  let cv1 :=
    if resize
    then {| width := or_dim (videoWidth fr) 640;
            height := or_dim (videoHeight fr) 480;
            shown := Blank (* assigning a dimension clears the bitmap *) |}
    else cv in
  if resize && negb (bool_decide (is_Some (bufferCanvas st))) then
    (st, cv1, Threw)
  else
    let st1 :=
      if resize then set_bufferCanvas (Some (width cv1, height cv1)) st
      else st in
    if negb (isInitialized st1) || negb (bool_decide (is_Some (segmenter st1)))
    then (st1, draw SourceFrame cv1, early)
    else
      let '(last, ok) := drawLast st1 fr in
      if (skippedFrames st1 <? maxSkippedFrames st1)%nat then
        (set_flags (S (skippedFrames st1)) (processingFrame st1) st1,
         draw last cv1, if ok then early else Threw)
      else
        (* Reset frame skip counter *)
        let st2 := set_flags 0 (processingFrame st1) st1 in
        if processingFrame st2 then
          (st2, draw last cv1, if ok then early else Threw)
        else
          (* try { this.processingFrame = true; ... } *)
          match bufferCanvas st2 with
          | Some _ =>
              (* await this.segmenter.send({image: this.bufferCanvas}) *)
              (set_flags 0 true st2, cv1, AwaitingSend)
          | None =>
              (* catch (error): bufferCanvas.getContext failed *)
              (set_flags 0 false st2, draw SourceFrame cv1, early)
          end.

(** The continuation of [processFrame] after [segmenter.send] and the 5 ms
    pause have been awaited.  [sendOk] is false when the awaited promise
    rejected (the [catch] block runs); [tseg] and [tend] are the clock
    readings used for the two timings. *)
Definition processFrame_resume (t0 tseg tend : Q) (sendOk : bool) (fr : frame)
           (sc : state * canvas) : state * canvas * result :=
  let '(st, cv) := sc in
  let fallback :=
    (set_flags (skippedFrames st) false st, draw SourceFrame cv,
     {| segmentationTime := 0; totalTime := tend - t0 |}) in
  if sendOk then
    match lastResults st with
    | None => fallback
    | Some r =>
        let '(s, ok) := _drawResultsWithBackground (bufferCanvas st) r fr in
        if ok then
          (set_flags (skippedFrames st) false
             (set_lastProcessingTime (tend - t0) st),
           draw s cv,
           {| segmentationTime := tseg - t0; totalTime := tend - t0 |})
        else fallback
    end
  else fallback.

(** *** The adapter under arbitrary interleavings

    Calls may overlap: a second [processFrame] can start while the first one
    is suspended at its [await].  [awaiting] lists the suspended calls (the
    [startTime] and the arguments each of them captured). *)

Record world := {
  st : state;
  cv : canvas;
  awaiting : list (Q * frame);
  sends : nat                 (* segmenter.send requests issued so far *)
}.

Inductive event :=
| Call (t0 t1 : Q) (fr : frame)                 (* processFrame(...) is called *)
| SendSettles (k : nat) (ok : bool) (tseg tend : Q)
                                             (* the k-th suspended call resumes *)
| Results (r : nat)                          (* the onResults callback runs *)
| AdaptiveTick
| Dispose.

Definition step (e : event) (w : world) : option world :=
  match e with
  | Call t0 t1 fr =>
      let '(s, c, b) := processFrame_begin t0 t1 fr (st w, cv w) in
      Some match b with
           | AwaitingSend =>
               {| st := s; cv := c; awaiting := awaiting w ++ [(t0, fr)];
                  sends := S (sends w) |}
           | _ => {| st := s; cv := c; awaiting := awaiting w;
                     sends := sends w |}
           end
  | SendSettles k ok tseg tend =>
      match awaiting w !! k with
      | Some (t0, fr) =>
          let '(s, c, _) :=
            processFrame_resume t0 tseg tend ok fr (st w, cv w) in
          Some {| st := s; cv := c; awaiting := delete k (awaiting w);
                  sends := sends w |}
      | None => None
      end
  | Results r =>
      Some {| st := onResults r (st w); cv := cv w; awaiting := awaiting w;
              sends := sends w |}
  | AdaptiveTick =>
      Some {| st := adaptiveTick (st w); cv := cv w; awaiting := awaiting w;
              sends := sends w |}
  | Dispose =>
      Some {| st := dispose (st w); cv := cv w; awaiting := awaiting w;
              sends := sends w |}
  end.

Fixpoint run (es : list event) (w : world) : option world :=
  match es with
  | [] => Some w
  | e :: es' =>
      match step e w with
      | Some w' => run es' w'
      | None => None
      end
  end.

End MediaPipeModel.

(** ** models/BodyPixModel.js *)

Module BodyPixModel.

Record state := {
  model : option nat;        (* the network returned by bodyPix.load *)
  isInitialized : bool
}.

Definition new : state := {| model := None; isInitialized := false |}.

Inductive outcome := ReturnedTrue | Thrown.

(** [init()]: every call runs [bodyPix.load]; [loaded] counts the networks
    the library has built.  [loadOk] tells whether the load succeeds. *)
Definition init (loadOk : bool) (sl : state * nat) : state * nat * outcome :=
  let '(st, loaded) := sl in
  if loadOk then
    ({| model := Some loaded; isInitialized := true |}, S loaded, ReturnedTrue)
  else (st, loaded, Thrown).

(** What [init()] hands to [debugCallback]; [failure] is the message of
    the error of [bodyPix.load], which [init()] throws again. *)
Definition initSaid (failure : option string) : list string :=
  [ "Loading BodyPix model...";
    match failure with
    | None => "BodyPix model loaded successfully"
    | Some message => "Failed to load BodyPix model: " +:+ message
    end ].

(** [dispose()]: [tf.dispose()] when TensorFlow.js is present.  When the
    global [tf] is not even declared, reading it throws a ReferenceError:
    the state is equally unchanged, and the caller sees the exception
    ([disposeThrows]). *)
Definition dispose (tfPresent : bool) (st : state) : state :=
  if tfPresent then {| model := model st; isInitialized := false |} else st.

Definition disposeSaid (tfPresent : bool) : list string :=
  if tfPresent then ["BodyPix model resources disposed"] else [].

Definition disposeThrows (tfDeclared : bool) : option string :=
  if tfDeclared then None else Some "tf is not defined".

End BodyPixModel.

(** ** The second BodyPixModel of the repository

    The class of the same name that loads its scripts on demand and keeps
    the network in [this.net]. *)

Module BodyPixModelNet.

Record state := {
  net : option nat;
  initialized : bool
}.

Definition new : state := {| net := None; initialized := false |}.

Inductive outcome := ResolvedTrue | ResolvedFalse.

(** [init()]: any error (a script that does not load, a network that does
    not load) is caught and turned into [false].  [scriptsOk] tells whether
    TensorFlow.js and the BodyPix library become available, [loadOk]
    whether [bodyPix.load] succeeds; [loaded] counts the networks built. *)
Definition init (scriptsOk loadOk : bool) (sl : state * nat)
  : state * nat * outcome :=
  let '(st, loaded) := sl in
  if scriptsOk && loadOk then
    ({| net := Some loaded; initialized := true |}, S loaded, ResolvedTrue)
  else (st, loaded, ResolvedFalse).

(** What the page offers when [init()] runs: whether [window.tf] and
    [window.bodyPix] are there already, whether the scripts injected for
    them load, whether [window.bodyPix] is defined once its script has
    loaded, and the error of [bodyPix.load] if it fails. *)
Record loading := {
  tf : bool;
  tfScript : bool;
  bodyPix : bool;
  bodyPixScript : bool;
  bodyPixDefined : bool;
  loadError : option string
}.

(** [init()] again, with what it hands to [this.debug] (the debug callback)
    on the way: the lines, and the value the promise resolves to.  Every
    error ends in the [catch] block, which reports it and answers
    [false]. *)
Definition initSaid (l : loading) : list string * bool :=
  let caught (said : list string) (message : string) :=
    (said ++ ["Error initializing BodyPix model: " +:+ message], false) in
  let said := ["Initializing BodyPix model..."] in
  (* await this._loadTensorFlowScript() *)
  let said :=
    if tf l then said ++ ["TensorFlow.js already loaded"]
    else said ++ ["Loading TensorFlow.js script..."] in
  if negb (tf l) && negb (tfScript l) then
    caught said "Failed to load TensorFlow.js script"
  else
    let said :=
      if tf l then said else said ++ ["TensorFlow.js loaded successfully"] in
    (* if (!window.bodyPix) { await this._loadBodyPixScript(); ... } *)
    let said :=
      if bodyPix l then said else said ++ ["Loading BodyPix script..."] in
    if negb (bodyPix l) && negb (bodyPixScript l) then
      caught said "Failed to load BodyPix script"
    else
      let said :=
        if bodyPix l then said
        else said ++ ["BodyPix script loaded successfully"] in
      if negb (bodyPix l) && negb (bodyPixDefined l) then
        caught said "Failed to load bodyPix library"
      else
        let said := said ++ ["Loading BodyPix model..."] in
        match loadError l with
        | Some message => caught said message
        | None => (said ++ ["BodyPix model loaded successfully"], true)
        end.

(** [dispose()] *)
Definition dispose (st : state) : state :=
  match net st with
  | Some _ => {| net := None; initialized := false |}
  | None => st
  end.

(** What [dispose()] hands to [this.debug]; [failure] is the message of an
    error thrown by [net.dispose()], which is caught. *)
Definition disposeSaid (failure : option string) (st : state) : list string :=
  match net st with
  | Some _ =>
      match failure with
      | None => ["BodyPix model disposed"]
      | Some message => ["Error disposing BodyPix model: " +:+ message]
      end
  | None => []
  end.

End BodyPixModelNet.


(** ** js/services/backgroundService.js *)

Module BackgroundService.

Import Canvas.
Local Open Scope Q_scope.

(** *** The objects the service handles *)

Inductive trackId :=
| Camera (n : nat)
| Microphone (n : nat)
| Capture (n : nat).          (* the video track of canvas.captureStream(0) *)

Global Instance trackId_eq_dec : EqDecision trackId.
Proof. solve_decision. Defined.

(** [track.kind === 'video'] *)
Definition isVideo (t : trackId) : bool :=
  match t with Microphone _ => false | _ => true end.

Record mediaStream := {
  videoTracks : list trackId;
  audioTracks : list trackId
}.

(** An RTCRtpSender, by the track it sends ([null] when it has none). *)
Definition sender := option trackId.

(** An adapter instance returned by the factory. *)
Record instance := {
  kind : BackgroundModelFactory.modelKind;
  iid : nat
}.

(** The object literal [virtualBackground].  The comparison table
    [modelMetrics] and the background images are left out: which image is
    handed to the adapter is part of what the adapter draws, which the
    transitions below take from the outcome of the call. *)
Record virtualBackground := {
  enabled : bool;
  type : string;
  model : string;
  activeModel : option instance;
  stream : option mediaStream;
  context : bool;                  (* set by setContext, [null] before *)
  animationFrame : option positive;
  targetFps : Q;
  lastProcessedVideoTime : Q;
  videoTrack : option trackId;
  canvasStream : option mediaStream
}.

(** The variables for performance tracking. *)
Record metrics := {
  lastFrameTime : Q;
  frameTimes : list Q;
  segmentationTimes : list Q;
  totalProcessedFrames : nat;
  totalSegmentationTime : Q;
  totalFrameProcessingTime : Q;
  sessionStartTime : option Q
}.

(** The window, the DOM elements and the browser's queues. *)
Record page := {
  modelFactory : option BackgroundModelFactory.factory;  (* window.modelFactory *)
  peerConnection : option (list sender);                 (* window.peerConnection *)
  localVideo : bool;               (* uiElements.localVideo is an element *)
  srcObject : option mediaStream;  (* uiElements.localVideo.srcObject *)
  localCanvas : option (Q * surface);
      (* what the canvas shows, with the video time of the frame drawn *)
  canvasDisplayed : bool;
  rafQueue : list positive;        (* animation-frame callbacks not yet run *)
  nextHandle : positive;
  outstanding : list instance;     (* processFrame promises not yet settled *)
  metricUpdateInterval : bool;
  nextInstance : nat;
  nextTrack : nat
}.

(** What an observer of the service can count.  [debugInfo] lists what
    the functions of the service write to the debug panel: their own calls
    of [updateDebugInfo] and, while they load a model, what the factory and
    the adapter hand to their [debugCallback], which app.js makes
    [updateDebugInfo].  What the adapter says while it processes a frame,
    and what the factory says when the lab calls it directly (kept in its
    [debugLog]), is not listed. *)
Record observed := {
  frameCalls : list Q;     (* video time at each processFrame call, latest first *)
  published : nat;         (* videoTrack.requestFrame() calls *)
  disposed : list nat;     (* instances whose dispose() was called *)
  alerts : list (string * string);   (* showAlert(message, type) *)
  debugInfo : list string            (* updateDebugInfo(message) *)
}.

Record world := {
  vb : virtualBackground;
  mt : metrics;
  pg : page;
  ob : observed
}.

Definition set_enabled (x : bool) (r : virtualBackground) : virtualBackground :=
  {| enabled := x; type := type r; model := model r;
     activeModel := activeModel r; stream := stream r; context := context r;
     animationFrame := animationFrame r; targetFps := targetFps r;
     lastProcessedVideoTime := lastProcessedVideoTime r;
     videoTrack := videoTrack r; canvasStream := canvasStream r |}.

Definition set_type (x : string) (r : virtualBackground) : virtualBackground :=
  {| enabled := enabled r; type := x; model := model r;
     activeModel := activeModel r; stream := stream r; context := context r;
     animationFrame := animationFrame r; targetFps := targetFps r;
     lastProcessedVideoTime := lastProcessedVideoTime r;
     videoTrack := videoTrack r; canvasStream := canvasStream r |}.

Definition set_model (x : string) (r : virtualBackground) : virtualBackground :=
  {| enabled := enabled r; type := type r; model := x;
     activeModel := activeModel r; stream := stream r; context := context r;
     animationFrame := animationFrame r; targetFps := targetFps r;
     lastProcessedVideoTime := lastProcessedVideoTime r;
     videoTrack := videoTrack r; canvasStream := canvasStream r |}.

Definition set_activeModel (x : option instance) (r : virtualBackground) : virtualBackground :=
  {| enabled := enabled r; type := type r; model := model r;
     activeModel := x; stream := stream r; context := context r;
     animationFrame := animationFrame r; targetFps := targetFps r;
     lastProcessedVideoTime := lastProcessedVideoTime r;
     videoTrack := videoTrack r; canvasStream := canvasStream r |}.

Definition set_stream (x : option mediaStream) (r : virtualBackground) : virtualBackground :=
  {| enabled := enabled r; type := type r; model := model r;
     activeModel := activeModel r; stream := x; context := context r;
     animationFrame := animationFrame r; targetFps := targetFps r;
     lastProcessedVideoTime := lastProcessedVideoTime r;
     videoTrack := videoTrack r; canvasStream := canvasStream r |}.

Definition set_context (x : bool) (r : virtualBackground) : virtualBackground :=
  {| enabled := enabled r; type := type r; model := model r;
     activeModel := activeModel r; stream := stream r; context := x;
     animationFrame := animationFrame r; targetFps := targetFps r;
     lastProcessedVideoTime := lastProcessedVideoTime r;
     videoTrack := videoTrack r; canvasStream := canvasStream r |}.

Definition set_animationFrame (x : option positive) (r : virtualBackground) : virtualBackground :=
  {| enabled := enabled r; type := type r; model := model r;
     activeModel := activeModel r; stream := stream r; context := context r;
     animationFrame := x; targetFps := targetFps r;
     lastProcessedVideoTime := lastProcessedVideoTime r;
     videoTrack := videoTrack r; canvasStream := canvasStream r |}.

Definition set_targetFps (x : Q) (r : virtualBackground) : virtualBackground :=
  {| enabled := enabled r; type := type r; model := model r;
     activeModel := activeModel r; stream := stream r; context := context r;
     animationFrame := animationFrame r; targetFps := x;
     lastProcessedVideoTime := lastProcessedVideoTime r;
     videoTrack := videoTrack r; canvasStream := canvasStream r |}.

Definition set_lastProcessedVideoTime (x : Q) (r : virtualBackground) : virtualBackground :=
  {| enabled := enabled r; type := type r; model := model r;
     activeModel := activeModel r; stream := stream r; context := context r;
     animationFrame := animationFrame r; targetFps := targetFps r;
     lastProcessedVideoTime := x; videoTrack := videoTrack r;
     canvasStream := canvasStream r |}.

Definition set_videoTrack (x : option trackId) (r : virtualBackground) : virtualBackground :=
  {| enabled := enabled r; type := type r; model := model r;
     activeModel := activeModel r; stream := stream r; context := context r;
     animationFrame := animationFrame r; targetFps := targetFps r;
     lastProcessedVideoTime := lastProcessedVideoTime r; videoTrack := x;
     canvasStream := canvasStream r |}.

Definition set_canvasStream (x : option mediaStream) (r : virtualBackground) : virtualBackground :=
  {| enabled := enabled r; type := type r; model := model r;
     activeModel := activeModel r; stream := stream r; context := context r;
     animationFrame := animationFrame r; targetFps := targetFps r;
     lastProcessedVideoTime := lastProcessedVideoTime r;
     videoTrack := videoTrack r; canvasStream := x |}.

Definition set_modelFactory (x : option BackgroundModelFactory.factory) (r : page) : page :=
  {| modelFactory := x; peerConnection := peerConnection r;
     localVideo := localVideo r; srcObject := srcObject r;
     localCanvas := localCanvas r; canvasDisplayed := canvasDisplayed r;
     rafQueue := rafQueue r; nextHandle := nextHandle r;
     outstanding := outstanding r;
     metricUpdateInterval := metricUpdateInterval r;
     nextInstance := nextInstance r; nextTrack := nextTrack r |}.

Definition set_peerConnection (x : option (list sender)) (r : page) : page :=
  {| modelFactory := modelFactory r; peerConnection := x;
     localVideo := localVideo r; srcObject := srcObject r;
     localCanvas := localCanvas r; canvasDisplayed := canvasDisplayed r;
     rafQueue := rafQueue r; nextHandle := nextHandle r;
     outstanding := outstanding r;
     metricUpdateInterval := metricUpdateInterval r;
     nextInstance := nextInstance r; nextTrack := nextTrack r |}.

Definition set_localVideo (x : bool) (r : page) : page :=
  {| modelFactory := modelFactory r; peerConnection := peerConnection r;
     localVideo := x; srcObject := srcObject r; localCanvas := localCanvas r;
     canvasDisplayed := canvasDisplayed r; rafQueue := rafQueue r;
     nextHandle := nextHandle r; outstanding := outstanding r;
     metricUpdateInterval := metricUpdateInterval r;
     nextInstance := nextInstance r; nextTrack := nextTrack r |}.

Definition set_srcObject (x : option mediaStream) (r : page) : page :=
  {| modelFactory := modelFactory r; peerConnection := peerConnection r;
     localVideo := localVideo r; srcObject := x;
     localCanvas := localCanvas r; canvasDisplayed := canvasDisplayed r;
     rafQueue := rafQueue r; nextHandle := nextHandle r;
     outstanding := outstanding r;
     metricUpdateInterval := metricUpdateInterval r;
     nextInstance := nextInstance r; nextTrack := nextTrack r |}.

Definition set_localCanvas (x : option (Q * surface)) (r : page) : page :=
  {| modelFactory := modelFactory r; peerConnection := peerConnection r;
     localVideo := localVideo r; srcObject := srcObject r; localCanvas := x;
     canvasDisplayed := canvasDisplayed r; rafQueue := rafQueue r;
     nextHandle := nextHandle r; outstanding := outstanding r;
     metricUpdateInterval := metricUpdateInterval r;
     nextInstance := nextInstance r; nextTrack := nextTrack r |}.

Definition set_canvasDisplayed (x : bool) (r : page) : page :=
  {| modelFactory := modelFactory r; peerConnection := peerConnection r;
     localVideo := localVideo r; srcObject := srcObject r;
     localCanvas := localCanvas r; canvasDisplayed := x;
     rafQueue := rafQueue r; nextHandle := nextHandle r;
     outstanding := outstanding r;
     metricUpdateInterval := metricUpdateInterval r;
     nextInstance := nextInstance r; nextTrack := nextTrack r |}.

Definition set_rafQueue (x : list positive) (r : page) : page :=
  {| modelFactory := modelFactory r; peerConnection := peerConnection r;
     localVideo := localVideo r; srcObject := srcObject r;
     localCanvas := localCanvas r; canvasDisplayed := canvasDisplayed r;
     rafQueue := x; nextHandle := nextHandle r; outstanding := outstanding r;
     metricUpdateInterval := metricUpdateInterval r;
     nextInstance := nextInstance r; nextTrack := nextTrack r |}.

Definition set_nextHandle (x : positive) (r : page) : page :=
  {| modelFactory := modelFactory r; peerConnection := peerConnection r;
     localVideo := localVideo r; srcObject := srcObject r;
     localCanvas := localCanvas r; canvasDisplayed := canvasDisplayed r;
     rafQueue := rafQueue r; nextHandle := x; outstanding := outstanding r;
     metricUpdateInterval := metricUpdateInterval r;
     nextInstance := nextInstance r; nextTrack := nextTrack r |}.

Definition set_outstanding (x : list instance) (r : page) : page :=
  {| modelFactory := modelFactory r; peerConnection := peerConnection r;
     localVideo := localVideo r; srcObject := srcObject r;
     localCanvas := localCanvas r; canvasDisplayed := canvasDisplayed r;
     rafQueue := rafQueue r; nextHandle := nextHandle r; outstanding := x;
     metricUpdateInterval := metricUpdateInterval r;
     nextInstance := nextInstance r; nextTrack := nextTrack r |}.

Definition set_metricUpdateInterval (x : bool) (r : page) : page :=
  {| modelFactory := modelFactory r; peerConnection := peerConnection r;
     localVideo := localVideo r; srcObject := srcObject r;
     localCanvas := localCanvas r; canvasDisplayed := canvasDisplayed r;
     rafQueue := rafQueue r; nextHandle := nextHandle r;
     outstanding := outstanding r; metricUpdateInterval := x;
     nextInstance := nextInstance r; nextTrack := nextTrack r |}.

Definition set_nextInstance (x : nat) (r : page) : page :=
  {| modelFactory := modelFactory r; peerConnection := peerConnection r;
     localVideo := localVideo r; srcObject := srcObject r;
     localCanvas := localCanvas r; canvasDisplayed := canvasDisplayed r;
     rafQueue := rafQueue r; nextHandle := nextHandle r;
     outstanding := outstanding r;
     metricUpdateInterval := metricUpdateInterval r; nextInstance := x;
     nextTrack := nextTrack r |}.

Definition set_nextTrack (x : nat) (r : page) : page :=
  {| modelFactory := modelFactory r; peerConnection := peerConnection r;
     localVideo := localVideo r; srcObject := srcObject r;
     localCanvas := localCanvas r; canvasDisplayed := canvasDisplayed r;
     rafQueue := rafQueue r; nextHandle := nextHandle r;
     outstanding := outstanding r;
     metricUpdateInterval := metricUpdateInterval r;
     nextInstance := nextInstance r; nextTrack := x |}.

Definition set_frameCalls (x : list Q) (r : observed) : observed :=
  {| frameCalls := x; published := published r; disposed := disposed r;
     alerts := alerts r; debugInfo := debugInfo r |}.

Definition set_published (x : nat) (r : observed) : observed :=
  {| frameCalls := frameCalls r; published := x; disposed := disposed r;
     alerts := alerts r; debugInfo := debugInfo r |}.

Definition set_disposed (x : list nat) (r : observed) : observed :=
  {| frameCalls := frameCalls r; published := published r; disposed := x;
     alerts := alerts r; debugInfo := debugInfo r |}.

Definition set_alerts (x : list (string * string)) (r : observed) : observed :=
  {| frameCalls := frameCalls r; published := published r;
     disposed := disposed r; alerts := x; debugInfo := debugInfo r |}.

Definition set_debugInfo (x : list string) (r : observed) : observed :=
  {| frameCalls := frameCalls r; published := published r;
     disposed := disposed r; alerts := alerts r; debugInfo := x |}.

Definition upd_vb (f : virtualBackground -> virtualBackground) (w : world) : world :=
  {| vb := f (vb w); mt := mt w; pg := pg w; ob := ob w |}.

Definition upd_mt (f : metrics -> metrics) (w : world) : world :=
  {| vb := vb w; mt := f (mt w); pg := pg w; ob := ob w |}.

Definition upd_pg (f : page -> page) (w : world) : world :=
  {| vb := vb w; mt := mt w; pg := f (pg w); ob := ob w |}.

Definition upd_ob (f : observed -> observed) (w : world) : world :=
  {| vb := vb w; mt := mt w; pg := pg w; ob := f (ob w) |}.

Definition debug (msg : string) (w : world) : world :=
  upd_ob (fun o => set_debugInfo (debugInfo o ++ [msg]) o) w.

Definition showAlert (msg ty : string) (w : world) : world :=
  upd_ob (fun o => set_alerts (alerts o ++ [(msg, ty)]) o) w.

(** Several calls of [updateDebugInfo] in a row. *)
Definition debugAll (msgs : list string) (w : world) : world :=
  upd_ob (fun o => set_debugInfo (debugInfo o ++ msgs) o) w.

(** What a call that took the factory from [f] to [f'] handed to the
    factory's [debugCallback]. *)
Definition handed (f f' : BackgroundModelFactory.factory) : list string :=
  drop (length (BackgroundModelFactory.debugLog f))
       (BackgroundModelFactory.debugLog f').


(** *** Performance metrics *)

Definition MAX_MEASUREMENTS : nat := 30%nat.

(** [arr.push(x); if (arr.length > MAX_MEASUREMENTS) arr.shift();] *)
Definition pushBounded (x : Q) (arr : list Q) : list Q :=
  let arr' := arr ++ [x] in
  if (MAX_MEASUREMENTS <? length arr')%nat then tail arr' else arr'.

(** [updatePerformanceMetrics(segmentationTime, frameTime)]; [now] is the
    value of [performance.now()]. *)
Definition updatePerformanceMetrics (now segmentationTime frameTime : Q)
           (m : metrics) : metrics :=
  {| lastFrameTime := now;
     frameTimes :=
       if Js.truthy (lastFrameTime m)
       then pushBounded (now - lastFrameTime m) (frameTimes m)
       else frameTimes m;
     segmentationTimes := pushBounded segmentationTime (segmentationTimes m);
     totalProcessedFrames := S (totalProcessedFrames m);
     totalSegmentationTime := totalSegmentationTime m + segmentationTime;
     totalFrameProcessingTime := totalFrameProcessingTime m + frameTime;
     sessionStartTime := sessionStartTime m |}.

Definition resetMetrics (now : Q) (m : metrics) : metrics :=
  {| lastFrameTime := 0; frameTimes := []; segmentationTimes := [];
     totalProcessedFrames := 0; totalSegmentationTime := 0;
     totalFrameProcessingTime := 0; sessionStartTime := Some now |}.

(** The module-level initialisers. *)
Definition metrics0 : metrics :=
  {| lastFrameTime := 0; frameTimes := []; segmentationTimes := [];
     totalProcessedFrames := 0; totalSegmentationTime := 0;
     totalFrameProcessingTime := 0; sessionStartTime := None |}.

(** [arr.reduce((a, b) => a + b, 0)] *)
Definition sum (arr : list Q) : Q := fold_left Qplus arr 0.

(** [arr.length > 0 ? sum / arr.length : 0] *)
Definition average (arr : list Q) : Q :=
  if (0 <? length arr)%nat
  then sum arr / inject_Z (Z.of_nat (length arr))
  else 0.

(** [avgFrameTime ? 1000 / avgFrameTime : 0] *)
Definition perSecond (avgFrameTime : Q) : Q :=
  if Js.truthy avgFrameTime then 1000 / avgFrameTime else 0.

(** The spec's wording of the rate shown: 1000 / meanDelta, where
    meanDelta is the mean of the inter-frame deltas of the window, their
    sum divided by their number. *)
Fixpoint windowSum (window : list Q) : Q :=
  match window with
  | [] => 0
  | delta :: rest => delta + windowSum rest
  end.

Definition meanDelta (window : list Q) : Q :=
  windowSum window / inject_Z (Z.of_nat (length window)).

(** What [updateMetricsDisplay] computes before formatting. *)
Record display := {
  avgSegmentationTime : Q;
  avgFrameTime : Q;
  fps : Q;
  sessionDuration : Q;
  avgFps : Q;
  avgSegTime : Q;
  avgFrameProcessTime : Q
}.

Definition updateMetricsDisplay (now : Q) (w : world) : display :=
  let m := mt w in
  let target := targetFps (vb w) in
  let avgFrameTime := average (frameTimes m) in
  let sessionDuration :=
    match sessionStartTime m with
    | Some s => if Js.truthy s then (now - s) / 1000 else 0
    | None => 0
    end in
  let frames := inject_Z (Z.of_nat (totalProcessedFrames m)) in
  {| avgSegmentationTime := average (segmentationTimes m);
     avgFrameTime := avgFrameTime;
     fps :=
       if Js.truthy target
       then Qmin target (perSecond avgFrameTime)
       else perSecond avgFrameTime;
     sessionDuration := sessionDuration;
     avgFps :=
       if Qlt_le_dec 0 sessionDuration
       then (if Js.truthy target
             then Qmin target (frames / sessionDuration)
             else frames / sessionDuration)
       else 0;
     avgSegTime :=
       if (0 <? totalProcessedFrames m)%nat
       then totalSegmentationTime m / frames else 0;
     avgFrameProcessTime :=
       if (0 <? totalProcessedFrames m)%nat
       then totalFrameProcessingTime m / frames else 0 |}.

(** [Number.prototype.toFixed(1)] as a number of tenths: for [x >= 0] the
    integer [n] with [n / 10] closest to [x], the larger one on a tie; a
    negative [x] is formatted as the opposite of [-x]. *)
Definition toFixed1 (x : Q) : Z :=
  if Qlt_le_dec x 0
  then (- Qfloor (- x * 10 + (1 # 2)))%Z
  else Qfloor (x * 10 + (1 # 2)).

(** The [fps] of [getPerformanceMetrics] (the accessor ModelLabUI uses):
    [frameTimes.length > 0 ? 1000 / mean : 0], with no clamp.  [None] stands
    for the non-finite quotient of a zero mean. *)
Definition getPerformanceMetrics_fps (w : world) : option Q :=
  if (0 <? length (frameTimes (mt w)))%nat then
    if Js.truthy (average (frameTimes (mt w)))
    then Some (1000 / average (frameTimes (mt w)))
    else None
  else Some 0.

(** A metric sample as [applyVirtualBackground] records it: the clock, and
    the two timings of the result. *)
Record sample := {
  at_ : Q;
  seg : Q;
  total : Q
}.

Definition recordSample (m : metrics) (s : sample) : metrics :=
  updatePerformanceMetrics (at_ s) (seg s) (total s) m.

Definition recordAll (ss : list sample) (m : metrics) : metrics :=
  fold_left recordSample ss m.

(** The last [n] elements of a list (all of it when it is shorter). *)
Definition lastN {A} (n : nat) (l : list A) : list A :=
  drop (length l - n) l.

(** The inter-frame deltas of a run of clock readings. *)
Fixpoint deltasFrom (prev : Q) (clock : list Q) : list Q :=
  match clock with
  | [] => []
  | t :: rest => (t - prev) :: deltasFrom t rest
  end.

Definition deltas (clock : list Q) : list Q :=
  match clock with
  | [] => []
  | t :: rest => deltasFrom t rest
  end.

(** *** The capture loop *)

(** [virtualBackground.animationFrame = requestAnimationFrame(processVideoFrames)] *)
Definition requestAnimationFrame (w : world) : world :=
  let h := nextHandle (pg w) in
  upd_vb (set_animationFrame (Some h))
    (upd_pg (fun p => set_nextHandle (Pos.succ h)
                        (set_rafQueue (rafQueue p ++ [h]) p)) w).

Definition cancelAnimationFrame (h : positive) (w : world) : world :=
  upd_pg (fun p => set_rafQueue (filter (fun x => x <> h) (rafQueue p)) p) w.

(** [if (virtualBackground.animationFrame) { cancelAnimationFrame(...);
    virtualBackground.animationFrame = null; }] *)
Definition stopFrames (w : world) : world :=
  match animationFrame (vb w) with
  | Some h => upd_vb (set_animationFrame None) (cancelAnimationFrame h w)
  | None => w
  end.

(** [if (videoTrack && videoTrack.requestFrame) videoTrack.requestFrame()] *)
Definition requestFrame (w : world) : world :=
  match videoTrack (vb w) with
  | Some _ => upd_ob (fun o => set_published (S (published o)) o) w
  | None => w
  end.

(** [applyVirtualBackground()] up to [await activeModel.processFrame(...)].
    [tv] is the video time of the frame handed to the adapter.  The result
    tells whether the call is suspended at the [await]; if not, the function
    has already returned.  The choice of the background image is left out,
    and with it the check made for the type 'office' when its image is not
    complete: two lines in the debug panel, a new request for the image,
    and the beach image handed to the adapter for this frame. *)
Definition applyVirtualBackground_begin (tv : Q) (w : world) : world * bool :=
  if negb (enabled (vb w)) then (w, false)
  else
    match activeModel (vb w) with
    | None => (w, false)
    | Some i =>
        (upd_ob (fun o => set_frameCalls (tv :: frameCalls o) o)
           (upd_pg (fun p => set_outstanding (outstanding p ++ [i]) p) w),
         true)
    end.

(** How the promise of [processFrame] settles: fulfilled with a result
    object (or a falsy value), the adapter having drawn [drawn] on the
    canvas, or rejected. *)
Inductive outcome :=
| Fulfilled (r : option MediaPipeModel.result) (drawn : surface)
| Rejected (message : string).

(** The rest of [applyVirtualBackground] once the [await] is over, followed
    by the [.then] / [.catch] handlers of [processVideoFrames]: all of them
    schedule the next callback.  [tv] is the video time when the
    continuation runs, [now] the clock. *)
Definition applyVirtualBackground_resume (out : outcome) (tv now : Q)
           (w : world) : world :=
  match out with
  | Fulfilled r drawn =>
      let w := upd_pg (set_localCanvas (Some (tv, drawn))) w in
      let w :=
        match r with
        | Some res =>
            upd_mt (updatePerformanceMetrics now
                      (MediaPipeModel.segmentationTime res)
                      (MediaPipeModel.totalTime res)) w
        | None => w
        end in
      requestAnimationFrame (requestFrame w)
  | Rejected message =>
      let w := debug ("Error processing frame: " +:+ message) w in
      if context (vb w) then
        (* Fallback to original video *)
        let w := upd_pg (set_localCanvas (Some (tv, SourceFrame))) w in
        requestAnimationFrame (requestFrame w)
      else
        (* context.drawImage throws inside the catch block: .catch runs *)
        requestAnimationFrame
          (debug "Error in frame processing: context is null" w)
  end.

(** [processVideoFrames()], run with the video at time [tv].  The
    adjustment of the canvas size to the video size, made before a frame is
    processed, is left out: the canvas is modelled by what it shows. *)
Definition processVideoFrames (tv : Q) (w : world) : world :=
  if negb (enabled (vb w)) || negb (localVideo (pg w)) then stopFrames w
  else if Qeq_bool (lastProcessedVideoTime (vb w)) tv then
    (* Schedule next check without processing *)
    requestAnimationFrame w
  else
    let w := upd_vb (set_lastProcessedVideoTime tv) w in
    let '(w, suspended) := applyVirtualBackground_begin tv w in
    if suspended then w else requestAnimationFrame w.

(** *** Loading a model and toggling the effect *)

Inductive initOutcome :=
| InitTrue                       (* init() resolves to true *)
| InitFalse                      (* init() resolves to false *)
| InitThrows (message : string). (* init() rejects *)

(** What the page answers while a model is loaded: whether the [import()]
    of an adapter succeeds, how [init()] of the new adapter ends and what it
    hands to its [debugCallback] on the way, and, for the adapter that is
    replaced, what its [dispose()] hands to the callback and the message of
    the exception it throws, if it does. *)
Record loadEnv := {
  importOk : BackgroundModelFactory.modelKind -> bool;
  initResult : initOutcome;
  initSaid : list string;
  disposeSaid : list string;
  disposeThrows : option string
}.



(** [loadSelectedModel(modelType = null)]; the two [await]s are taken in
    one transition: no other call of the service runs while the model
    loads. *)
Definition loadSelectedModel (modelType : option string) (env : loadEnv)
           (w : world) : world * bool :=
  let w :=
    match modelType with
    | Some m => if Js.truthy_str m then upd_vb (set_model m) w else w
    | None => w
    end in
  (* Clean up existing model if any *)
  let w :=
    match activeModel (vb w) with
    | Some i =>
        let w :=
          debugAll (disposeSaid env)
            (upd_ob (fun o => set_disposed (disposed o ++ [iid i]) o) w) in
        match disposeThrows env with
        | Some message =>
            debug ("Error disposing current model: " +:+ message) w
        | None => w
        end
    | None => w
    end in
  let failed (why : string) (w : world) : world * bool :=
    (showAlert ("Could not initialize " +:+ model (vb w) +:+ " model.") "error"
       (debug ("Error initializing model: " +:+ why) w),
     false) in
  match modelFactory (pg w) with
  | None => failed "Model factory not initialized" w
  | Some f =>
      let '(f', made) :=
        BackgroundModelFactory.createModel (importOk env) (model (vb w)) f in
      let w := debugAll (handed f f') (upd_pg (set_modelFactory (Some f')) w) in
      match made with
      | None =>
          failed ("Failed to create model of type: " +:+ model (vb w))
                 (upd_vb (set_activeModel None) w)
      | Some k =>
          let i := {| kind := k; iid := nextInstance (pg w) |} in
          let w :=
            upd_pg (fun p => set_nextInstance (S (nextInstance p)) p)
              (upd_vb (set_activeModel (Some i)) w) in
          (* await virtualBackground.activeModel.init() *)
          let w := debugAll (initSaid env) w in
          match initResult env with
          | InitTrue =>
              (showAlert (model (vb w) +:+ " model initialized successfully")
                 "success" w, true)
          | InitFalse => (w, false)
          | InitThrows message => failed message w
          end
      end
  end.

(** [senders.find(s => s.track && s.track.kind === 'video')], then
    [replaceTrack(t)] on the sender found. *)
Fixpoint replaceVideoTrack (t : trackId) (senders : list sender) : list sender :=
  match senders with
  | [] => []
  | Some t0 :: rest =>
      if isVideo t0 then Some t :: rest
      else Some t0 :: replaceVideoTrack t rest
  | None :: rest => None :: replaceVideoTrack t rest
  end.

(** [Math.round] *)
Definition round (x : Q) : Q := inject_Z (Qfloor (x + (1 # 2))).

Record toggleEnv := {
  now : Q;                   (* performance.now() *)
  load : loadEnv;
  frameRate : option Q;      (* getSettings().frameRate of the camera track *)
  currentTime : Q            (* localVideo.currentTime *)
}.

(** [toggle()].  The [await] of [loadSelectedModel] is taken in one
    transition: the call runs to its end before any callback or any other
    call of the service starts. *)
Definition toggle (env : toggleEnv) (w : world) : world :=
  let w := upd_vb (set_enabled (negb (enabled (vb w)))) w in
  if enabled (vb w) then
    (* Reset metrics when enabling *)
    let w := upd_mt (resetMetrics (now env)) w in
    (* Reset frame synchronization tracking *)
    let w := upd_vb (set_lastProcessedVideoTime (-1)) w in
    (* Start metrics updates *)
    let w := upd_pg (set_metricUpdateInterval true) w in
    let '(w, loaded) := loadSelectedModel None (load env) w in
    if negb loaded then
      (* If model loading fails, disable virtual background *)
      upd_pg (set_canvasDisplayed false) (upd_vb (set_enabled false) w)
    else
      let capture := Capture (nextTrack (pg w)) in
      let w := upd_pg (fun p => set_nextTrack (S (nextTrack p)) p) w in
      let w :=
        upd_vb (fun v =>
                  set_videoTrack (Some capture)
                    (set_canvasStream
                       (Some {| videoTracks := [capture]; audioTracks := [] |})
                       v)) w in
      match srcObject (pg w) with
      | None => w     (* srcObject.getVideoTracks(): TypeError, toggle rejects *)
      | Some src =>
          let fps :=
            match videoTracks src, frameRate env with
            | _ :: _, Some r => if Js.truthy r then round r else 30
            | _, _ => 30
            end in
          let w :=
            debug ("Source video FPS capability: " +:+ pretty (Qfloor fps))
                  (upd_vb (set_targetFps fps) w) in
          let w :=
            upd_vb (fun v =>
                      set_stream (Some src)
                        (set_canvasStream
                           (Some {| videoTracks := [capture];
                                    audioTracks := audioTracks src |})
                           v)) w in
          let w := upd_pg (set_canvasDisplayed true) w in
          (* If already in a WebRTC connection, replace the existing track *)
          let w :=
            upd_pg (fun p =>
                      set_peerConnection
                        (replaceVideoTrack capture <$> peerConnection p) p) w in
          (* Start processing frames *)
          let w := processVideoFrames (currentTime env) w in
          debug ("Virtual background enabled: " +:+ model (vb w)) w
      end
  else
    (* Stop metrics updates *)
    let w := upd_pg (set_metricUpdateInterval false) w in
    (* Hide canvas *)
    let w := upd_pg (set_canvasDisplayed false) w in
    (* Restore original stream *)
    let w :=
      match stream (vb w) with
      | Some s =>
          let w :=
            match videoTracks s with
            | original :: _ =>
                upd_pg (fun p =>
                          set_peerConnection
                            (replaceVideoTrack original <$> peerConnection p) p)
                       w
            | [] => w
            end in
          upd_pg (set_srcObject (Some s)) w
      | None => w
      end in
    (* Stop processing frames *)
    let w := stopFrames w in
    debug "Virtual background disabled" w.

(** *** The browser's event loop around the service *)

Inductive event :=
| RafFire (h : positive) (tv : Q)
    (* the animation-frame callback with handle h runs *)
| Settle (k : nat) (out : outcome) (tv now : Q).
    (* the k-th outstanding processFrame promise settles *)

Definition step (e : event) (w : world) : option world :=
  match e with
  | RafFire h tv =>
      if bool_decide (h ∈ rafQueue (pg w))
      then Some (processVideoFrames tv (cancelAnimationFrame h w))
      else None
  | Settle k out tv now =>
      match outstanding (pg w) !! k with
      | Some _ =>
          Some (applyVirtualBackground_resume out tv now
                  (upd_pg (fun p => set_outstanding (delete k (outstanding p)) p)
                          w))
      | None => None
      end
  end.

Fixpoint run (es : list event) (w : world) : option world :=
  match es with
  | [] => Some w
  | e :: es' =>
      match step e w with
      | Some w' => run es' w'
      | None => None
      end
  end.

(** The load of the loop: callbacks scheduled plus calls outstanding. *)
Definition load_of (w : world) : nat :=
  (length (rafQueue (pg w)) + length (outstanding (pg w)))%nat.



(** The service as [initVirtualBackground] creates it, in a page whose
    camera stream and peer connection are given. *)
Definition initVirtualBackground
           (f : option BackgroundModelFactory.factory)
           (src : option mediaStream) (pc : option (list sender)) : world :=
  {| vb := {| enabled := false; type := "none"; model := "mediaPipe";
              activeModel := None; stream := None; context := false;
              animationFrame := None; targetFps := 30;
              lastProcessedVideoTime := -1; videoTrack := None;
              canvasStream := None |};
     mt := metrics0;
     pg := {| modelFactory := f; peerConnection := pc; localVideo := true;
              srcObject := src; localCanvas := None; canvasDisplayed := false;
              rafQueue := []; nextHandle := 1; outstanding := [];
              metricUpdateInterval := false; nextInstance := 0;
              nextTrack := 0 |};
     ob := {| frameCalls := []; published := 0; disposed := []; alerts := [];
              debugInfo := [] |} |}.

(** [setContext(context)].  The loading of the two background images that
    it starts, and what their [onload] and [onerror] handlers and the
    preload check write to the debug panel later on, are left out with the
    images. *)
Definition setContext (w : world) : world := upd_vb (set_context true) w.

Definition setVirtualBackgroundType (t : string) (w : world) : world :=
  debug ("Background type set to: " +:+ t) (upd_vb (set_type t) w).

End BackgroundService.


(** ** js/components/ModelLabUI.js *)

Module ModelLabUI.

Import BackgroundService.

(** [this.modelFactory.setUserPreferredModel(modelId, config)], the step of
    [_selectModel] that records an explicit choice.  The factory of the lab
    UI is the one published as [window.modelFactory]; without it the call
    throws. *)
Definition setUserPreferredModel (modelId : string)
           (cfg : BackgroundModelFactory.config) (w : world)
  : option (world * bool) :=
  match modelFactory (pg w) with
  | Some f =>
      let '(f', ok) :=
        BackgroundModelFactory.setUserPreferredModel modelId cfg f in
      Some (upd_pg (set_modelFactory (Some f')) w, ok)
  | None => None
  end.

End ModelLabUI.

(** ** Concrete runs used below *)

Module Scenario.

Import Canvas BackgroundService.
Local Open Scope Q_scope.

(** Thirty-two samples taken 16 ms apart. *)
Definition samples32 : list sample :=
  map (fun i : nat =>
         {| at_ := inject_Z (Z.of_nat (S i)) * 16;
            seg := inject_Z (Z.of_nat i);
            total := inject_Z (Z.of_nat i) + 1 |})
      (seq 0 32).

(** A service whose window says 8 ms per frame (125 frames per second)
    while the camera delivers 30. *)
Definition fastWorld : world :=
  upd_mt (fun m =>
            {| lastFrameTime := 24; frameTimes := [8; 8];
               segmentationTimes := [3; 3; 3];
               totalProcessedFrames := 3; totalSegmentationTime := 9;
               totalFrameProcessingTime := 12;
               sessionStartTime := Some 1 |})
         (initVirtualBackground None None None).

(** A MediaPipe adapter whose [init()] has completed, in front of a
    640x480 canvas. *)
Definition readyState : MediaPipeModel.state :=
  (MediaPipeModel.init_complete
     (MediaPipeModel.init true
        (MediaPipeModel.new, MediaPipeModel.heap0)).1).1.

Definition blurFrame : MediaPipeModel.frame :=
  {| MediaPipeModel.videoWidth := 640; MediaPipeModel.videoHeight := 480;
     MediaPipeModel.backgroundType := "blur";
     MediaPipeModel.backgroundImage := None |}.

Definition readyAdapter : MediaPipeModel.world :=
  {| MediaPipeModel.st := readyState;
     MediaPipeModel.cv :=
       {| MediaPipeModel.width := 640; MediaPipeModel.height := 480;
          MediaPipeModel.shown := Blank |};
     MediaPipeModel.awaiting := [];
     MediaPipeModel.sends := 0 |}.

(** The capture loop's use of the adapter: each call settles before the
    next one starts. *)
Definition serialCalls : list MediaPipeModel.event :=
  [ MediaPipeModel.Call 0 1 blurFrame;
    MediaPipeModel.Call 16 17 blurFrame;
    MediaPipeModel.Results 7;
    MediaPipeModel.SendSettles 0 true 40 41;
    MediaPipeModel.Call 48 49 blurFrame;
    MediaPipeModel.Call 64 65 blurFrame;
    MediaPipeModel.SendSettles 0 false 80 81 ].

(** A page with a camera, a call in progress and the model factory. *)
Definition camera : mediaStream :=
  {| videoTracks := [Camera 0]; audioTracks := [Microphone 0] |}.

Definition page0 : world :=
  setContext
    (initVirtualBackground (Some BackgroundModelFactory.new) (Some camera)
       (Some [Some (Microphone 0); Some (Camera 0)])).

(** Switching the effect on or off at video time [tv]; the model loads. *)
Definition press (tv : Q) : toggleEnv :=
  {| now := 100;
     load := {| importOk := fun _ => true; initResult := InitTrue;
                initSaid := MediaPipeModel.initSaid [] None;
                disposeSaid := []; disposeThrows := None |};
     frameRate := Some 30;
     currentTime := tv |}.

(** The same page once BodyPix has been made the current model. *)
Definition bodypixPage : world := upd_vb (set_model "bodypix") page0.

(** What [loadSelectedModel] receives from [init()] of the BodyPix
    adapters. *)
Definition ofBodyPix (o : BodyPixModel.outcome) : initOutcome :=
  match o with
  | BodyPixModel.ReturnedTrue => InitTrue
  | BodyPixModel.Thrown => InitThrows "Failed to fetch"
  end.

Definition ofBodyPixNet (o : BodyPixModelNet.outcome) : initOutcome :=
  match o with
  | BodyPixModelNet.ResolvedTrue => InitTrue
  | BodyPixModelNet.ResolvedFalse => InitFalse
  end.

(** A page on which TensorFlow.js and the BodyPix library are present
    and the network cannot be fetched. *)
Definition offline : BodyPixModelNet.loading :=
  {| BodyPixModelNet.tf := true; BodyPixModelNet.tfScript := true;
     BodyPixModelNet.bodyPix := true; BodyPixModelNet.bodyPixScript := true;
     BodyPixModelNet.bodyPixDefined := true;
     BodyPixModelNet.loadError := Some "Failed to fetch" |}.

(** Switching the effect on when the network cannot be loaded: with the
    adapter whose [init()] then resolves to [false], and with the one whose
    [init()] then rejects. *)
Definition pressInitFalse : toggleEnv :=
  {| now := 100;
     load := {| importOk := fun _ => true;
                initResult :=
                  ofBodyPixNet
                    (BodyPixModelNet.init true false
                       (BodyPixModelNet.new, 0%nat)).2;
                initSaid := (BodyPixModelNet.initSaid offline).1;
                disposeSaid := []; disposeThrows := None |};
     frameRate := Some 30;
     currentTime := 0 |}.

Definition pressInitThrows : toggleEnv :=
  {| now := 100;
     load := {| importOk := fun _ => true;
                initResult :=
                  ofBodyPix
                    (BodyPixModel.init false (BodyPixModel.new, 0%nat)).2;
                initSaid := BodyPixModel.initSaid (Some "Failed to fetch");
                disposeSaid := []; disposeThrows := None |};
     frameRate := Some 30;
     currentTime := 0 |}.

Definition composited : outcome :=
  Fulfilled (Some {| MediaPipeModel.segmentationTime := 12;
                     MediaPipeModel.totalTime := 15 |})
            (BlurComposite 7).

(** A session: the first frame is processed, the next callback finds the
    same frame, the following one a new frame whose processing fails, and
    the loop goes on with a third frame. *)
Definition session : list event :=
  [ Settle 0 composited 0 116;
    RafFire 1 0;
    RafFire 2 (1 # 30);
    Settle 0 (Rejected "InvalidStateError") (1 # 30) 150;
    RafFire 3 (2 # 30) ].

(** A camera that reports 29.97 frames per second, and one that reports
    0.4. *)
Definition ntsc : toggleEnv :=
  {| now := 100; load := load (press 0);
     frameRate := Some (2997 # 100); currentTime := 0 |}.

Definition slideshow : toggleEnv :=
  {| now := 100; load := load (press 0);
     frameRate := Some (2 # 5); currentTime := 0 |}.

(** Two frames processed 8 ms apart. *)
Definition twoFrames : list event :=
  [ Settle 0 composited 0 108;
    RafFire 1 (1 # 30);
    Settle 0 composited (1 # 30) 116 ].

End Scenario.


(** * Further parts of the sources

    Capability detection and the model list of the factory, the model list
    of the lab, [processFrame] of the BodyPix adapter, the session clock of
    the metrics panel, and [reloadBackgroundModel] with the [_selectModel]
    of the lab that calls it. *)

(** ** BackgroundModelFactory: capability detection and the model list *)

Module Capabilities.

Import BackgroundModelFactory.
Local Open Scope Q_scope.

Definition set_simdSupport (b : bool) (f : factory) : factory :=
  {| simdSupport := b; webglSupport := webglSupport f;
     webgl2Support := webgl2Support f;
     devicePerformance := devicePerformance f;
     availableModels := availableModels f;
     userPreferredModel := userPreferredModel f;
     userPreferredConfig := userPreferredConfig f;
     debugLog := debugLog f |}.

Definition set_webglSupport (b : bool) (f : factory) : factory :=
  {| simdSupport := simdSupport f; webglSupport := b;
     webgl2Support := webgl2Support f;
     devicePerformance := devicePerformance f;
     availableModels := availableModels f;
     userPreferredModel := userPreferredModel f;
     userPreferredConfig := userPreferredConfig f;
     debugLog := debugLog f |}.

Definition set_webgl2Support (b : bool) (f : factory) : factory :=
  {| simdSupport := simdSupport f; webglSupport := webglSupport f;
     webgl2Support := b;
     devicePerformance := devicePerformance f;
     availableModels := availableModels f;
     userPreferredModel := userPreferredModel f;
     userPreferredConfig := userPreferredConfig f;
     debugLog := debugLog f |}.

Definition set_devicePerformance (p : performance) (f : factory) : factory :=
  {| simdSupport := simdSupport f; webglSupport := webglSupport f;
     webgl2Support := webgl2Support f;
     devicePerformance := p;
     availableModels := availableModels f;
     userPreferredModel := userPreferredModel f;
     userPreferredConfig := userPreferredConfig f;
     debugLog := debugLog f |}.

(** The strings stored in [this.devicePerformance]. *)
Definition performanceName (p : performance) : string :=
  match p with
  | Unknown => "unknown"
  | Low => "low"
  | Medium => "medium"
  | High => "high"
  end.

(** What the factory reads from [navigator]: [hardwareConcurrency]
    ([None] when the browser does not define it) and whether the user agent
    matches the list of mobile names. *)
Record navigator := {
  hardwareConcurrency : option nat;
  mobileUserAgent : bool
}.

(** How the timing loop of [_runSimpleBenchmark] ends: with the elapsed
    milliseconds and their [toFixed(2)] text, or with an exception. *)
Inductive benchmark :=
| Completed (elapsed : Q) (text : string)
| Failed (message : string).

(** [_runSimpleBenchmark()] *)
Definition _runSimpleBenchmark (b : benchmark) (f : factory) : factory :=
  match b with
  | Completed benchmarkTime text =>
      let f :=
        if Qlt_le_dec benchmarkTime 50 then set_devicePerformance High f
        else if Qlt_le_dec benchmarkTime 200 then set_devicePerformance Medium f
        else set_devicePerformance Low f in
      debug ("Performance benchmark completed in " +:+ text +:+ "ms: "
             +:+ performanceName (devicePerformance f)) f
  | Failed message => debug ("Error running benchmark: " +:+ message) f
  end.

(** [navigator.hardwareConcurrency || 1] *)
Definition cores (n : navigator) : nat :=
  match hardwareConcurrency n with
  | Some (S k) => S k
  | _ => 1%nat
  end.

(** [_estimateDevicePerformance()] *)
Definition _estimateDevicePerformance (n : navigator) (b : benchmark)
           (f : factory) : factory :=
  let f :=
    if (8 <=? cores n)%nat && webgl2Support f && negb (mobileUserAgent n)
    then set_devicePerformance High f
    else if (4 <=? cores n)%nat && webglSupport f
    then set_devicePerformance Medium f
    else set_devicePerformance Low f in
  (* Run a simple benchmark to refine the estimate *)
  _runSimpleBenchmark b f.

(** The browser the factory runs in: the answers of the three detection
    methods, the navigator, and the run of the benchmark. *)
Record host := {
  simd : bool;         (* _detectSIMDSupport() *)
  webgl : bool;        (* _detectWebGLSupport() *)
  webgl2 : bool;       (* _detectWebGL2Support() *)
  nav : navigator;
  bench : benchmark
}.

Definition yesNo (b : bool) : string := if b then "Yes" else "No".

(** [init()] *)
Definition init (h : host) (f : factory) : factory * bool :=
  let f := debug "Initializing BackgroundModelFactory..." f in
  let f := set_simdSupport (simd h) f in
  let f := debug ("WebAssembly SIMD support: " +:+ yesNo (simdSupport f)) f in
  let f := set_webglSupport (webgl h) f in
  let f := debug ("WebGL support: " +:+ yesNo (webglSupport f)) f in
  let f := set_webgl2Support (webgl2 h) f in
  let f := debug ("WebGL 2 support: " +:+ yesNo (webgl2Support f)) f in
  let f := _estimateDevicePerformance (nav h) (bench h) f in
  let f := debug ("Estimated device performance: "
                  +:+ performanceName (devicePerformance f)) f in
  (f, true).

(** An element of the [variants] array that [getAvailableModels] returns:
    the variant of the table with the two fields added. *)
Record listedVariant := {
  base : variant;
  isCompatible : bool;
  incompatibilityReason : option string
}.

(** An element of the array that [getAvailableModels] returns.  A model
    that has no [variants] field is listed with an empty list. *)
Record listedModel := {
  id : string;
  lname : string;
  ldescription : option string;
  lisImplemented : bool;
  lvariants : list listedVariant
}.

Definition listVariant (f : factory) (v : variant) : listedVariant :=
  {| base := v;
     isCompatible := negb (vsimdRequired v && negb (simdSupport f));
     incompatibilityReason :=
       if vsimdRequired v && negb (simdSupport f)
       then Some "SIMD required but not supported by browser"
       else None |}.

Definition listModel (f : factory) (entry : string * modelInfo) : listedModel :=
  {| id := entry.1;
     lname := name entry.2;
     ldescription := description entry.2;
     lisImplemented := isImplemented entry.2;
     lvariants := listVariant f <$> variants entry.2 |}.

(** [getAvailableModels()].  The entries come in the order in which the
    map enumerates its keys, which need not be the order of the literal. *)
Definition getAvailableModels (f : factory) : list listedModel :=
  listModel f <$> map_to_list (availableModels f).

(** [getDeviceCapabilities()]; [reportedCores] is
    [navigator.hardwareConcurrency || 'unknown'], [None] for 'unknown'. *)
Record deviceCapabilities := {
  dsimdSupport : bool;
  dwebglSupport : bool;
  dwebgl2Support : bool;
  ddevicePerformance : performance;
  reportedCores : option nat;
  isMobile : bool;
  preferredModel : option string;
  recommendedModel : string
}.

Definition getDeviceCapabilities (n : navigator) (f : factory)
  : deviceCapabilities :=
  {| dsimdSupport := simdSupport f;
     dwebglSupport := webglSupport f;
     dwebgl2Support := webgl2Support f;
     ddevicePerformance := devicePerformance f;
     reportedCores :=
       match hardwareConcurrency n with
       | Some (S k) => Some (S k)
       | _ => None
       end;
     isMobile := mobileUserAgent n;
     preferredModel := userPreferredModel f;
     recommendedModel := _selectOptimalModel f |}.

(** The [try] / [catch] at the end of [createModel]: the adapter wanted if
    its module can be imported, else MediaPipe if that one can, else
    [null]. *)
Definition imported (importOk : modelKind -> bool) (wanted : modelKind)
  : option modelKind :=
  if importOk wanted then Some wanted
  else if importOk MediaPipe then Some MediaPipe else None.

(** The adapter the [switch] of [createModel] picks for a name. *)
Definition adapterFor (modelType : string) : modelKind :=
  if bool_decide (Js.toLowerCase modelType = "bodypix") then BodyPix
  else MediaPipe.

End Capabilities.

(** ** ModelLabUI: the buttons of the model list *)

Module ModelList.

Import BackgroundModelFactory Capabilities.

(** A button of the list drawn by [_loadAvailableModels]: a "Try" button
    of a variant carries [data-model] and [data-variant], the "Select"
    button of a model without variants carries [data-model] only. *)
Record button := {
  dataModel : string;
  dataVariant : option string;
  disabled : bool
}.

(** The buttons drawn for one model. *)
Definition buttonsOf (m : listedModel) : list button :=
  match lvariants m with
  | _ :: _ =>
      (fun v =>
         {| dataModel := id m;
            dataVariant := Some (vname (base v));
            disabled := negb (lisImplemented m) || negb (isCompatible v) |})
        <$> lvariants m
  | [] =>
      [ {| dataModel := id m; dataVariant := None;
           disabled := negb (lisImplemented m) |} ]
  end.

Definition buttons (f : factory) : list button :=
  mbind buttonsOf (getAvailableModels f).

(** [_selectModel(modelId, config)] up to its call of the factory; the
    answer of the factory, which [_selectModel] drops, is kept here. *)
Definition _selectModel (modelId : string) (cfg : config) (f : factory)
  : factory * bool :=
  if bool_decide (modelId = "auto") then resetUserPreferredModel f
  else setUserPreferredModel modelId cfg f.

(** The click handler of a button: the model and the variant are looked up
    again by the attributes of the button.  [None] when the handler does not
    call [_selectModel]. *)
Definition click (b : button) (f : factory) : option (factory * bool) :=
  match dataVariant b with
  | Some variantName =>
      match List.find (fun m => bool_decide (id m = dataModel b))
                      (getAvailableModels f) with
      | Some m =>
          match List.find (fun v => bool_decide (vname (base v) = variantName))
                          (lvariants m) with
          | Some v =>
              Some (_selectModel (dataModel b)
                      {| simdRequired := vsimdRequired (base v);
                         cvariant := Some variantName;
                         cresolution := Some (resolution (base v));
                         cbackend := backend (base v) |} f)
          | None => None
          end
      | None => None
      end
  | None => Some (_selectModel (dataModel b) emptyConfig f)
  end.

End ModelList.

(** ** Measures on the traces of the MediaPipe adapter *)

Module MediaPipeTrace.

Import MediaPipeModel.

(** The [processFrame] calls of a trace. *)
Definition calls (es : list event) : nat :=
  length (List.filter (fun e => match e with Call _ _ _ => true | _ => false end) es).

(** Whether the skip counter stands above zero. *)
Definition skipped (s : state) : nat :=
  if (0 <? skippedFrames s)%nat then 1%nat else 0%nat.

(** Every call of the trace hands over a video of the given size. *)
Definition callsSized (w h : Z) (es : list event) : Prop :=
  Forall (fun e => match e with
                   | Call _ _ fr => videoWidth fr = w /\ videoHeight fr = h
                   | _ => True
                   end) es.

(** Whether the arguments of a call ask for an effect that can be drawn:
    a blur, or one of the image backgrounds with an image that is loaded. *)
Definition effectReady (fr : frame) : bool :=
  bool_decide (backgroundType fr = "blur")
  || ((bool_decide (backgroundType fr = "beach")
       || bool_decide (backgroundType fr = "office")
       || bool_decide (backgroundType fr = "custom"))
      && match backgroundImage fr with Some true => true | _ => false end).

(** The skip limit is 1 or 2, and 2 whenever the low-power flag is set. *)
Definition modeOk (s : state) : Prop :=
  (maxSkippedFrames s = 1%nat \/ maxSkippedFrames s = 2%nat) /\
  (isLowPowerMode s = true -> maxSkippedFrames s = 2%nat).

End MediaPipeTrace.

(** ** models/BodyPixModel.js: processFrame *)

Module BodyPixFrames.

Import BodyPixModel.
Local Open Scope Q_scope.

(** What the calls made on the 2D context leave on the canvas. *)
Inductive painting :=
| Cleared                          (* a dimension was assigned *)
| Black                            (* fillRect with fillStyle 'black' *)
| Video                            (* ctx.drawImage(videoElement, ...) *)
| Bokeh (segmentation : nat)       (* bodyPix.drawBokehEffect(...) *)
| ImageAndPerson (segmentation : nat).
    (* the background image, then the person canvas drawn over it *)

Record canvas := {
  width : Z;
  height : Z;
  painted : painting
}.

Definition paint (p : painting) (c : canvas) : canvas :=
  {| width := width c; height := height c; painted := p |}.

(** What the library answers during one call: the segmentation returned by
    [segmentPerson] ([None] when the promise rejects) and whether the
    drawing helpers of the library ([drawBokehEffect], [toMask],
    [putImageData]) return normally. *)
Record library := {
  segmentPerson : option nat;
  drawOk : bool
}.

(** [processFrame(videoElement, canvasElement, backgroundType,
    backgroundImage)]; [t0] is [startTime], [tseg] the clock after the
    segmentation, [tend] the clock when the result object is built. *)
Definition processFrame (t0 tseg tend : Q) (lib : library)
           (fr : MediaPipeModel.frame) (sc : state * canvas)
  : canvas * MediaPipeModel.result :=
  let '(st, cv) := sc in
  let unsegmented :=
    {| MediaPipeModel.segmentationTime := 0;
       MediaPipeModel.totalTime := tend - t0 |} in
  let segmented :=
    {| MediaPipeModel.segmentationTime := tseg - t0;
       MediaPipeModel.totalTime := tend - t0 |} in
  let videoWidth := MediaPipeModel.or_dim (MediaPipeModel.videoWidth fr) 640 in
  let videoHeight := MediaPipeModel.or_dim (MediaPipeModel.videoHeight fr) 480 in
  (* Ensure we have valid dimensions *)
  if (MediaPipeModel.videoWidth fr =? 0)%Z
     || (MediaPipeModel.videoHeight fr =? 0)%Z then
    (paint Black cv, unsegmented)
  else
    (* Ensure canvas has valid dimensions *)
    let cv :=
      if negb (width cv =? videoWidth)%Z || negb (height cv =? videoHeight)%Z
      then {| width := videoWidth; height := videoHeight; painted := Cleared |}
      else cv in
    (* Double check if canvas has valid dimensions *)
    let cv :=
      if (width cv <=? 0)%Z || (height cv <=? 0)%Z
      then {| width := videoWidth; height := videoHeight; painted := Cleared |}
      else cv in
    (* Check if model is initialized *)
    if negb (isInitialized st) || negb (bool_decide (is_Some (model st))) then
      (paint Video cv, unsegmented)
    else
      match segmentPerson lib with
      | None => (* catch (error) *) (paint Video cv, unsegmented)
      | Some segmentation =>
          let bt := MediaPipeModel.backgroundType fr in
          if bool_decide (bt = "blur") then
            if drawOk lib then (paint (Bokeh segmentation) cv, segmented)
            else (paint Video cv, unsegmented)
          else if bool_decide (bt = "beach") || bool_decide (bt = "custom") then
            match MediaPipeModel.backgroundImage fr with
            | Some true =>
                if drawOk lib then
                  if (0 <? width cv)%Z && (0 <? height cv)%Z
                  then (paint (ImageAndPerson segmentation) cv, segmented)
                  else (paint Video cv, segmented)
                else (paint Video cv, unsegmented)
            | _ => (paint Video cv, segmented)
            end
          else (paint Video cv, segmented)
      end.

End BodyPixFrames.

(** ** backgroundService.js: the session clock of the metrics panel *)

Module SessionClock.

Local Open Scope Q_scope.

(** Truncation towards zero, the rounding of the quotient in the [%] of
    JavaScript. *)
Definition trunc (x : Q) : Z :=
  if Qlt_le_dec x 0 then (- Qfloor (- x))%Z else Qfloor x.

(** [x % y] for a divisor other than zero. *)
Definition remainder (x y : Q) : Q := x - y * inject_Z (trunc (x / y)).

(** [s.padStart(2, '0')] *)
Definition padStart2 (s : string) : string :=
  match String.length s with
  | 0%nat => "00"
  | 1%nat => "0" +:+ s
  | _ => s
  end.

(** [Math.floor(seconds / 60)] and [Math.floor(seconds % 60)] *)
Definition mins (seconds : Q) : Z := Qfloor (seconds / 60).
Definition secs (seconds : Q) : Z := Qfloor (remainder seconds 60).

(** [formatTime(seconds)], for the durations a session can reach: from
    1e21 minutes on JavaScript writes the number of minutes with an
    exponent. *)
Definition formatTime (seconds : Q) : string :=
  padStart2 (pretty (mins seconds)) +:+ ":" +:+ padStart2 (pretty (secs seconds)).

End SessionClock.

(** ** Measures on the traces of the service *)

Module ServiceTrace.

Import BackgroundService.

(** The [processFrame] promises that settle in a trace, and those among
    them that are fulfilled with a result object. *)
Definition settles (es : list event) : nat :=
  length (List.filter (fun e => match e with Settle _ _ _ _ => true
                                        | _ => false end) es).

Definition measured (es : list event) : nat :=
  length (List.filter (fun e => match e with
                                | Settle _ (Fulfilled (Some _) _) _ _ => true
                                | _ => false end) es).

(** The loop is on: the effect is enabled, the video element is there, and
    exactly one callback is scheduled or one call outstanding. *)
Definition running (w : world) : Prop :=
  enabled (vb w) = true /\ localVideo (pg w) = true /\ load_of w = 1%nat.

(** [senders.find(s => s.track && s.track.kind === 'video')], by the track
    of the sender found. *)
Fixpoint firstVideo (senders : list sender) : option trackId :=
  match senders with
  | [] => None
  | Some t :: rest => if isVideo t then Some t else firstVideo rest
  | None :: rest => firstVideo rest
  end.

(** What the user and the browser do to the service.  A call of
    [toggle()] or of [loadModel(m)] is one action: it runs to its end
    before the next action starts, so calls of the service do not
    overlap. *)
Inductive action :=
| Toggle (env : toggleEnv)                        (* toggle() *)
| LoadModel (m : option string) (env : loadEnv)   (* loadModel(m) *)
| Browser (e : event).                            (* a callback runs *)

Definition act (a : action) (w : world) : option world :=
  match a with
  | Toggle env => Some (toggle env w)
  | LoadModel m env => Some (loadSelectedModel m env w).1
  | Browser e => step e w
  end.

Fixpoint acts (l : list action) (w : world) : option world :=
  match l with
  | [] => Some w
  | a :: l' =>
      match act a w with
      | Some w' => acts l' w'
      | None => None
      end
  end.

(** Every adapter instance created so far is either the active model or
    has been disposed, once; the active model has not been disposed; and
    where there is no factory there is no active model. *)
Definition accounted (w : world) : Prop :=
  NoDup (disposed (ob w)) /\
  (forall i, i ∈ disposed (ob w) -> (i < nextInstance (pg w))%nat) /\
  (forall i, (i < nextInstance (pg w))%nat ->
     i ∈ disposed (ob w) \/ (iid <$> activeModel (vb w)) = Some i) /\
  match activeModel (vb w) with
  | Some inst =>
      (iid inst < nextInstance (pg w))%nat /\ (iid inst ∉ disposed (ob w)) /\
      is_Some (modelFactory (pg w))
  | None => True
  end.

End ServiceTrace.

(** ** backgroundService.js: reloading the model *)

Module Reload.

Import BackgroundService.
Local Open Scope Q_scope.

(** What the environment supplies during [reloadBackgroundModel]. *)
Record reloadEnv := {
  off : toggleEnv;       (* for the toggle that switches the effect off *)
  created : loadEnv;     (* the import made by createModel() and the
                            outcome of init() on the new model *)
  shownFps : Q;          (* parseFloat(fps.textContent) || 0 *)
  comparison : string;   (* the text built by showMetricsComparisonAlert *)
  resetAt : Q;           (* performance.now() in resetMetrics() *)
  on : toggleEnv         (* for the toggle that switches the effect on *)
}.

(** [resetAndSaveMetrics(oldModel)].  The entry written to the comparison
    table [modelMetrics] and the redrawing of the comparison section are
    left out, as the table is in [virtualBackground]; of the entry only the
    [fps] read back by [showMetricsComparisonAlert] matters here. *)
Definition resetAndSaveMetrics (env : reloadEnv) (oldModel : string)
           (w : world) : world :=
  if Js.truthy_str oldModel && negb (bool_decide (model (vb w) = oldModel))
  then
    (* Reset metrics for new model *)
    let w := upd_mt (resetMetrics (resetAt env)) w in
    (* Show a comparison alert to the user *)
    if Qlt_le_dec 0 (shownFps env) then showAlert (comparison env) "info" w
    else w
  else w.

(** Whether [toggle()] rejects: it does when, switching the effect on with
    a model that loads, it reaches [srcObject.getVideoTracks()] on a video
    element that has no stream. *)
Definition toggleRejects (env : toggleEnv) (w : world) : bool :=
  negb (enabled (vb w))
  && (loadSelectedModel None (load env) w).2
  && negb (bool_decide (is_Some (srcObject (pg w)))).

(** How the promise of [reloadBackgroundModel] settles. *)
Inductive reloaded :=
| Resolved (success : bool)
| Rejects.

(** [reloadBackgroundModel()]; each [await] is taken in one transition.
    The texts "newModel is null" and "srcObject is null" stand for the
    message of the TypeError. *)
Definition reloadBackgroundModel (env : reloadEnv) (w : world)
  : world * reloaded :=
  (* Store the current background state *)
  let wasEnabled := enabled (vb w) in
  (* If enabled, toggle it off first *)
  let w := if wasEnabled then toggle (off env) w else w in
  (* Get current model type *)
  let currentModelType := model (vb w) in
  match modelFactory (pg w) with
  | None => (debug "Model factory not available" w, Resolved false)
  | Some f =>
      (* If user has a preferred model, that will be used by the factory *)
      let '(f', made) :=
        BackgroundModelFactory.createModel (importOk (created env)) "auto" f in
      let w := debugAll (handed f f') (upd_pg (set_modelFactory (Some f')) w) in
      let newModel :=
        match made with
        | Some k => Some {| kind := k; iid := nextInstance (pg w) |}
        | None => None
        end in
      let w :=
        match made with
        | Some _ => upd_pg (fun p => set_nextInstance (S (nextInstance p)) p) w
        | None => w
        end in
      let w :=
        upd_vb (set_model
                  match BackgroundModelFactory.userPreferredModel f' with
                  | Some p =>
                      if Js.truthy_str p then p
                      else BackgroundModelFactory._selectOptimalModel f'
                  | None => BackgroundModelFactory._selectOptimalModel f'
                  end) w in
      (* Clean up old model if present *)
      let w :=
        match activeModel (vb w) with
        | Some i =>
            let w :=
              debugAll (disposeSaid (created env))
                (upd_ob (fun o => set_disposed (disposed o ++ [iid i]) o) w) in
            match disposeThrows (created env) with
            | Some message =>
                debug ("Error disposing current model: " +:+ message) w
            | None => w
            end
        | None => w
        end in
      (* Save metrics from previous model if different *)
      let w :=
        if negb (bool_decide (Js.toLowerCase currentModelType
                              = Js.toLowerCase (model (vb w))))
        then resetAndSaveMetrics env currentModelType w
        else w in
      (* Set the new model *)
      let w := upd_vb (set_activeModel newModel) w in
      (* catch (error) *)
      let recover (message : string) (w : world) : world * reloaded :=
        let w := debug ("Error reloading model: " +:+ message) w in
        let w := showAlert ("Could not reload model: " +:+ message) "error" w in
        (* Restore original model *)
        let w := upd_vb (set_model currentModelType) w in
        (* Try to reactivate previous model *)
        if wasEnabled then
          (toggle (on env) w,
           if toggleRejects (on env) w then Rejects else Resolved false)
        else (w, Resolved false) in
      match newModel with
      | None => recover "newModel is null" w
      | Some _ =>
          (* Initialize the model *)
          let w := debugAll (initSaid (created env)) w in
          match initResult (created env) with
          | InitTrue =>
              let w :=
                showAlert (model (vb w) +:+ " model loaded successfully")
                          "success" w in
              (* If it was previously enabled, turn it back on *)
              if wasEnabled then
                if toggleRejects (on env) w
                then recover "srcObject is null" (toggle (on env) w)
                else (toggle (on env) w, Resolved true)
              else (w, Resolved true)
          | InitFalse =>
              recover ("Failed to initialize " +:+ model (vb w) +:+ " model") w
          | InitThrows message => recover message w
          end
      end
  end.

(** [ModelLabUI._selectModel(modelId, config)]: the choice is recorded in
    the factory, with no look at the answer, and the service reloads.  An
    exception is caught and logged by the lab. *)
Definition _selectModel (modelId : string)
           (cfg : BackgroundModelFactory.config) (env : reloadEnv)
           (w : world) : world :=
  match modelFactory (pg w) with
  | Some f =>
      let f' := (ModelList._selectModel modelId cfg f).1 in
      (reloadBackgroundModel env (upd_pg (set_modelFactory (Some f')) w)).1
  | None => w
  end.

(** The name [reloadBackgroundModel] stores as the current model for a
    factory: the stored preference, or the recommendation, which is always
    'mediapipe'. *)
Definition reloadedName (f : BackgroundModelFactory.factory) : string :=
  match BackgroundModelFactory.userPreferredModel f with
  | Some p => if Js.truthy_str p then p else "mediapipe"
  | None => "mediapipe"
  end.

End Reload.


(** ** [loadSelectedModel], await by await

    [loadSelectedModel] is an [async] function: a second call can start
    while a first one is suspended at [await modelFactory.createModel(...)]
    or at [await activeModel.init()].  Here it is cut at these two points,
    and [createModel] at its [import()], so that calls can be
    interleaved. *)

Module LoadPhases.

Import BackgroundService.

(** [createModel(modelType)] up to its [import()]: the adapter it is about
    to import, and the name it will use in its messages. *)
Definition createModel_begin (modelType : string)
           (f : BackgroundModelFactory.factory)
  : BackgroundModelFactory.factory * BackgroundModelFactory.modelKind * string :=
  let preferred :=
    match BackgroundModelFactory.userPreferredModel f with
    | Some p => Js.truthy_str p && bool_decide (modelType = "auto")
    | None => false
    end in
  let '(modelType, f) :=
    if preferred
    then let p := default "" (BackgroundModelFactory.userPreferredModel f) in
         (p, BackgroundModelFactory.debug
               ("Using user preferred model: " +:+ p) f)
    else (modelType, f) in
  let f := BackgroundModelFactory.debug
             ("Creating background model: " +:+ modelType
              +:+ " with options:") f in
  let '(modelType, f) :=
    if bool_decide (modelType = "auto")
    then let m := BackgroundModelFactory._selectOptimalModel f in
         (m, BackgroundModelFactory.debug ("Auto-selected model: " +:+ m) f)
    else (modelType, f) in
  let '(wanted, f) :=
    if bool_decide (Js.toLowerCase modelType = "mediapipe")
    then (BackgroundModelFactory.MediaPipe, f)
    else if bool_decide (Js.toLowerCase modelType = "bodypix")
    then (BackgroundModelFactory.BodyPix, f)
    else (BackgroundModelFactory.MediaPipe,
          BackgroundModelFactory.debug
            ("Unknown model type: " +:+ modelType
             +:+ ", falling back to MediaPipe") f) in
  (f, wanted, modelType).

(** The rest of [createModel], once the [import()] has settled: the
    instance is built, or the [catch] block imports MediaPipe instead. *)
Definition createModel_imported
           (importOk : BackgroundModelFactory.modelKind -> bool)
           (wanted : BackgroundModelFactory.modelKind) (modelType : string)
           (f : BackgroundModelFactory.factory)
  : BackgroundModelFactory.factory * option BackgroundModelFactory.modelKind :=
  if importOk wanted then (f, Some wanted)
  else
    let f :=
      BackgroundModelFactory.debug
        ("Error creating model " +:+ modelType +:+ ": import failed") f in
    if importOk BackgroundModelFactory.MediaPipe
    then (f, Some BackgroundModelFactory.MediaPipe)
    else (BackgroundModelFactory.debug
            "Could not create fallback model either: import failed" f,
          None).

(** The [catch] block of [loadSelectedModel]. *)
Definition failed (why : string) (w : world) : world :=
  showAlert ("Could not initialize " +:+ model (vb w) +:+ " model.") "error"
    (debug ("Error initializing model: " +:+ why) w).

(** [loadSelectedModel(modelType)] up to [await createModel(...)].  The
    answer is [None] when the call has ended already (there is no factory:
    it has answered [false]), and else what [createModel] is importing. *)
Definition loadSelectedModel_begin (modelType : option string) (env : loadEnv)
           (w : world)
  : world * option (BackgroundModelFactory.modelKind * string) :=
  let w :=
    match modelType with
    | Some m => if Js.truthy_str m then upd_vb (set_model m) w else w
    | None => w
    end in
  (* Clean up existing model if any *)
  let w :=
    match activeModel (vb w) with
    | Some i =>
        let w :=
          debugAll (disposeSaid env)
            (upd_ob (fun o => set_disposed (disposed o ++ [iid i]) o) w) in
        match disposeThrows env with
        | Some message =>
            debug ("Error disposing current model: " +:+ message) w
        | None => w
        end
    | None => w
    end in
  match modelFactory (pg w) with
  | None => (failed "Model factory not initialized" w, None)
  | Some f =>
      let '(f', wanted, name) := createModel_begin (model (vb w)) f in
      (debugAll (handed f f') (upd_pg (set_modelFactory (Some f')) w),
       Some (wanted, name))
  end.

(** The call resumes when [createModel] has settled: the new instance
    becomes the active model and its [init()] is called, which hands
    [atCall] to the debug callback before its own first [await].  The
    answer tells whether the call is now suspended at [await init()]; if
    not, it has answered [false]. *)
Definition loadSelectedModel_created (env : loadEnv)
           (wanted : BackgroundModelFactory.modelKind) (name : string)
           (atCall : list string) (w : world) : world * bool :=
  match modelFactory (pg w) with
  | None => (w, false)        (* the factory of the page is still there *)
  | Some f =>
      let '(f', made) := createModel_imported (importOk env) wanted name f in
      let w := debugAll (handed f f') (upd_pg (set_modelFactory (Some f')) w) in
      match made with
      | None =>
          (failed ("Failed to create model of type: " +:+ model (vb w))
                  (upd_vb (set_activeModel None) w),
           false)
      | Some k =>
          let i := {| kind := k; iid := nextInstance (pg w) |} in
          let w :=
            upd_pg (fun p => set_nextInstance (S (nextInstance p)) p)
              (upd_vb (set_activeModel (Some i)) w) in
          (debugAll atCall w, true)
      end
  end.

(** The call resumes when [init()] has settled, having handed [later] to
    the debug callback in the meantime. *)
Definition loadSelectedModel_settled (later : list string)
           (result : initOutcome) (w : world) : world * bool :=
  let w := debugAll later w in
  match result with
  | InitTrue =>
      (showAlert (model (vb w) +:+ " model initialized successfully")
         "success" w, true)
  | InitFalse => (w, false)
  | InitThrows message => (failed message w, false)
  end.

(** The three parts run one after the other, with nothing in between. *)
Definition loadSelectedModel_phases (modelType : option string)
           (env : loadEnv) (atCall later : list string) (w : world)
  : world * bool :=
  match loadSelectedModel_begin modelType env w with
  | (w, None) => (w, false)
  | (w, Some (wanted, name)) =>
      match loadSelectedModel_created env wanted name atCall w with
      | (w, false) => (w, false)
      | (w, true) => loadSelectedModel_settled later (initResult env) w
      end
  end.

(** Two calls that overlap: the second starts while the first awaits
    [createModel], then each resumes in turn, up to [await init()]. *)
Definition overlapped (m1 m2 : option string) (env1 env2 : loadEnv)
           (atCall1 atCall2 : list string) (w : world) : option world :=
  match loadSelectedModel_begin m1 env1 w with
  | (w, Some (wanted1, name1)) =>
      match loadSelectedModel_begin m2 env2 w with
      | (w, Some (wanted2, name2)) =>
          match loadSelectedModel_created env1 wanted1 name1 atCall1 w with
          | (w, true) =>
              match loadSelectedModel_created env2 wanted2 name2 atCall2 w with
              | (w, true) => Some w
              | _ => None
              end
          | _ => None
          end
      | _ => None
      end
  | _ => None
  end.

End LoadPhases.
(** * Properties *)

(** ** The metrics windows *)

Section MetricsWindows.

Import BackgroundService.
Local Open Scope Q_scope.

Lemma lastN_all {A} (n : nat) (l : list A) :
  (length l <= n)%nat -> lastN n l = l.
Proof.
  intros H. unfold lastN.
  replace (length l - n)%nat with 0%nat by lia. reflexivity.
Qed.

Lemma lastN_length {A} (n : nat) (l : list A) :
  length (lastN n l) = Nat.min n (length l).
Proof. unfold lastN. rewrite length_drop. lia. Qed.

Lemma lastN_snoc {A} (n : nat) (l : list A) (x : A) :
  (0 < n)%nat -> lastN n (lastN n l ++ [x]) = lastN n (l ++ [x]).
Proof.
  intros Hn.
  destruct (le_lt_dec (length l) n) as [Hle | Hgt].
  - rewrite (lastN_all n l Hle). reflexivity.
  - unfold lastN at 1 3.
    rewrite !length_app, lastN_length. simpl.
    replace (Nat.min n (length l) + 1 - n)%nat with 1%nat by lia.
    unfold lastN.
    rewrite drop_app_le by (rewrite length_drop; lia).
    rewrite drop_drop.
    rewrite drop_app_le by lia.
    f_equal. f_equal. lia.
Qed.

(** [pushBounded] is "append, then keep the last [MAX_MEASUREMENTS]". *)
Lemma pushBounded_lastN (x : Q) (arr : list Q) :
  (length arr <= MAX_MEASUREMENTS)%nat ->
  pushBounded x arr = lastN MAX_MEASUREMENTS (arr ++ [x]).
Proof.
  intros H. unfold pushBounded, lastN.
  rewrite length_app. simpl length.
  destruct (Nat.ltb_spec MAX_MEASUREMENTS (length arr + 1)) as [Hlt | Hge].
  - replace (length arr + 1 - MAX_MEASUREMENTS)%nat with 1%nat by lia.
    destruct (arr ++ [x]); reflexivity.
  - replace (length arr + 1 - MAX_MEASUREMENTS)%nat with 0%nat by lia.
    reflexivity.
Qed.

Lemma pushBounded_length (x : Q) (arr : list Q) :
  (length arr <= MAX_MEASUREMENTS)%nat ->
  (length (pushBounded x arr) <= MAX_MEASUREMENTS)%nat.
Proof.
  intros H. rewrite pushBounded_lastN by exact H.
  rewrite lastN_length. lia.
Qed.

Lemma recordAll_snoc (ss : list sample) (s : sample) (m : metrics) :
  recordAll (ss ++ [s]) m = recordSample (recordAll ss m) s.
Proof. unfold recordAll. rewrite fold_left_app. reflexivity. Qed.

Lemma last_nonempty {A} (x : A) (l : list A) (d d' : A) :
  List.last (x :: l) d = List.last (x :: l) d'.
Proof.
  revert x. induction l as [| y l IH]; intros x.
  - reflexivity.
  - change (List.last (y :: l) d = List.last (y :: l) d'). apply IH.
Qed.

Lemma deltasFrom_snoc (prev : Q) (clock : list Q) (t : Q) :
  deltasFrom prev (clock ++ [t])
  = deltasFrom prev clock ++ [t - List.last clock prev].
Proof.
  revert prev. induction clock as [| c clock IH]; intros prev.
  - reflexivity.
  - simpl deltasFrom. rewrite IH. simpl app. f_equal. f_equal. f_equal.
    destruct clock as [| q clock].
    + reflexivity.
    + change (List.last (c :: q :: clock) prev)
        with (List.last (q :: clock) prev).
      rewrite (last_nonempty q clock c prev). reflexivity.
Qed.

(** The windows never outgrow their capacity, whatever the samples and
    whatever the state the recording starts from. *)
Lemma windows_bounded (ss : list sample) (m : metrics) :
  (length (segmentationTimes m) <= MAX_MEASUREMENTS)%nat ->
  (length (frameTimes m) <= MAX_MEASUREMENTS)%nat ->
  (length (segmentationTimes (recordAll ss m)) <= MAX_MEASUREMENTS)%nat /\
  (length (frameTimes (recordAll ss m)) <= MAX_MEASUREMENTS)%nat.
Proof.
  revert m. induction ss as [| s ss IH]; intros m Hs Hf.
  - split; assumption.
  - simpl. apply IH; unfold recordSample, updatePerformanceMetrics; simpl.
    + apply pushBounded_length, Hs.
    + destruct (Js.truthy (lastFrameTime m)).
      * apply pushBounded_length, Hf.
      * exact Hf.
Qed.

(** What the recording leaves in the state, sample after sample. *)
Lemma recordAll_windows (t0 : Q) (m0 : metrics) (ss : list sample) :
  Forall (fun s => Js.truthy (at_ s) = true) ss ->
  let m := recordAll ss (resetMetrics t0 m0) in
  segmentationTimes m = lastN MAX_MEASUREMENTS (map seg ss) /\
  frameTimes m = lastN MAX_MEASUREMENTS (deltas (map at_ ss)) /\
  lastFrameTime m = List.last (map at_ ss) 0.
Proof.
  induction ss as [| s ss IH] using rev_ind; intros Hall m.
  - repeat split; reflexivity.
  - subst m. rewrite recordAll_snoc.
    apply Forall_app in Hall as [Hss Hs].
    apply Forall_cons in Hs as [Hs _].
    destruct (IH Hss) as (Hseg & Hft & Hlast).
    unfold recordSample, updatePerformanceMetrics; simpl.
    rewrite !map_app; simpl map.
    split; [| split].
    + rewrite pushBounded_lastN.
      * rewrite Hseg. apply lastN_snoc. unfold MAX_MEASUREMENTS; lia.
      * rewrite Hseg, lastN_length. lia.
    + rewrite Hlast, Hft.
      destruct ss as [| s1 ss'] using rev_ind.
      * reflexivity.
      * clear IHss'.
        rewrite map_app. simpl map. rewrite List.last_last.
        apply Forall_app in Hss as [_ Hs1].
        apply Forall_cons in Hs1 as [Hs1 _]. rewrite Hs1.
        rewrite pushBounded_lastN by (rewrite lastN_length; lia).
        rewrite lastN_snoc by (unfold MAX_MEASUREMENTS; lia).
        f_equal.
        destruct (map at_ ss') as [| c clock] eqn:E.
        -- reflexivity.
        -- simpl app. unfold deltas.
           change (c :: (clock ++ [at_ s1]) ++ [at_ s])
             with (c :: ((clock ++ [at_ s1]) ++ [at_ s])).
           rewrite (deltasFrom_snoc c (clock ++ [at_ s1]) (at_ s)).
           rewrite List.last_last. reflexivity.
    + rewrite List.last_last. reflexivity.
Qed.

End MetricsWindows.

(** ** Loading a model *)

Section Loading.

Import BackgroundService.
Local Open Scope Q_scope.

(** Whether [loadSelectedModel] answers [true] depends on the factory, on
    the name of the model and on the environment only. *)
Lemma loadSelectedModel_answer (env : loadEnv) (w : world) :
  (loadSelectedModel None env w).2
  = match modelFactory (pg w) with
    | None => false
    | Some f =>
        match (BackgroundModelFactory.createModel
                 (importOk env) (model (vb w)) f).2 with
        | None => false
        | Some _ =>
            match initResult env with InitTrue => true | _ => false end
        end
    end.
Proof.
  unfold loadSelectedModel. cbv zeta.
  destruct (activeModel (vb w)) as [i |]; simpl;
    [destruct (disposeThrows env); simpl |];
    (destruct (modelFactory (pg w)) as [f |]; simpl; [| reflexivity];
     destruct (BackgroundModelFactory.createModel (importOk env) (model (vb w)) f)
       as [f' [k |]]; simpl; [| reflexivity];
     destruct (initResult env); reflexivity).
Qed.

(** The load leaves the video element and the target rate alone. *)
Lemma loadSelectedModel_video (m : option string) (env : loadEnv) (w : world) :
  srcObject (pg (loadSelectedModel m env w).1) = srcObject (pg w) /\
  targetFps (vb (loadSelectedModel m env w).1) = targetFps (vb w) /\
  mt (loadSelectedModel m env w).1 = mt w.
Proof.
  unfold loadSelectedModel.
  repeat case_match; simpl; repeat split; reflexivity.
Qed.

End Loading.

Section MetricsClaims.

Import BackgroundService Scenario.
Local Open Scope Q_scope.

Lemma deltasFrom_length (prev : Q) (clock : list Q) :
  length (deltasFrom prev clock) = length clock.
Proof.
  revert prev. induction clock as [| c clock IH]; intros prev; simpl.
  - reflexivity.
  - f_equal. apply IH.
Qed.

Lemma deltas_length (clock : list Q) :
  length (deltas clock) = (length clock - 1)%nat.
Proof.
  destruct clock as [| c clock]; simpl.
  - reflexivity.
  - rewrite deltasFrom_length. lia.
Qed.

(** C2 (metrics window bound).  Starting from the reset state, and with a
    clock that never reads zero, the two rolling windows hold at every
    moment the most recent [MAX_MEASUREMENTS] = 30 segmentation latencies
    and inter-frame deltas recorded so far (the older ones are gone, oldest
    first); they never hold more than 30 values, and once more than 30
    samples have been recorded they hold exactly 30. *)
Theorem metrics_window_bound (t0 : Q) (m0 : metrics) (ss : list sample) :
  Forall (fun s => Js.truthy (at_ s) = true) ss ->
  let m := recordAll ss (resetMetrics t0 m0) in
  segmentationTimes m = lastN MAX_MEASUREMENTS (map seg ss) /\
  frameTimes m = lastN MAX_MEASUREMENTS (deltas (map at_ ss)) /\
  (length (segmentationTimes m) <= MAX_MEASUREMENTS)%nat /\
  (length (frameTimes m) <= MAX_MEASUREMENTS)%nat /\
  ((MAX_MEASUREMENTS < length ss)%nat ->
   length (segmentationTimes m) = MAX_MEASUREMENTS /\
   length (frameTimes m) = MAX_MEASUREMENTS).
Proof.
  intros Hclock m.
  destruct (recordAll_windows t0 m0 ss Hclock) as (Hseg & Hft & _).
  fold m in Hseg, Hft.
  rewrite Hseg, Hft, !lastN_length, deltas_length, !length_map.
  repeat split; try lia.
Qed.

Lemma metrics_window_bound_witness :
  let m := recordAll samples32 (resetMetrics 0 metrics0) in
  segmentationTimes m = lastN MAX_MEASUREMENTS (map seg samples32) /\
  frameTimes m = lastN MAX_MEASUREMENTS (deltas (map at_ samples32)) /\
  (length (segmentationTimes m) <= MAX_MEASUREMENTS)%nat /\
  (length (frameTimes m) <= MAX_MEASUREMENTS)%nat /\
  ((MAX_MEASUREMENTS < length samples32)%nat ->
   length (segmentationTimes m) = MAX_MEASUREMENTS /\
   length (frameTimes m) = MAX_MEASUREMENTS).
Proof.
  apply (metrics_window_bound 0 metrics0 samples32).
  vm_compute. repeat constructor.
Defined.

(** The two oldest of the 32 latencies are the ones that left the window. *)
Example samples32_window :
  map Qnum (segmentationTimes (recordAll samples32 (resetMetrics 0 metrics0)))
  = map Z.of_nat (seq 2 30).
Proof. vm_compute. reflexivity. Qed.

Lemma truthy_pos (x : Q) : 0 < x -> Js.truthy x = true.
Proof.
  intros H. unfold Js.truthy.
  destruct (Qeq_bool x 0) eqn:E; [| reflexivity].
  apply Qeq_bool_iff in E. rewrite E in H.
  exfalso. exact (Qlt_irrefl 0 H).
Qed.

(** The mean the code computes is the mean of the spec. *)
Lemma fold_left_windowSum (window : list Q) (acc : Q) :
  fold_left Qplus window acc == acc + windowSum window.
Proof.
  revert acc. induction window as [| d window IH]; intros acc; simpl.
  - rewrite Qplus_0_r. reflexivity.
  - rewrite IH. rewrite Qplus_assoc. reflexivity.
Qed.

Lemma average_meanDelta (window : list Q) :
  window <> [] -> average window == meanDelta window.
Proof.
  intros Hne. unfold average, meanDelta, sum.
  destruct window as [| d window]; [congruence |].
  change (0 <? length (d :: window))%nat with true. cbv iota.
  rewrite fold_left_windowSum, Qplus_0_l. reflexivity.
Qed.

Lemma truthy_Qeq (x y : Q) : x == y -> Js.truthy x = Js.truthy y.
Proof.
  intros H. unfold Js.truthy. f_equal.
  destruct (Qeq_bool x 0) eqn:Ex, (Qeq_bool y 0) eqn:Ey; try reflexivity.
  - apply Qeq_bool_iff in Ex. rewrite H in Ex.
    apply Qeq_bool_iff in Ex. congruence.
  - apply Qeq_bool_iff in Ey. rewrite <- H in Ey.
    apply Qeq_bool_iff in Ey. congruence.
Qed.

Lemma truthy_zero (x : Q) : x == 0 -> Js.truthy x = false.
Proof.
  intros H. unfold Js.truthy. apply Qeq_bool_iff in H. rewrite H. reflexivity.
Qed.

Lemma truthy_nonzero (x : Q) : ~ x == 0 -> Js.truthy x = true.
Proof.
  intros H. unfold Js.truthy. destruct (Qeq_bool x 0) eqn:E; [| reflexivity].
  apply Qeq_bool_iff in E. contradiction.
Qed.

(** The rate computed from the window, in the spec's words. *)
Lemma perSecond_window (window : list Q) :
  (window = [] \/ meanDelta window == 0 -> perSecond (average window) == 0) /\
  (window <> [] -> ~ meanDelta window == 0 ->
   perSecond (average window) == 1000 / meanDelta window).
Proof.
  split.
  - intros [-> | Hzero]; [reflexivity |].
    destruct window as [| d window]; [reflexivity |].
    unfold perSecond. rewrite truthy_zero; [reflexivity |].
    rewrite average_meanDelta by discriminate. exact Hzero.
  - intros Hne Hnz. unfold perSecond.
    rewrite truthy_nonzero
      by (rewrite (average_meanDelta window Hne); exact Hnz).
    rewrite (average_meanDelta window Hne). reflexivity.
Qed.

(** [Math.round] of a rate of at least one half is positive and at most
    half a frame above the rate; below one half it is zero. *)
Lemma round_half_up (rate : Q) :
  1 # 2 <= rate -> 0 < round rate /\ round rate <= rate + (1 # 2).
Proof.
  intros Hrate. unfold round. split.
  - assert (H1 : (1 <= Qfloor (rate + (1 # 2)))%Z).
    { change 1%Z with (Qfloor 1). apply Qfloor_resp_le.
      apply (Qle_trans _ ((1 # 2) + (1 # 2))); [discriminate |].
      apply Qplus_le_l. exact Hrate. }
    change 0 with (inject_Z 0). rewrite <- Zlt_Qlt. lia.
  - apply Qfloor_le.
Qed.

Lemma round_small (rate : Q) :
  0 < rate -> rate < 1 # 2 -> round rate = 0.
Proof.
  intros Hpos Hsmall. unfold round.
  pose proof (Qfloor_le (rate + (1 # 2))) as Hle.
  pose proof (Qlt_floor (rate + (1 # 2))) as Hlt.
  assert (Hz : Qfloor (rate + (1 # 2)) = 0%Z).
  { assert (H1 : inject_Z (Qfloor (rate + (1 # 2))) < 1).
    { apply (Qle_lt_trans _ _ _ Hle).
      apply (Qlt_le_trans _ ((1 # 2) + (1 # 2))); [| discriminate].
      apply Qplus_lt_l. exact Hsmall. }
    assert (H2 : 0 < inject_Z (Qfloor (rate + (1 # 2)) + 1)).
    { apply (Qlt_trans _ (rate + (1 # 2))); [| exact Hlt].
      apply (Qlt_trans _ rate); [exact Hpos |].
      rewrite <- (Qplus_0_r rate) at 1.
      apply Qplus_lt_r. reflexivity. }
    change 1 with (inject_Z 1) in H1. change 0 with (inject_Z 0) in H2.
    rewrite <- Zlt_Qlt in H1, H2. lia. }
  rewrite Hz. reflexivity.
Qed.

(** The loop leaves the target rate alone. *)
Lemma targetFps_debug (msg : string) (w : world) :
  targetFps (vb (debug msg w)) = targetFps (vb w).
Proof. reflexivity. Qed.

Lemma processVideoFrames_targetFps (tv : Q) (w : world) :
  targetFps (vb (processVideoFrames tv w)) = targetFps (vb w).
Proof.
  unfold processVideoFrames, stopFrames, applyVirtualBackground_begin.
  repeat case_match; simplify_eq/=; reflexivity.
Qed.

Lemma step_targetFps (e : event) (w w' : world) :
  step e w = Some w' -> targetFps (vb w') = targetFps (vb w).
Proof.
  intros Hstep. destruct e as [h tv | k out tv clock]; unfold step in Hstep.
  - case_bool_decide; [| discriminate]. simplify_eq.
    rewrite processVideoFrames_targetFps. reflexivity.
  - destruct (outstanding (pg w) !! k); [| discriminate]. simplify_eq.
    unfold applyVirtualBackground_resume, requestFrame.
    repeat case_match; simplify_eq/=; reflexivity.
Qed.

Lemma run_targetFps (es : list event) (w w' : world) :
  run es w = Some w' -> targetFps (vb w') = targetFps (vb w).
Proof.
  revert w. induction es as [| e es IH]; intros w Hrun; simpl in Hrun.
  - simplify_eq. reflexivity.
  - destruct (step e w) as [w1 |] eqn:E; [| discriminate].
    rewrite (IH w1 Hrun). exact (step_targetFps e w w1 E).
Qed.

(** Switching the effect on sets the target rate to the rounded frame rate
    of the camera track. *)
Lemma toggle_on_targetFps (env : toggleEnv) (w : world) (src : mediaStream)
      (cam : trackId) (rest : list trackId) (rate : Q) :
  enabled (vb w) = false ->
  (loadSelectedModel None (load env) w).2 = true ->
  srcObject (pg w) = Some src ->
  videoTracks src = cam :: rest ->
  frameRate env = Some rate ->
  Js.truthy rate = true ->
  targetFps (vb (toggle env w)) = round rate.
Proof.
  intros Hoff Hok Hsrc Hcam Hrate Htruthy. unfold toggle.
  change (enabled (vb (upd_vb (set_enabled (negb (enabled (vb w)))) w)))
    with (negb (enabled (vb w))).
  rewrite Hoff. cbv [negb]. cbv iota.
  match goal with
  | |- context [loadSelectedModel None (load env) ?w1] =>
      pose proof (loadSelectedModel_video None (load env) w1) as (Hs & _);
      assert (Hok1 : (loadSelectedModel None (load env) w1).2 = true)
        by (rewrite loadSelectedModel_answer;
            rewrite loadSelectedModel_answer in Hok; exact Hok);
      destruct (loadSelectedModel None (load env) w1) as [w2 ok]
  end.
  simpl in Hs, Hok1. subst ok. cbv [negb]. cbv iota beta zeta.
  match goal with
  | |- context [match srcObject (pg ?x) with _ => _ end] =>
      change (srcObject (pg x)) with (srcObject (pg w2))
  end.
  rewrite Hs, Hsrc. cbv iota beta zeta. rewrite Hcam, Hrate, Htruthy.
  rewrite targetFps_debug, processVideoFrames_targetFps. reflexivity.
Qed.

(** C9 as amended (FPS clamp).  Switch the effect on with a camera track
    that reports a positive frame rate.  From then on the target rate is
    the frame rate rounded to the nearest integer, and for every state of
    the metrics windows: when the rate is at least one half, the FPS that
    [updateMetricsDisplay] shows is 1000 / meanDelta (0 for an empty window
    or a zero mean) clamped at the rounded rate: it never exceeds the
    rounded rate, which is at most half a frame per second above the rate
    itself, and neither does its one-decimal rendering; when the rate is
    below one half, the rounded rate is 0 and the FPS shown is
    1000 / meanDelta, unclamped. *)
Theorem fps_display_clamped (env : toggleEnv) (w0 w : world)
        (es : list event) (src : mediaStream) (cam : trackId)
        (rest : list trackId) (rate clock : Q) :
  enabled (vb w0) = false ->
  (loadSelectedModel None (load env) w0).2 = true ->
  srcObject (pg w0) = Some src ->
  videoTracks src = cam :: rest ->
  frameRate env = Some rate ->
  0 < rate ->
  run es (toggle env w0) = Some w ->
  targetFps (vb w) = round rate /\
  forall m : metrics,
    let window := frameTimes m in
    let shown := fps (updateMetricsDisplay clock (upd_mt (fun _ => m) w)) in
    (1 # 2 <= rate ->
     (window = [] \/ meanDelta window == 0 -> shown == 0) /\
     (window <> [] -> ~ meanDelta window == 0 ->
      shown == Qmin (round rate) (1000 / meanDelta window)) /\
     shown <= round rate /\
     round rate <= rate + (1 # 2) /\
     (toFixed1 shown <= toFixed1 (round rate))%Z) /\
    (rate < 1 # 2 ->
     round rate = 0 /\
     (window <> [] -> ~ meanDelta window == 0 ->
      shown == 1000 / meanDelta window)).
Proof.
  intros Hoff Hok Hsrc Hcam Hrate Hpos Hrun.
  assert (Htarget : targetFps (vb w) = round rate).
  { rewrite (run_targetFps es _ w Hrun).
    apply (toggle_on_targetFps env w0 src cam rest rate); try assumption.
    apply truthy_pos. exact Hpos. }
  split; [exact Htarget |].
  intros m window shown.
  destruct (perSecond_window window) as [Hnone Hsome].
  split.
  - intros Hhalf. destruct (round_half_up rate Hhalf) as [Hround Hnear].
    assert (Hshown : shown = Qmin (round rate) (perSecond (average window))).
    { subst shown window. unfold updateMetricsDisplay. simpl.
      rewrite Htarget, (truthy_pos _ Hround). reflexivity. }
    assert (Hle : shown <= round rate).
    { rewrite Hshown. apply Q.le_min_l. }
    split; [| split; [| split; [exact Hle | split; [exact Hnear |]]]].
    + intros Hempty. rewrite Hshown, (Hnone Hempty).
      apply Q.min_r. apply Qlt_le_weak. exact Hround.
    + intros Hne Hnz. rewrite Hshown, (Hsome Hne Hnz). reflexivity.
    + unfold toFixed1.
      destruct (Qlt_le_dec (round rate) 0) as [Hneg | _].
      { exfalso. exact (Qlt_irrefl 0 (Qlt_trans _ _ _ Hround Hneg)). }
      assert (Hfloor : forall y : Q, 0 <= y -> (0 <= Qfloor (y * 10 + (1 # 2)))%Z).
      { intros y Hy. change 0%Z with (Qfloor 0). apply Qfloor_resp_le.
        apply (Qle_trans _ (0 * 10 + (1 # 2))); [discriminate |].
        apply Qplus_le_l. apply Qmult_le_compat_r; [exact Hy | discriminate]. }
      destruct (Qlt_le_dec shown 0) as [Hlt | Hge].
      * assert (0 <= - shown).
        { apply (Qopp_le_compat shown 0). apply Qlt_le_weak. exact Hlt. }
        pose proof (Hfloor (- shown) H).
        pose proof (Hfloor (round rate) (Qlt_le_weak _ _ Hround)).
        lia.
      * apply Qfloor_resp_le.
        apply Qplus_le_l. apply Qmult_le_compat_r; [exact Hle | discriminate].
  - intros Hsmall. pose proof (round_small rate Hpos Hsmall) as Hzero.
    split; [exact Hzero |].
    intros Hne Hnz.
    assert (Hshown : shown = perSecond (average window)).
    { subst shown window. unfold updateMetricsDisplay. simpl.
      rewrite Htarget, Hzero. reflexivity. }
    rewrite Hshown. exact (Hsome Hne Hnz).
Qed.

Lemma fps_display_clamped_witness :
  exists w,
    run session (toggle (press 0) page0) = Some w /\
    targetFps (vb w) = round 30 /\
    forall m : metrics,
      let window := frameTimes m in
      let shown := fps (updateMetricsDisplay 1000 (upd_mt (fun _ => m) w)) in
      (1 # 2 <= 30 ->
       (window = [] \/ meanDelta window == 0 -> shown == 0) /\
       (window <> [] -> ~ meanDelta window == 0 ->
        shown == Qmin (round 30) (1000 / meanDelta window)) /\
       shown <= round 30 /\
       round 30 <= 30 + (1 # 2) /\
       (toFixed1 shown <= toFixed1 (round 30))%Z) /\
      (30 < 1 # 2 ->
       round 30 = 0 /\
       (window <> [] -> ~ meanDelta window == 0 ->
        shown == 1000 / meanDelta window)).
Proof.
  eexists. split; [vm_compute; reflexivity |].
  eapply (fps_display_clamped (press 0) page0 _ session camera
            (Camera 0) [] 30 1000).
  - reflexivity.
  - vm_compute. reflexivity.
  - reflexivity.
  - reflexivity.
  - reflexivity.
  - reflexivity.
  - vm_compute. reflexivity.
Defined.

(** C9 as stated fails: the clamp is at the rounded rate, not at the rate
    of the source.  With a camera at 29.97 frames per second and frames
    processed 8 ms apart, the display shows 30.0, more than the source
    delivers; with a camera at 0.4 frames per second the target rate is 0,
    no clamp applies, and the display shows 125.0. *)
Lemma display_exceeds_source_rate :
  (exists w,
      run twoFrames (toggle ntsc page0) = Some w /\
      frameTimes (mt w) = [8] /\
      targetFps (vb w) = 30 /\
      Qred (fps (updateMetricsDisplay 1000 w)) = 30 /\
      2997 # 100 < fps (updateMetricsDisplay 1000 w) /\
      toFixed1 (fps (updateMetricsDisplay 1000 w)) = 300%Z) /\
  (exists w,
      run twoFrames (toggle slideshow page0) = Some w /\
      frameTimes (mt w) = [8] /\
      targetFps (vb w) = 0 /\
      Qred (fps (updateMetricsDisplay 1000 w)) = 125 /\
      2 # 5 < fps (updateMetricsDisplay 1000 w) /\
      toFixed1 (fps (updateMetricsDisplay 1000 w)) = 1250%Z).
Proof.
  split; eexists; (split; [vm_compute; reflexivity |]);
    vm_compute; repeat split.
Qed.

(** On a state whose target rate is 30 and whose window says 125, the
    display shows 30; the accessor [getPerformanceMetrics] reports the raw
    rate. *)
Example fastWorld_rates :
  Qred (fps (updateMetricsDisplay 1000 fastWorld)) = 30 /\
  Qred <$> getPerformanceMetrics_fps fastWorld = Some 125.
Proof. split; vm_compute; reflexivity. Qed.

End MetricsClaims.

(** ** Selecting a backend *)

Section Selection.

Import BackgroundModelFactory.

(** Automatic selection answers 'mediapipe' on every host. *)
Lemma _selectOptimalModel_mediapipe (f : factory) :
  _selectOptimalModel f = "mediapipe".
Proof.
  unfold _selectOptimalModel.
  destruct (devicePerformance f), (simdSupport f); reflexivity.
Qed.

Ltac split_decisions io :=
  repeat match goal with
         | |- context [bool_decide ?P] => destruct (bool_decide P); simpl
         | |- context [io ?k] => destruct (io k); simpl
         end.

Lemma createModel_debug_auto (io : modelKind -> bool) (msg : string)
      (f : factory) :
  snd (createModel io "auto" (debug msg f)) = snd (createModel io "auto" f).
Proof.
  unfold createModel.
  change (userPreferredModel (debug msg f)) with (userPreferredModel f).
  destruct (userPreferredModel f) as [p |]; cbn [default from_option].
  - destruct (Js.truthy_str p); cbn [andb].
    + rewrite (bool_decide_eq_true_2 ("auto" = "auto") eq_refl).
      destruct (bool_decide (p = "auto"));
        rewrite ?_selectOptimalModel_mediapipe;
        split_decisions io; reflexivity.
    + rewrite (bool_decide_eq_true_2 ("auto" = "auto") eq_refl).
      rewrite !_selectOptimalModel_mediapipe.
      split_decisions io; reflexivity.
  - rewrite (bool_decide_eq_true_2 ("auto" = "auto") eq_refl).
    rewrite !_selectOptimalModel_mediapipe.
    split_decisions io; reflexivity.
Qed.

(** The answer of [setUserPreferredModel] is the spec's predicate. *)
Lemma setUserPreferredModel_decides (modelType : string) (cfg : config)
      (f : factory) :
  snd (setUserPreferredModel modelType cfg f)
  = supportedSelection modelType cfg f.
Proof.
  unfold setUserPreferredModel, supportedSelection, Js.get.
  destruct (availableModels f !! Js.toLowerCase modelType) as [info |].
  - destruct (isImplemented info); simpl; [| reflexivity].
    destruct (simdRequired cfg), (simdSupport f); reflexivity.
  - destruct (bool_decide _); reflexivity.
Qed.

(** C6 as amended (no silent downgrade on capability mismatch).  A
    selection made through [setUserPreferredModel] that names an unknown or
    unimplemented model, or that requires SIMD on a host without it, fails:
    the answer is [false], the call touches nothing of the service (the
    running backend, its loop, the metrics), one message naming the model
    and the reason is logged, and nothing else in the factory changes, so
    that the factory goes on creating the same backend as before.
    [createModel] does not validate: given explicitly a type other than
    'mediapipe' and 'bodypix', it logs the fact and creates a MediaPipe
    adapter. *)
Theorem setUserPreferredModel_rejects (modelType : string) (cfg : config)
        (f : factory) :
  supportedSelection modelType cfg f = false ->
  let f' := fst (setUserPreferredModel modelType cfg f) in
  snd (setUserPreferredModel modelType cfg f) = false /\
  (forall w : BackgroundService.world,
      BackgroundService.modelFactory (BackgroundService.pg w) = Some f ->
      exists w',
        ModelLabUI.setUserPreferredModel modelType cfg w = Some (w', false) /\
        BackgroundService.vb w' = BackgroundService.vb w /\
        BackgroundService.mt w' = BackgroundService.mt w /\
        BackgroundService.ob w' = BackgroundService.ob w /\
        BackgroundService.pg w'
        = BackgroundService.set_modelFactory (Some f') (BackgroundService.pg w)) /\
  (exists why,
      why ∈ [" not found in available models"; " is not implemented yet";
              " requires SIMD but browser doesn't support it"] /\
      f' = debug ("Model " +:+ modelType +:+ why) f) /\
  userPreferredModel f' = userPreferredModel f /\
  userPreferredConfig f' = userPreferredConfig f /\
  (forall io, snd (createModel io "auto" f') = snd (createModel io "auto" f)) /\
  (forall io g,
      modelType <> "auto" ->
      Js.toLowerCase modelType <> "mediapipe" ->
      Js.toLowerCase modelType <> "bodypix" ->
      io MediaPipe = true ->
      createModel io modelType g
      = (debug ("Unknown model type: " +:+ modelType
                +:+ ", falling back to MediaPipe")
           (debug ("Creating background model: " +:+ modelType
                   +:+ " with options:") g),
         Some MediaPipe)).
Proof.
  intros Hbad f'.
  assert (Hwhy : exists why,
             why ∈ [" not found in available models"; " is not implemented yet";
                     " requires SIMD but browser doesn't support it"] /\
             f' = debug ("Model " +:+ modelType +:+ why) f).
  { subst f'. revert Hbad.
    unfold setUserPreferredModel, supportedSelection, Js.get.
    destruct (availableModels f !! Js.toLowerCase modelType) as [info |].
    - destruct (isImplemented info); simpl.
      + destruct (simdRequired cfg), (simdSupport f); simpl;
          try discriminate; intros _.
        eexists; split; [| reflexivity]. set_solver.
      + intros _. eexists; split; [| reflexivity]. set_solver.
    - intros _. destruct (bool_decide _); simpl.
      + eexists; split; [| reflexivity]. set_solver.
      + eexists; split; [| reflexivity]. set_solver. }
  assert (Hno : snd (setUserPreferredModel modelType cfg f) = false)
    by (rewrite setUserPreferredModel_decides; exact Hbad).
  split; [exact Hno | split; [| split; [exact Hwhy |]]].
  - intros w Hw. unfold ModelLabUI.setUserPreferredModel. rewrite Hw.
    subst f'. destruct (setUserPreferredModel modelType cfg f) as [g ok].
    simpl in Hno. subst ok. eexists. repeat split.
  - destruct Hwhy as (why & _ & ->).
    repeat split.
    + intros io. apply createModel_debug_auto.
    + intros io g Hauto Hmp Hbp Hio.
      unfold createModel.
      rewrite (bool_decide_eq_false_2 _ Hauto).
      assert (Hpref : match userPreferredModel g with
                      | Some p => Js.truthy_str p && false
                      | None => false
                      end = false).
      { destruct (userPreferredModel g); [apply andb_false_r | reflexivity]. }
      rewrite Hpref. simpl.
      rewrite (bool_decide_eq_false_2 _ Hauto). simpl.
      rewrite (bool_decide_eq_false_2 _ Hmp).
      rewrite (bool_decide_eq_false_2 _ Hbp).
      simpl. rewrite Hio. reflexivity.
Qed.

Lemma setUserPreferredModel_rejects_witness :
  let f' := fst (setUserPreferredModel "Meet" emptyConfig new) in
  snd (setUserPreferredModel "Meet" emptyConfig new) = false /\
  (forall w : BackgroundService.world,
      BackgroundService.modelFactory (BackgroundService.pg w) = Some new ->
      exists w',
        ModelLabUI.setUserPreferredModel "Meet" emptyConfig w
        = Some (w', false) /\
        BackgroundService.vb w' = BackgroundService.vb w /\
        BackgroundService.mt w' = BackgroundService.mt w /\
        BackgroundService.ob w' = BackgroundService.ob w /\
        BackgroundService.pg w'
        = BackgroundService.set_modelFactory (Some f') (BackgroundService.pg w)) /\
  (exists why,
      why ∈ [" not found in available models"; " is not implemented yet";
              " requires SIMD but browser doesn't support it"] /\
      f' = debug ("Model " +:+ "Meet" +:+ why) new) /\
  userPreferredModel f' = userPreferredModel new /\
  userPreferredConfig f' = userPreferredConfig new /\
  (forall io, snd (createModel io "auto" f') = snd (createModel io "auto" new)) /\
  (forall io g,
      "Meet" <> "auto" ->
      Js.toLowerCase "Meet" <> "mediapipe" ->
      Js.toLowerCase "Meet" <> "bodypix" ->
      io MediaPipe = true ->
      createModel io "Meet" g
      = (debug ("Unknown model type: " +:+ "Meet"
                +:+ ", falling back to MediaPipe")
           (debug ("Creating background model: " +:+ "Meet"
                   +:+ " with options:") g),
         Some MediaPipe)).
Proof.
  apply (setUserPreferredModel_rejects "Meet" emptyConfig new).
  vm_compute. reflexivity.
Defined.

(** C6 as stated fails on [createModel]: asked explicitly for the
    unimplemented 'mlkit', it does not fail but hands out MediaPipe; so does
    it for a name it has never heard of. *)
Lemma createModel_substitutes :
  supportedSelection "mlkit" emptyConfig new = false /\
  snd (createModel (fun _ => true) "mlkit" new) = Some MediaPipe /\
  supportedSelection "tflite" emptyConfig new = false /\
  snd (createModel (fun _ => true) "tflite" new) = Some MediaPipe.
Proof. repeat split; vm_compute; reflexivity. Qed.

(** The three refusals of [setUserPreferredModel], on concrete requests. *)
Example setUserPreferredModel_reasons :
  debugLog (fst (setUserPreferredModel "tflite" emptyConfig new))
  = ["Model tflite not found in available models"] /\
  debugLog (fst (setUserPreferredModel "MLKit" emptyConfig new))
  = ["Model MLKit is not implemented yet"] /\
  debugLog (fst (setUserPreferredModel "constructor" emptyConfig new))
  = ["Model constructor is not implemented yet"] /\
  debugLog (fst (setUserPreferredModel "bodypix"
                   {| simdRequired := true; cvariant := None;
                      cresolution := None; cbackend := None |} new))
  = ["Model bodypix requires SIMD but browser doesn't support it"] /\
  setUserPreferredModel "BodyPix" emptyConfig new
  = (debug "User preferred model set to BodyPix"
       (setPreference (Some "bodypix") (Some emptyConfig) new), true).
Proof. repeat split; vm_compute; reflexivity. Qed.

End Selection.

(** ** The adapters: initialisation *)

Section Initialisation.

(** MediaPipe: once [init] has been called, a further call (while the first
    one is pending, or after it has completed, or after it has failed) hands
    back the same promise and touches nothing: no second segmenter is
    constructed. *)
Lemma mediapipe_init_idempotent (c1 c2 : bool)
      (s : MediaPipeModel.state) (h : MediaPipeModel.heap) :
  let '(s1, h1, p1) := MediaPipeModel.init c1 (s, h) in
  MediaPipeModel.init c2 (s1, h1) = (s1, h1, p1) /\
  (let '(s1', h1') := MediaPipeModel.init_complete (s1, h1) in
   MediaPipeModel.init c2 (s1', h1') = (s1', h1', p1)) /\
  (MediaPipeModel.constructed h1 <= S (MediaPipeModel.constructed h))%nat.
Proof.
  unfold MediaPipeModel.init at 1.
  destruct (MediaPipeModel.loadingPromise s) as [p |] eqn:E.
  - split; [| split; [| lia]].
    + unfold MediaPipeModel.init. rewrite E. reflexivity.
    + unfold MediaPipeModel.init_complete.
      destruct (MediaPipeModel.preloading h) as [[q i] |];
        unfold MediaPipeModel.init; simpl; rewrite ?E; reflexivity.
  - destruct c1.
    + split; [reflexivity | split; [reflexivity | simpl; lia]].
    + split; [reflexivity | split; [| simpl; lia]].
      unfold MediaPipeModel.init_complete. simpl.
      destruct (MediaPipeModel.preloading h) as [[q i] |]; reflexivity.
Qed.

(** C8 (init idempotence) at the failing input: two calls of [init()] on
    one BodyPix adapter run [bodyPix.load] twice; the second network
    replaces the first in [this.model]. *)
Theorem bodypix_init_twice_loads_twice :
  let '(s1, n1, o1) := BodyPixModel.init true (BodyPixModel.new, 0%nat) in
  let '(s2, n2, o2) := BodyPixModel.init true (s1, n1) in
  n1 = 1%nat /\ n2 = 2%nat /\
  BodyPixModel.model s1 = Some 0%nat /\ BodyPixModel.model s2 = Some 1%nat /\
  o1 = BodyPixModel.ReturnedTrue /\ o2 = BodyPixModel.ReturnedTrue.
Proof. repeat split; reflexivity. Qed.

(** The same two calls on a MediaPipe adapter construct one segmenter. *)
Example mediapipe_init_twice_constructs_once :
  let '(s1, h1, p1) :=
    MediaPipeModel.init true (MediaPipeModel.new, MediaPipeModel.heap0) in
  let '(s2, h2, p2) := MediaPipeModel.init true (s1, h1) in
  MediaPipeModel.constructed h2 = 1%nat /\ p2 = p1.
Proof. split; reflexivity. Qed.

End Initialisation.

(** ** The MediaPipe adapter: the in-flight flag *)

Section InFlightFlag.

Import Canvas MediaPipeModel.

(** The synchronous part of [processFrame] sets the flag exactly when it
    issues a request; otherwise it leaves the flag as it found it. *)
Lemma processFrame_begin_flag (t0 t1 : Q) (fr : frame) (sc : state * canvas) :
  let '(s, c, b) := processFrame_begin t0 t1 fr sc in
  match b with
  | AwaitingSend => processingFrame s = true /\ processingFrame sc.1 = false
  | _ => processingFrame s = processingFrame sc.1
  end.
Proof.
  destruct sc as [s0 c0]. unfold processFrame_begin.
  repeat case_match; simplify_eq/=; try (split; congruence); try congruence.
  all: repeat match goal with
       | H : context [if ?b then _ else _] |- _ => destruct b; simpl in *
       end; try (split; congruence); congruence.
Qed.

(** The continuation always clears the flag. *)
Lemma processFrame_resume_flag (t0 tseg tend : Q) (ok : bool) (fr : frame)
      (sc : state * canvas) :
  processingFrame (processFrame_resume t0 tseg tend ok fr sc).1.1 = false.
Proof.
  destruct sc as [s0 c0]. unfold processFrame_resume.
  repeat case_match; reflexivity.
Qed.

Lemma step_flag_held (e : event) (w w' : world) :
  step e w = Some w' ->
  (processingFrame (st w) = true -> awaiting w <> []) ->
  processingFrame (st w') = true -> awaiting w' <> [].
Proof.
  intros Hstep Hinv Hflag. destruct e as [t0 t1 fr | k ok tseg tend | r | |];
    unfold step in Hstep.
  - pose proof (processFrame_begin_flag t0 t1 fr (st w, cv w)) as Hb.
    destruct (processFrame_begin t0 t1 fr (st w, cv w)) as [[s c] b].
    destruct b; simplify_eq/=.
    + apply Hinv. congruence.
    + apply Hinv. congruence.
    + intros Hnil. apply app_eq_nil in Hnil as [_ Hnil]. discriminate.
  - destruct (awaiting w !! k) as [[t0 fr] |]; [| discriminate].
    pose proof (processFrame_resume_flag t0 tseg tend ok fr (st w, cv w)) as Hr.
    destruct (processFrame_resume t0 tseg tend ok fr (st w, cv w)) as [[s c] r].
    simplify_eq/=. congruence.
  - simplify_eq/=; try discriminate.
  - simplify_eq/=. apply Hinv.
    revert Hflag. unfold adaptiveTick.
    repeat case_match; simpl; auto.
  - simplify_eq/=. apply Hinv.
    revert Hflag. unfold dispose. case_match; simpl; [discriminate | auto].
Qed.

Lemma run_flag_held (es : list event) (w w' : world) :
  run es w = Some w' ->
  (processingFrame (st w) = true -> awaiting w <> []) ->
  processingFrame (st w') = true -> awaiting w' <> [].
Proof.
  revert w. induction es as [| e es IH]; intros w Hrun Hinv; simpl in Hrun.
  - simplify_eq. exact Hinv.
  - destruct (step e w) as [w1 |] eqn:E; [| discriminate].
    apply (IH w1 Hrun). eapply step_flag_held; eassumption.
Qed.

(** C10 as amended (release of the in-flight flag).  Start from an adapter
    whose flag is clear and which has no suspended call, and let calls,
    continuations, [onResults] callbacks, timer ticks and [dispose()] be
    interleaved in any order.  Then the flag is set only while some call is
    suspended at its [await]: whenever no call is outstanding the flag is
    clear.  Path by path: a call that got as far as issuing a request
    clears the flag when its continuation runs (no-results, success and
    caught-error paths), and a call that returns or throws before issuing a
    request (canvas-resize error, not-initialized, frame-skip and
    still-processing paths) leaves the flag as it found it. *)
Theorem processingFrame_released (es : list event) (w0 w : world) :
  processingFrame (st w0) = false ->
  awaiting w0 = [] ->
  run es w0 = Some w ->
  (awaiting w = [] -> processingFrame (st w) = false) /\
  (forall k ok tseg tend w',
      step (SendSettles k ok tseg tend) w = Some w' ->
      processingFrame (st w') = false) /\
  (forall t0 t1 fr w',
      step (Call t0 t1 fr) w = Some w' ->
      awaiting w' = awaiting w ->
      processingFrame (st w') = processingFrame (st w)).
Proof.
  intros Hflag Hnone Hrun. split; [| split].
  - intros Hquiet.
    destruct (processingFrame (st w)) eqn:E; [| reflexivity].
    exfalso. refine (run_flag_held es w0 w Hrun _ E Hquiet).
    rewrite Hflag. discriminate.
  - intros k ok tseg tend w' Hstep. unfold step in Hstep.
    destruct (awaiting w !! k) as [[t0 fr] |]; [| discriminate].
    pose proof (processFrame_resume_flag t0 tseg tend ok fr (st w, cv w)) as Hr.
    destruct (processFrame_resume t0 tseg tend ok fr (st w, cv w)) as [[s c] r].
    simplify_eq/=. exact Hr.
  - intros t0 t1 fr w' Hstep Hsame. unfold step in Hstep.
    pose proof (processFrame_begin_flag t0 t1 fr (st w, cv w)) as Hb.
    destruct (processFrame_begin t0 t1 fr (st w, cv w)) as [[s c] b].
    destruct b; simplify_eq/=; try exact Hb.
    exfalso. symmetry in Hsame.
    apply (f_equal length) in Hsame. rewrite length_app in Hsame.
    simpl in Hsame. lia.
Qed.

Lemma processingFrame_released_witness :
  exists w,
    run Scenario.serialCalls Scenario.readyAdapter = Some w /\
    (awaiting w = [] -> processingFrame (st w) = false) /\
    (forall k ok tseg tend w',
        step (SendSettles k ok tseg tend) w = Some w' ->
        processingFrame (st w') = false) /\
    (forall t0 t1 fr w',
        step (Call t0 t1 fr) w = Some w' ->
        awaiting w' = awaiting w ->
        processingFrame (st w') = processingFrame (st w)).
Proof.
  eexists. split; [vm_compute; reflexivity |].
  eapply (processingFrame_released Scenario.serialCalls Scenario.readyAdapter);
    vm_compute; reflexivity.
Defined.

(** C10 as stated fails on the early-return paths: a call that arrives
    while another one is suspended settles at once, both through the
    frame-skip path and through the still-processing path, and the flag is
    still set when it has settled. *)
Lemma early_return_keeps_flag_set :
  exists w2 w3 w4,
    run [Call 0 1 Scenario.blurFrame; Call 16 17 Scenario.blurFrame]
        Scenario.readyAdapter = Some w2 /\
    processingFrame (st w2) = true /\ length (awaiting w2) = 1%nat /\
    (* frame-skip path *)
    (processFrame_begin 32 33 Scenario.blurFrame (st w2, cv w2)).2
    = Returned {| segmentationTime := 0; totalTime := 33 - 32 |} /\
    step (Call 32 33 Scenario.blurFrame) w2 = Some w3 /\
    processingFrame (st w3) = true /\
    (* still-processing path *)
    (processFrame_begin 48 49 Scenario.blurFrame (st w3, cv w3)).2
    = Returned {| segmentationTime := 0; totalTime := 49 - 48 |} /\
    skippedFrames (st w3) = maxSkippedFrames (st w3) /\
    step (Call 48 49 Scenario.blurFrame) w3 = Some w4 /\
    processingFrame (st w4) = true.
Proof.
  do 3 eexists.
  split; [vm_compute; reflexivity |].
  split; [reflexivity |]. split; [reflexivity |].
  split; [vm_compute; reflexivity |].
  split; [vm_compute; reflexivity |].
  split; [reflexivity |].
  split; [vm_compute; reflexivity |].
  split; [reflexivity |].
  split; [vm_compute; reflexivity |].
  reflexivity.
Qed.

End InFlightFlag.

(** ** The capture loop: scheduling *)

Section CaptureLoop.

Import Canvas BackgroundService.
Local Open Scope Q_scope.

Lemma requestAnimationFrame_queue (w : world) :
  rafQueue (pg (requestAnimationFrame w)) = rafQueue (pg w) ++ [nextHandle (pg w)] /\
  outstanding (pg (requestAnimationFrame w)) = outstanding (pg w) /\
  animationFrame (vb (requestAnimationFrame w)) = Some (nextHandle (pg w)).
Proof. repeat split; reflexivity. Qed.

Lemma requestFrame_pg (w : world) : pg (requestFrame w) = pg w.
Proof. unfold requestFrame. destruct (videoTrack (vb w)); reflexivity. Qed.

Lemma requestFrame_vb (w : world) : vb (requestFrame w) = vb w.
Proof. unfold requestFrame. destruct (videoTrack (vb w)); reflexivity. Qed.

Lemma cancel_only_handle (h : positive) (q : list positive) :
  h ∈ q -> (length q <= 1)%nat -> filter (fun x => x <> h) q = [].
Proof.
  intros Hin Hlen. destruct q as [| x [| y q]]; simpl in Hlen; try lia.
  - inversion Hin.
  - apply list_elem_of_singleton in Hin. subst x.
    rewrite filter_cons_False by (intros H; apply H; reflexivity).
    reflexivity.
Qed.



Lemma resume_load (out : outcome) (tv clock : Q) (w : world) :
  load_of (applyVirtualBackground_resume out tv clock w) = S (load_of w).
Proof.
  unfold applyVirtualBackground_resume, load_of.
  destruct out as [r drawn | msg].
  - destruct r; simpl; rewrite requestFrame_pg; simpl;
      rewrite length_app; simpl; lia.
  - simpl. destruct (context (vb w)); simpl.
    + rewrite requestFrame_pg. simpl. rewrite length_app. simpl. lia.
    + rewrite length_app. simpl. lia.
Qed.



Lemma loadSelectedModel_queues (m : option string) (env : loadEnv) (w : world) :
  rafQueue (pg (loadSelectedModel m env w).1) = rafQueue (pg w) /\
  outstanding (pg (loadSelectedModel m env w).1) = outstanding (pg w) /\
  animationFrame (vb (loadSelectedModel m env w).1) = animationFrame (vb w) /\
  enabled (vb (loadSelectedModel m env w).1) = enabled (vb w) /\
  frameCalls (ob (loadSelectedModel m env w).1) = frameCalls (ob w) /\
  localVideo (pg (loadSelectedModel m env w).1) = localVideo (pg w) /\
  lastProcessedVideoTime (vb (loadSelectedModel m env w).1)
  = lastProcessedVideoTime (vb w).
Proof.
  unfold loadSelectedModel.
  repeat case_match; simpl; repeat split; reflexivity.
Qed.








(** What the session of the scenario leaves behind: the third frame is
    being processed, two calls were made before it, nothing is scheduled. *)
Example session_outcome :
  (fun w => (length (outstanding (pg w)), rafQueue (pg w),
             length (frameCalls (ob w)), published (ob w)))
    <$> run Scenario.session (toggle (Scenario.press 0) Scenario.page0)
  = Some (1%nat, [], 3%nat, 2%nat).
Proof. vm_compute. reflexivity. Qed.

(** A busy adapter on a concrete frame: the flag is set and the last
    results carry mask 7; the call sends nothing and the canvas shows the
    frame composited with that mask over its blurred copy. *)
Example busy_adapter_composites :
  let busy :=
    {| MediaPipeModel.st :=
         MediaPipeModel.set_flags 1 true
           (MediaPipeModel.onResults 7 Scenario.readyState);
       MediaPipeModel.cv := MediaPipeModel.cv Scenario.readyAdapter;
       MediaPipeModel.awaiting := [];
       MediaPipeModel.sends := 1 |} in
  (fun aw => (MediaPipeModel.shown (MediaPipeModel.cv aw),
              MediaPipeModel.sends aw, MediaPipeModel.awaiting aw))
    <$> MediaPipeModel.step (MediaPipeModel.Call 16 17 Scenario.blurFrame) busy
  = Some (BlurComposite 7, 1%nat, []).
Proof. vm_compute. reflexivity. Qed.


End CaptureLoop.

(** ** The capture loop: one attempt per frame *)

Section DuplicateFrames.

Import Canvas BackgroundService.
Local Open Scope Q_scope.













(** What the two events leave behind. *)
Example session_duplicate_tick :
  (fun w => (frameCalls (ob w), published (ob w), rafQueue (pg w),
             localCanvas (pg w)))
    <$> run [Settle 0 Scenario.composited 0 116; RafFire 1 0]
          (toggle (Scenario.press 0) Scenario.page0)
  = Some ([0], 1%nat, [2%positive], Some (0, BlurComposite 7)).
Proof. vm_compute. reflexivity. Qed.

End DuplicateFrames.

(** ** The capture loop: a frame that fails *)

Section ProcessError.

Import Canvas BackgroundService.
Local Open Scope Q_scope.

Lemma rejected_fields (msg : string) (tv clock : Q) (w : world) :
  context (vb w) = true ->
  let w' := applyVirtualBackground_resume (Rejected msg) tv clock w in
  localCanvas (pg w') = Some (tv, SourceFrame) /\
  debugInfo (ob w')
  = debugInfo (ob w) ++ ["Error processing frame: " +:+ msg] /\
  alerts (ob w') = alerts (ob w) /\
  mt w' = mt w /\
  animationFrame (vb w') = Some (nextHandle (pg w)) /\
  rafQueue (pg w') = rafQueue (pg w) ++ [nextHandle (pg w)].
Proof.
  intros Hctx. unfold applyVirtualBackground_resume. simpl. rewrite Hctx.
  unfold requestFrame. simpl.
  destruct (videoTrack (vb w)); simpl; repeat split; reflexivity.
Qed.

Lemma fulfilled_canvas (x x' : world) (k : nat)
      (r : option MediaPipeModel.result) (drawn : surface) (tv clock : Q) :
  step (Settle k (Fulfilled r drawn) tv clock) x = Some x' ->
  localCanvas (pg x') = Some (tv, drawn).
Proof.
  intros Hx. unfold step in Hx.
  destruct (outstanding (pg x) !! k); [| discriminate]. simplify_eq.
  unfold applyVirtualBackground_resume.
  destruct r; simpl; rewrite requestFrame_pg; reflexivity.
Qed.

(** C3 as amended (ProcessError recovery).  When the [processFrame] promise
    of a tick rejects, the service draws the unmodified source frame on the
    canvas, writes one line to the debug panel, raises no alert and touches
    no counter of the metrics; it schedules the next callback, which the
    browser can run, and the fallback image stays only until a later tick
    is processed successfully.  Inside the MediaPipe adapter a failing
    inference is caught: the adapter itself draws the source frame,
    releases its flag and reports a segmentation time of zero. *)
Theorem process_error_recovery (w w' : world) (k : nat) (msg : string)
        (tv clock : Q) :
  context (vb w) = true ->
  step (Settle k (Rejected msg) tv clock) w = Some w' ->
  localCanvas (pg w') = Some (tv, SourceFrame) /\
  debugInfo (ob w')
  = debugInfo (ob w) ++ ["Error processing frame: " +:+ msg] /\
  alerts (ob w') = alerts (ob w) /\
  mt w' = mt w /\
  animationFrame (vb w') = Some (nextHandle (pg w)) /\
  (forall tv', is_Some (step (RafFire (nextHandle (pg w)) tv') w')) /\
  (forall x x' k' r drawn tv' clock',
      step (Settle k' (Fulfilled r drawn) tv' clock') x = Some x' ->
      localCanvas (pg x') = Some (tv', drawn)) /\
  (forall t0 tseg tend fr sc,
      MediaPipeModel.shown
        (MediaPipeModel.processFrame_resume t0 tseg tend false fr sc).1.2
      = SourceFrame /\
      MediaPipeModel.processingFrame
        (MediaPipeModel.processFrame_resume t0 tseg tend false fr sc).1.1
      = false /\
      MediaPipeModel.segmentationTime
        (MediaPipeModel.processFrame_resume t0 tseg tend false fr sc).2
      = 0).
Proof.
  intros Hctx Hstep. unfold step in Hstep.
  destruct (outstanding (pg w) !! k); [| discriminate]. simplify_eq.
  match goal with
  | |- context [applyVirtualBackground_resume _ _ _ ?w1] =>
      pose proof (rejected_fields msg tv clock w1 Hctx) as Hfields
  end.
  cbv zeta in Hfields.
  destruct Hfields as (Hcanvas & Hdebug & Halerts & Hmt & Hframe & Hqueue).
  split; [exact Hcanvas |]. split; [exact Hdebug |].
  split; [exact Halerts |]. split; [exact Hmt |].
  split; [exact Hframe |]. split; [| split].
  - intros tv'. unfold step. rewrite bool_decide_eq_true_2; [eauto |].
    rewrite Hqueue.
    apply elem_of_app. right. apply list_elem_of_singleton. reflexivity.
  - intros x x' k' r drawn tv' clock'. apply fulfilled_canvas.
  - intros t0 tseg tend fr [s c]. repeat split.
Qed.

Lemma process_error_recovery_witness :
  exists w w',
    run [Settle 0 Scenario.composited 0 116; RafFire 1 (1 # 30)]
        (toggle (Scenario.press 0) Scenario.page0) = Some w /\
    step (Settle 0 (Rejected "InvalidStateError") (1 # 30) 150) w = Some w' /\
    localCanvas (pg w') = Some (1 # 30, SourceFrame) /\
    debugInfo (ob w')
    = debugInfo (ob w) ++ ["Error processing frame: " +:+ "InvalidStateError"] /\
    alerts (ob w') = alerts (ob w) /\
    mt w' = mt w /\
    animationFrame (vb w') = Some (nextHandle (pg w)) /\
    (forall tv', is_Some (step (RafFire (nextHandle (pg w)) tv') w')) /\
    (forall x x' k' r drawn tv' clock',
        step (Settle k' (Fulfilled r drawn) tv' clock') x = Some x' ->
        localCanvas (pg x') = Some (tv', drawn)) /\
    (forall t0 tseg tend fr sc,
        MediaPipeModel.shown
          (MediaPipeModel.processFrame_resume t0 tseg tend false fr sc).1.2
        = SourceFrame /\
        MediaPipeModel.processingFrame
          (MediaPipeModel.processFrame_resume t0 tseg tend false fr sc).1.1
        = false /\
        MediaPipeModel.segmentationTime
          (MediaPipeModel.processFrame_resume t0 tseg tend false fr sc).2
        = 0).
Proof.
  do 2 eexists.
  split; [vm_compute; reflexivity |].
  split; [vm_compute; reflexivity |].
  apply (process_error_recovery _ _ 0%nat "InvalidStateError" (1 # 30) 150);
    vm_compute; reflexivity.
Defined.

(** C3 as stated asks for an error counter.  A failing tick moves no
    counter: the metrics are untouched, and all that changes elsewhere is
    the canvas, the debug panel, the frame pushed to the track and the
    scheduling of the next callback. *)
Lemma failed_frame_counts_nothing :
  exists w w',
    run [Settle 0 Scenario.composited 0 116; RafFire 1 (1 # 30)]
        (toggle (Scenario.press 0) Scenario.page0) = Some w /\
    step (Settle 0 (Rejected "InvalidStateError") (1 # 30) 150) w = Some w' /\
    mt w' = mt w /\
    totalProcessedFrames (mt w') = 1%nat /\
    vb w' = set_animationFrame (Some 2%positive) (vb w) /\
    pg w' = set_nextHandle 3
              (set_rafQueue [2%positive]
                 (set_localCanvas (Some (1 # 30, SourceFrame))
                    (set_outstanding [] (pg w)))) /\
    ob w' = set_published 2
              (set_debugInfo
                 (debugInfo (ob w)
                  ++ ["Error processing frame: InvalidStateError"]) (ob w)).
Proof.
  do 2 eexists.
  split; [vm_compute; reflexivity |].
  split; [vm_compute; reflexivity |].
  repeat split.
Qed.

End ProcessError.

(** ** Switching the effect on and off *)

Section Toggle.

Import Canvas BackgroundService.
Local Open Scope Q_scope.







(** The two BodyPix adapters on a page that cannot fetch the network.  The
    one whose [init()] resolves to [false] raises no alert: its own error
    line is what the debug panel shows.  With the one whose [init()]
    rejects, the service raises the alert and reports the error itself. *)
Example toggle_init_false_panel :
  let w := toggle Scenario.pressInitFalse Scenario.bodypixPage in
  enabled (vb w) = false /\
  activeModel (vb w)
  = Some {| kind := BackgroundModelFactory.BodyPix; iid := 0 |} /\
  alerts (ob w) = [] /\
  debugInfo (ob w)
  = [ "Creating background model: bodypix with options:";
      "Initializing BodyPix model...";
      "TensorFlow.js already loaded";
      "Loading BodyPix model...";
      "Error initializing BodyPix model: Failed to fetch" ].
Proof. vm_compute. repeat split. Qed.

Example toggle_init_throws_alerts :
  let w := toggle Scenario.pressInitThrows Scenario.bodypixPage in
  enabled (vb w) = false /\
  rafQueue (pg w) = [] /\
  outstanding (pg w) = [] /\
  alerts (ob w) = [("Could not initialize bodypix model.", "error")] /\
  debugInfo (ob w)
  = [ "Creating background model: bodypix with options:";
      "Loading BodyPix model...";
      "Failed to load BodyPix model: Failed to fetch";
      "Error initializing model: Failed to fetch" ].
Proof. vm_compute. repeat split. Qed.

Lemma step_disabled (e : event) (w w' : world) :
  step e w = Some w' ->
  enabled (vb w) = false ->
  enabled (vb w') = false /\ frameCalls (ob w') = frameCalls (ob w).
Proof.
  intros Hstep Hoff. destruct e as [h tv | k out tv clock];
    unfold step in Hstep.
  - case_bool_decide; [| discriminate]. simplify_eq.
    unfold processVideoFrames. simpl. rewrite Hoff. simpl.
    unfold stopFrames. simpl.
    destruct (animationFrame (vb w)); simpl; split; assumption || reflexivity.
  - destruct (outstanding (pg w) !! k); [| discriminate]. simplify_eq.
    unfold applyVirtualBackground_resume, requestFrame.
    destruct out as [[r |] drawn | msg]; simpl.
    + destruct (videoTrack (vb w)); simpl; split; assumption || reflexivity.
    + destruct (videoTrack (vb w)); simpl; split; assumption || reflexivity.
    + destruct (context (vb w)); simpl;
        [destruct (videoTrack (vb w)); simpl |];
        split; assumption || reflexivity.
Qed.

Lemma run_disabled (es : list event) (w w' : world) :
  run es w = Some w' ->
  enabled (vb w) = false ->
  enabled (vb w') = false /\ frameCalls (ob w') = frameCalls (ob w).
Proof.
  revert w. induction es as [| e es IH]; intros w Hrun Hoff; simpl in Hrun.
  - simplify_eq. split; [exact Hoff | reflexivity].
  - destruct (step e w) as [w1 |] eqn:E; [| discriminate].
    destruct (step_disabled e w w1 E Hoff) as [Hoff1 Hcalls1].
    destruct (IH w1 Hrun Hoff1) as [Hoff' Hcalls'].
    split; [exact Hoff' | congruence].
Qed.

Ltac switch_off Hon w :=
  unfold toggle;
  change (enabled (vb (upd_vb (set_enabled (negb (enabled (vb w)))) w)))
    with (negb (enabled (vb w)));
  rewrite Hon; simpl; unfold stopFrames; simpl.

Ltac frames_off w :=
  let s := fresh "s" in
  let Ea := fresh "Ea" in
  destruct (stream (vb w)) as [s |]; simpl;
  [destruct (videoTracks s); simpl |];
  destruct (animationFrame (vb w)) eqn:Ea; simpl; rewrite ?Ea; reflexivity.

Lemma filter_not_in (h : positive) (q : list positive) :
  h ∉ filter (fun x => x <> h) q.
Proof.
  intros Hin. apply list_elem_of_filter in Hin as [Hne _]. apply Hne. reflexivity.
Qed.

(** C7 as amended (stopping).  Switching the effect off restores the
    stream saved when it was switched on: the first video sender of the
    peer connection (if there is a connection and such a sender) is given
    the camera track again and the video element its stream; the pending
    animation-frame callback is cancelled, and whatever the browser still
    delivers afterwards, no [processFrame] call is made any more.  The
    active backend is left as it is: it is not disposed at this point (it
    is when a model is next loaded). *)
Theorem stopping_restores_call (env : toggleEnv) (w : world) :
  enabled (vb w) = true ->
  let w' := toggle env w in
  enabled (vb w') = false /\
  (forall s, stream (vb w) = Some s ->
     srcObject (pg w') = Some s /\
     (forall cam rest, videoTracks s = cam :: rest ->
        peerConnection (pg w')
        = replaceVideoTrack cam <$> peerConnection (pg w))) /\
  animationFrame (vb w') = None /\
  (forall h, animationFrame (vb w) = Some h -> h ∉ rafQueue (pg w')) /\
  (forall es w'', run es w' = Some w'' ->
     enabled (vb w'') = false /\ frameCalls (ob w'') = frameCalls (ob w)) /\
  activeModel (vb w') = activeModel (vb w) /\
  disposed (ob w') = disposed (ob w).
Proof.
  intros Hon w'.
  assert (Hoff : enabled (vb w') = false)
    by (subst w'; switch_off Hon w; frames_off w).
  assert (Hcalls : frameCalls (ob w') = frameCalls (ob w))
    by (subst w'; switch_off Hon w; frames_off w).
  split; [exact Hoff |].
  split; [| split; [| split; [| split; [| split]]]].
  - intros s Hs. subst w'. switch_off Hon w. rewrite Hs. simpl.
    split.
    + destruct (videoTracks s); simpl;
        destruct (animationFrame (vb w)) eqn:Ea; simpl; reflexivity.
    + intros cam rest Hcam. rewrite Hcam. simpl.
      destruct (animationFrame (vb w)) eqn:Ea; simpl; reflexivity.
  - subst w'. switch_off Hon w. frames_off w.
  - intros h Hh. subst w'. switch_off Hon w.
    destruct (stream (vb w)) as [s |]; simpl;
      [destruct (videoTracks s); simpl |];
      rewrite Hh; simpl; apply filter_not_in.
  - intros es w'' Hrun.
    destruct (run_disabled es w' w'' Hrun Hoff) as [H1 H2].
    split; [exact H1 | congruence].
  - subst w'. switch_off Hon w. frames_off w.
  - subst w'. switch_off Hon w. frames_off w.
Qed.

Lemma stopping_restores_call_witness :
  let w := toggle (Scenario.press 0) Scenario.page0 in
  let w' := toggle (Scenario.press 1) w in
  enabled (vb w') = false /\
  (forall s, stream (vb w) = Some s ->
     srcObject (pg w') = Some s /\
     (forall cam rest, videoTracks s = cam :: rest ->
        peerConnection (pg w')
        = replaceVideoTrack cam <$> peerConnection (pg w))) /\
  animationFrame (vb w') = None /\
  (forall h, animationFrame (vb w) = Some h -> h ∉ rafQueue (pg w')) /\
  (forall es w'', run es w' = Some w'' ->
     enabled (vb w'') = false /\ frameCalls (ob w'') = frameCalls (ob w)) /\
  activeModel (vb w') = activeModel (vb w) /\
  disposed (ob w') = disposed (ob w).
Proof.
  apply (stopping_restores_call (Scenario.press 1)
           (toggle (Scenario.press 0) Scenario.page0)).
  vm_compute. reflexivity.
Defined.

(** C7 as stated fails on the disposal: after the effect has been switched
    on and off, the adapter created when it was switched on is still the
    active model, [dispose()] has been called on nothing, and the camera
    track is back on the sender. *)
Lemma disabling_keeps_backend :
  let on := toggle (Scenario.press 0) Scenario.page0 in
  let off := toggle (Scenario.press 1) on in
  enabled (vb on) = true /\
  peerConnection (pg on) = Some [Some (Microphone 0); Some (Capture 0)] /\
  enabled (vb off) = false /\
  peerConnection (pg off) = Some [Some (Microphone 0); Some (Camera 0)] /\
  activeModel (vb off)
  = Some {| kind := BackgroundModelFactory.MediaPipe; iid := 0 |} /\
  disposed (ob off) = [].
Proof. vm_compute. repeat split. Qed.

(** The adapter is disposed when the effect is next switched on. *)
Example reenabling_disposes :
  let on := toggle (Scenario.press 0) Scenario.page0 in
  let off := toggle (Scenario.press 1) on in
  let again := toggle (Scenario.press 2) off in
  disposed (ob again) = [0%nat] /\
  activeModel (vb again)
  = Some {| kind := BackgroundModelFactory.MediaPipe; iid := 1 |}.
Proof. vm_compute. repeat split. Qed.

End Toggle.

(** * Further properties *)

(** ** Capabilities, preferences and the model list *)

Section FactoryUse.

Import BackgroundModelFactory Capabilities.
Local Open Scope Q_scope.

Lemma lower_ascii_idem c : Js.lower_ascii (Js.lower_ascii c) = Js.lower_ascii c.
Proof.
  destruct c as [[] [] [] [] [] [] [] []]; vm_compute; reflexivity.
Qed.

Lemma toLowerCase_idem s : Js.toLowerCase (Js.toLowerCase s) = Js.toLowerCase s.
Proof.
  induction s as [|c s IH]; simpl; [reflexivity|].
  rewrite lower_ascii_idem, IH. reflexivity.
Qed.

Lemma createModel_explicit importOk t f :
  t <> "auto" ->
  (createModel importOk t f).2 =
  imported importOk (adapterFor t).
Proof.
  intros Ht. unfold createModel, imported, adapterFor.
  assert (Hp : (match userPreferredModel f with
                | Some p => Js.truthy_str p && bool_decide (t = "auto")
                | None => false end) = false).
  { destruct (userPreferredModel f); [|reflexivity].
    rewrite (bool_decide_eq_false_2 _ Ht). apply andb_false_r. }
  rewrite Hp. cbv beta iota zeta.
  rewrite (bool_decide_eq_false_2 _ Ht). cbv beta iota zeta.
  destruct (bool_decide (Js.toLowerCase t = "mediapipe")) eqn:Em.
  - apply bool_decide_eq_true_1 in Em.
    rewrite bool_decide_eq_false_2 by (rewrite Em; discriminate).
    cbv beta iota zeta.
    destruct (importOk MediaPipe); reflexivity.
  - destruct (bool_decide (Js.toLowerCase t = "bodypix")) eqn:Eb;
      cbv beta iota zeta.
    + destruct (importOk BodyPix); [reflexivity|].
      destruct (importOk MediaPipe); reflexivity.
    + destruct (importOk MediaPipe); reflexivity.
Qed.

Lemma createModel_auto_none importOk f :
  userPreferredModel f = None ->
  (createModel importOk "auto" f).2 = imported importOk MediaPipe.
Proof.
  intros Hn. unfold createModel, imported, adapterFor. rewrite Hn.
  cbv beta iota zeta.
  rewrite (bool_decide_eq_true_2 ("auto" = "auto") eq_refl).
  cbv beta iota zeta. rewrite _selectOptimalModel_mediapipe.
  rewrite (bool_decide_eq_true_2 (Js.toLowerCase "mediapipe" = "mediapipe") eq_refl).
  cbv beta iota zeta.
  destruct (importOk MediaPipe); reflexivity.
Qed.

Lemma createModel_auto_preferred importOk p f :
  userPreferredModel f = Some p ->
  (createModel importOk "auto" f).2 =
  imported importOk (adapterFor p).
Proof.
  intros Hp.
  destruct (Js.truthy_str p) eqn:Et.
  - unfold createModel, imported, adapterFor. rewrite Hp. simpl default.
    rewrite Et. rewrite (bool_decide_eq_true_2 ("auto" = "auto") eq_refl).
    cbv beta iota zeta. simpl andb. cbv beta iota zeta.
    destruct (bool_decide (p = "auto")) eqn:Ea; cbv beta iota zeta.
    + apply bool_decide_eq_true_1 in Ea. subst p.
      rewrite _selectOptimalModel_mediapipe.
      rewrite (bool_decide_eq_true_2 (Js.toLowerCase "mediapipe" = "mediapipe") eq_refl).
      cbv beta iota zeta.
      rewrite (bool_decide_eq_false_2 (Js.toLowerCase "auto" = "bodypix"))
        by discriminate.
      destruct (importOk MediaPipe); reflexivity.
    + destruct (bool_decide (Js.toLowerCase p = "mediapipe")) eqn:Em.
      * apply bool_decide_eq_true_1 in Em.
        rewrite bool_decide_eq_false_2 by (rewrite Em; discriminate).
        cbv beta iota zeta.
        destruct (importOk MediaPipe); reflexivity.
      * destruct (bool_decide (Js.toLowerCase p = "bodypix")) eqn:Eb;
          cbv beta iota zeta.
        -- destruct (importOk BodyPix); [reflexivity|].
           destruct (importOk MediaPipe); reflexivity.
        -- destruct (importOk MediaPipe); reflexivity.
  - destruct p; [|discriminate].
    unfold createModel, imported, adapterFor. rewrite Hp. simpl.
    rewrite _selectOptimalModel_mediapipe.
    rewrite (bool_decide_eq_true_2 (Js.toLowerCase "mediapipe" = "mediapipe") eq_refl).
    cbv beta iota zeta.
    destruct (importOk MediaPipe); reflexivity.
Qed.

Lemma createModel_result importOk t f :
  exists wanted, (createModel importOk t f).2 = imported importOk wanted /\
    (wanted = BodyPix ->
     Js.toLowerCase t = "bodypix" \/
     (t = "auto" /\ exists p, userPreferredModel f = Some p /\
                              Js.toLowerCase p = "bodypix")).
Proof.
  destruct (decide (t = "auto")) as [->|Hn].
  - destruct (userPreferredModel f) as [p|] eqn:Hp.
    + exists (adapterFor p). split.
      * apply createModel_auto_preferred, Hp.
      * unfold adapterFor. case_bool_decide; [|discriminate].
        intros _. right. split; [reflexivity|]. eauto.
    + exists MediaPipe. split; [apply createModel_auto_none, Hp|discriminate].
  - exists (adapterFor t). split; [apply createModel_explicit, Hn|].
    unfold adapterFor. case_bool_decide; [|discriminate]. intros _. left.
    assumption.
Qed.

Lemma setUserPreferredModel_accepted m cfg f f' :
  setUserPreferredModel m cfg f = (f', true) ->
  userPreferredModel f' = Some (Js.toLowerCase m).
Proof.
  intros Hset. unfold setUserPreferredModel in Hset.
  destruct (Js.get (availableModels f) (Js.toLowerCase m)) as [info| |];
    try (inversion Hset; fail).
  destruct (negb (isImplemented info)); [inversion Hset|].
  destruct (simdRequired cfg && negb (simdSupport f)); [inversion Hset|].
  inversion Hset. reflexivity.
Qed.

(** Asked by name for the model that is also the stored preference,
    [createModel] builds the adapter of that name. *)
Lemma createModel_named importOk p f :
  userPreferredModel f = Some p ->
  (createModel importOk p f).2 = imported importOk (adapterFor p).
Proof.
  intros Hp. destruct (decide (p = "auto")) as [-> | Hn].
  - apply createModel_auto_preferred. exact Hp.
  - apply createModel_explicit. exact Hn.
Qed.

(** X1: a preference that [setUserPreferredModel] accepts decides what
    [createModel('auto')] builds next: the BodyPix adapter when the name is
    'bodypix' in any letter case, the MediaPipe adapter for every other
    accepted name, with the fallback to MediaPipe when the import fails. *)
Theorem preference_decides_auto importOk m cfg f f' :
  setUserPreferredModel m cfg f = (f', true) ->
  userPreferredModel f' = Some (Js.toLowerCase m) /\
  (createModel importOk "auto" f').2 = imported importOk (adapterFor m).
Proof.
  intros Hset.
  pose proof (setUserPreferredModel_accepted m cfg f f' Hset) as Hp.
  split; [exact Hp|].
  rewrite (createModel_auto_preferred importOk _ f' Hp).
  unfold adapterFor. rewrite toLowerCase_idem. reflexivity.
Qed.

Lemma preference_decides_auto_witness :
  userPreferredModel
    (setUserPreferredModel "BodyPix" emptyConfig new).1 = Some "bodypix" /\
  (createModel (fun _ => true) "auto"
     (setUserPreferredModel "BodyPix" emptyConfig new).1).2 =
  imported (fun _ => true) (adapterFor "BodyPix").
Proof.
  apply (preference_decides_auto (fun _ => true) "BodyPix" emptyConfig new).
  vm_compute. reflexivity.
Defined.

(** X2: after [resetUserPreferredModel], whatever was chosen before and
    whatever the device, [createModel('auto')] builds the MediaPipe adapter,
    or nothing when its module cannot be imported; BodyPix is never built. *)
Theorem reset_restores_auto importOk f :
  userPreferredModel (resetUserPreferredModel f).1 = None /\
  userPreferredConfig (resetUserPreferredModel f).1 = None /\
  (createModel importOk "auto" (resetUserPreferredModel f).1).2 =
  (if importOk MediaPipe then Some MediaPipe else None).
Proof.
  split; [reflexivity|]. split; [reflexivity|].
  rewrite createModel_auto_none by reflexivity.
  unfold imported. destruct (importOk MediaPipe); reflexivity.
Qed.

(** X3: [createModel] answers [null] only when the MediaPipe module
    cannot be imported, and it builds the BodyPix adapter only when the
    BodyPix module was imported for a request that names 'bodypix', given
    either as the argument or as the stored preference of an 'auto'
    request. *)
Theorem createModel_fallback importOk t f :
  ((createModel importOk t f).2 = None -> importOk MediaPipe = false) /\
  ((createModel importOk t f).2 = Some BodyPix ->
   importOk BodyPix = true /\
   (Js.toLowerCase t = "bodypix" \/
    (t = "auto" /\ exists p, userPreferredModel f = Some p /\
                             Js.toLowerCase p = "bodypix"))).
Proof.
  destruct (createModel_result importOk t f) as (wanted & Hr & Hw).
  rewrite Hr. unfold imported. split.
  - destruct (importOk wanted); [discriminate|].
    destruct (importOk MediaPipe); [discriminate|reflexivity].
  - destruct (importOk wanted) eqn:Ew.
    + intros [= ->]. split; [exact Ew|]. apply Hw. reflexivity.
    + destruct (importOk MediaPipe); discriminate.
Qed.

(** X4: when the benchmark of [init] completes, the device class is read
    off the elapsed time alone (under 50 ms high, under 200 ms medium, low
    otherwise): the estimate made from the core count, WebGL and the user
    agent never reaches the result.  The detected capabilities are stored as
    reported and [init] answers [true]. *)
Theorem benchmark_decides_performance h f t text :
  bench h = Completed t text ->
  devicePerformance (init h f).1 =
    (if Qlt_le_dec t 50 then High
     else if Qlt_le_dec t 200 then Medium else Low) /\
  simdSupport (init h f).1 = simd h /\
  webglSupport (init h f).1 = webgl h /\
  webgl2Support (init h f).1 = webgl2 h /\
  (init h f).2 = true.
Proof.
  intros Hb. unfold init, _estimateDevicePerformance, _runSimpleBenchmark.
  rewrite Hb. cbv zeta.
  repeat match goal with
         | |- context [if ?c then _ else _] => destruct c
         end;
    repeat split; reflexivity.
Qed.

Lemma benchmark_decides_performance_witness :
  let h := {| simd := false; webgl := false; webgl2 := false;
              nav := {| hardwareConcurrency := Some 2%nat;
                        mobileUserAgent := true |};
              bench := Completed 12 "12.00" |} in
  devicePerformance (init h new).1 =
    (if Qlt_le_dec 12 50 then High
     else if Qlt_le_dec 12 200 then Medium else Low) /\
  simdSupport (init h new).1 = simd h /\
  webglSupport (init h new).1 = webgl h /\
  webgl2Support (init h new).1 = webgl2 h /\
  (init h new).2 = true.
Proof.
  intros h. apply (benchmark_decides_performance h new 12 "12.00").
  reflexivity.
Defined.

End FactoryUse.

Section ModelListButtons.

Import BackgroundModelFactory Capabilities ModelList.

(** X5: in the model list of the lab, drawn from the table of the factory
    on any host, a button is enabled exactly when the selection its click
    handler makes is accepted by the factory: clicking an enabled button
    never runs into one of the rejections of [setUserPreferredModel], and
    every disabled button stands for a selection that would be rejected. *)
Theorem buttons_match_validation f :
  availableModels f = models0 ->
  length (buttons f) = 10%nat /\
  Forall (fun b => exists r, click b f = Some r /\ r.2 = negb (disabled b))
         (buttons f).
Proof.
  intros H. destruct f as [sd wg wg2 dp am up uc dl]. simpl in H. subst am.
  set (f := {| simdSupport := sd; webglSupport := wg; webgl2Support := wg2;
               devicePerformance := dp; availableModels := models0;
               userPreferredModel := up; userPreferredConfig := uc;
               debugLog := dl |}).
  set (check := fun b : button =>
                  match click b f with
                  | Some r => eqb r.2 (negb (disabled b))
                  | None => false
                  end).
  assert (Hall : forallb check (buttons f) = true).
  { subst check f. destruct sd; vm_compute; reflexivity. }
  assert (Hlen : length (buttons f) = 10%nat).
  { subst f. destruct sd; vm_compute; reflexivity. }
  clearbody f. split; [exact Hlen|].
  apply Forall_forall. intros b Hb.
  apply list_elem_of_In in Hb.
  rewrite forallb_forall in Hall. specialize (Hall b Hb).
  unfold check in Hall. destruct (click b f) as [r |]; [| discriminate].
  exists r. split; [reflexivity|]. apply eqb_prop. exact Hall.
Qed.

Lemma buttons_match_validation_witness :
  length (buttons new) = 10%nat /\
  Forall (fun b => exists r, click b new = Some r /\ r.2 = negb (disabled b))
         (buttons new).
Proof.
  apply (buttons_match_validation new). reflexivity.
Defined.

End ModelListButtons.

(** ** The MediaPipe adapter between calls *)

Section MediaPipeAdapter.

Import Canvas MediaPipeModel MediaPipeTrace.
Local Open Scope Q_scope.

Lemma processFrame_begin_skip (t0 t1 : Q) (fr : frame) (sc : state * canvas) :
  let '(s, c, b) := processFrame_begin t0 t1 fr sc in
  maxSkippedFrames s = maxSkippedFrames sc.1 /\
  isLowPowerMode s = isLowPowerMode sc.1 /\
  match b with
  | AwaitingSend =>
      skippedFrames s = 0%nat /\
      (maxSkippedFrames sc.1 <= skippedFrames sc.1)%nat
  | _ => True
  end.
Proof.
  destruct sc as [s0 c0]. unfold processFrame_begin.
  repeat case_match; simplify_eq/=; repeat split; try reflexivity;
    try (apply Nat.ltb_ge; assumption).
  all: repeat match goal with
       | H : context [if ?b then _ else _] |- _ => destruct b; simpl in *
       end; try (apply Nat.ltb_ge; assumption); try congruence.
Qed.

Lemma processFrame_resume_keeps (t0 tseg tend : Q) (ok : bool) (fr : frame)
      (sc : state * canvas) :
  let '(s, c, r) := processFrame_resume t0 tseg tend ok fr sc in
  skippedFrames s = skippedFrames sc.1 /\
  maxSkippedFrames s = maxSkippedFrames sc.1 /\
  isLowPowerMode s = isLowPowerMode sc.1 /\
  bufferCanvas s = bufferCanvas sc.1 /\
  width c = width sc.2 /\ height c = height sc.2.
Proof.
  destruct sc as [s0 c0]. unfold processFrame_resume.
  repeat case_match; simplify_eq/=; repeat split; reflexivity.
Qed.

Lemma adaptiveTick_mode (s : state) :
  skippedFrames (adaptiveTick s) = skippedFrames s /\
  bufferCanvas (adaptiveTick s) = bufferCanvas s /\
  (adaptiveTick s = s \/
   (maxSkippedFrames (adaptiveTick s) = 2%nat /\
    isLowPowerMode (adaptiveTick s) = true) \/
   (maxSkippedFrames (adaptiveTick s) = 1%nat /\
    isLowPowerMode (adaptiveTick s) = false)).
Proof.
  unfold adaptiveTick.
  repeat case_match; simpl; repeat split; auto.
Qed.

Lemma dispose_mode (s : state) :
  maxSkippedFrames (dispose s) = maxSkippedFrames s /\
  bufferCanvas (dispose s) = bufferCanvas s /\
  (skippedFrames (dispose s) = 0%nat \/ dispose s = s).
Proof.
  unfold dispose. case_match; simpl; auto.
Qed.

Lemma step_mode (e : event) (w w' : world) :
  step e w = Some w' -> modeOk (st w) -> modeOk (st w').
Proof.
  unfold modeOk. intros Hstep [Hm Hl].
  destruct e as [t0 t1 fr | k ok tseg tend | r | |]; unfold step in Hstep.
  - pose proof (processFrame_begin_skip t0 t1 fr (st w, cv w)) as Hb.
    destruct (processFrame_begin t0 t1 fr (st w, cv w)) as [[s c] b].
    destruct Hb as (Hmax & Hlow & _). simpl in Hmax, Hlow.
    destruct b; simplify_eq/=; rewrite Hmax, Hlow; auto.
  - destruct (awaiting w !! k) as [[t0 fr] |]; [| discriminate].
    pose proof (processFrame_resume_keeps t0 tseg tend ok fr (st w, cv w)) as Hr.
    destruct (processFrame_resume t0 tseg tend ok fr (st w, cv w)) as [[s c] r].
    destruct Hr as (_ & Hmax & Hlow & _). simpl in Hmax, Hlow.
    simplify_eq/=. rewrite Hmax, Hlow. auto.
  - simplify_eq/=. auto.
  - simplify_eq/=.
    destruct (adaptiveTick_mode (st w)) as (_ & _ & [-> | [[-> ->] | [-> ->]]]);
      auto.
    split; [auto | discriminate].
  - simplify_eq/=. unfold dispose. case_match; simpl; auto.
    split; [auto | discriminate].
Qed.

(** X6: whatever calls, results, timer ticks and disposals follow one
    another, the skip limit of the adapter stays 1 or 2, and it is 2 whenever
    the adapter is in low-power mode. *)
Theorem skip_limit_invariant (es : list event) (w w' : world) :
  run es w = Some w' ->
  (maxSkippedFrames (st w) = 1%nat \/ maxSkippedFrames (st w) = 2%nat) ->
  (isLowPowerMode (st w) = true -> maxSkippedFrames (st w) = 2%nat) ->
  (maxSkippedFrames (st w') = 1%nat \/ maxSkippedFrames (st w') = 2%nat) /\
  (isLowPowerMode (st w') = true -> maxSkippedFrames (st w') = 2%nat).
Proof.
  intros Hrun H1 H2. assert (Hok : modeOk (st w)) by (split; assumption).
  clear H1 H2. revert w Hrun Hok.
  induction es as [| e es IH]; intros w Hrun Hok; simpl in Hrun.
  - simplify_eq. exact Hok.
  - destruct (step e w) as [w1 |] eqn:Hstep; [| discriminate].
    apply (IH w1 Hrun). eapply step_mode; eassumption.
Qed.

Lemma skip_limit_invariant_witness :
  let w' := default Scenario.readyAdapter
              (run (Scenario.serialCalls ++ [AdaptiveTick; Dispose])
                   Scenario.readyAdapter) in
  (maxSkippedFrames (st w') = 1%nat \/ maxSkippedFrames (st w') = 2%nat) /\
  (isLowPowerMode (st w') = true -> maxSkippedFrames (st w') = 2%nat).
Proof.
  intros w'.
  apply (skip_limit_invariant (Scenario.serialCalls ++ [AdaptiveTick; Dispose])
           Scenario.readyAdapter w').
  - vm_compute. reflexivity.
  - left. vm_compute. reflexivity.
  - vm_compute. discriminate.
Defined.

Lemma skipped_le_1 (s : state) : (skipped s <= 1)%nat.
Proof. unfold skipped. case_match; lia. Qed.

Lemma step_sends (e : event) (w w' : world) :
  step e w = Some w' ->
  (1 <= maxSkippedFrames (st w))%nat ->
  (1 <= maxSkippedFrames (st w'))%nat /\
  (2 * sends w' + skipped (st w') <=
   2 * sends w + skipped (st w) + calls [e])%nat.
Proof.
  intros Hstep Hmax.
  destruct e as [t0 t1 fr | k ok tseg tend | r | |]; unfold step in Hstep;
    unfold calls; simpl List.filter; simpl length.
  - pose proof (processFrame_begin_skip t0 t1 fr (st w, cv w)) as Hb.
    destruct (processFrame_begin t0 t1 fr (st w, cv w)) as [[s c] b].
    destruct Hb as (Hm & _ & Hs). simpl in Hm, Hs.
    pose proof (skipped_le_1 s).
    destruct b; simplify_eq/=; rewrite ?Hm; split; try lia.
    destruct Hs as [Hs0 Hge]. unfold skipped. rewrite Hs0. simpl.
    destruct (skippedFrames (st w)) eqn:E; [lia|]. simpl. lia.
  - destruct (awaiting w !! k) as [[t0 fr] |]; [| discriminate].
    pose proof (processFrame_resume_keeps t0 tseg tend ok fr (st w, cv w)) as Hr.
    destruct (processFrame_resume t0 tseg tend ok fr (st w, cv w)) as [[s c] r].
    destruct Hr as (Hs & Hm & _). simpl in Hs, Hm.
    simplify_eq/=. unfold skipped. rewrite Hs, Hm. split; lia.
  - simplify_eq/=. unfold skipped. simpl. split; lia.
  - simplify_eq/=.
    destruct (adaptiveTick_mode (st w)) as (Hs & _ & Hcase).
    unfold skipped. rewrite Hs. split; [|lia].
    destruct Hcase as [-> | [[-> _] | [-> _]]]; lia.
  - simplify_eq/=.
    destruct (dispose_mode (st w)) as (Hm & _ & Hcase).
    rewrite Hm. split; [lia|].
    destruct Hcase as [H0 | ->]; [|lia].
    unfold skipped at 1. rewrite H0. simpl. lia.
Qed.

Lemma calls_cons (e : event) (es : list event) :
  calls (e :: es) = (calls [e] + calls es)%nat.
Proof. unfold calls. simpl. destruct e; reflexivity. Qed.

(** X7: the adapter runs inference for at most every other frame.  Over
    any trace, twice the number of [segmenter.send] requests is bounded by
    the number of [processFrame] calls (plus one when the skip counter was
    already above zero at the start). *)
Theorem inference_every_other_frame (es : list event) (w w' : world) :
  run es w = Some w' ->
  (1 <= maxSkippedFrames (st w))%nat ->
  (2 * sends w' + skipped (st w') <=
   2 * sends w + skipped (st w) + calls es)%nat.
Proof.
  revert w. induction es as [| e es IH]; intros w Hrun Hmax; simpl in Hrun.
  - simplify_eq. unfold calls. simpl. lia.
  - destruct (step e w) as [w1 |] eqn:Hstep; [| discriminate].
    destruct (step_sends e w w1 Hstep Hmax) as [Hmax1 Hle].
    specialize (IH w1 Hrun Hmax1). rewrite calls_cons. lia.
Qed.

Lemma inference_every_other_frame_witness :
  let w' := default Scenario.readyAdapter
              (run Scenario.serialCalls Scenario.readyAdapter) in
  (2 * sends w' + skipped (st w') <=
   2 * sends Scenario.readyAdapter + skipped (st Scenario.readyAdapter)
   + calls Scenario.serialCalls)%nat.
Proof.
  intros w'.
  apply (inference_every_other_frame Scenario.serialCalls
           Scenario.readyAdapter w').
  - vm_compute. reflexivity.
  - vm_compute. lia.
Defined.

Lemma processFrame_begin_sized (t0 t1 : Q) (fr : frame) (sc : state * canvas) :
  width sc.2 = videoWidth fr -> height sc.2 = videoHeight fr ->
  let '(s, c, b) := processFrame_begin t0 t1 fr sc in
  bufferCanvas s = bufferCanvas sc.1 /\
  width c = width sc.2 /\ height c = height sc.2.
Proof.
  destruct sc as [s0 c0]. simpl. intros Hw Hh. unfold processFrame_begin.
  assert (Hres : negb (width c0 =? videoWidth fr)%Z
                 || negb (height c0 =? videoHeight fr)%Z = false).
  { rewrite Hw, Hh, !Z.eqb_refl. reflexivity. }
  rewrite Hres. simpl.
  repeat case_match; simplify_eq/=; repeat split; congruence.
Qed.

Lemma step_sized (e : event) (w w' : world) :
  step e w = Some w' ->
  callsSized (width (cv w)) (height (cv w)) [e] ->
  bufferCanvas (st w') = bufferCanvas (st w) /\
  width (cv w') = width (cv w) /\ height (cv w') = height (cv w).
Proof.
  intros Hstep Hsz. apply Forall_cons in Hsz as [Hsz _].
  destruct e as [t0 t1 fr | k ok tseg tend | r | |]; unfold step in Hstep.
  - destruct Hsz as [Hw Hh].
    pose proof (processFrame_begin_sized t0 t1 fr (st w, cv w)
                  (eq_sym Hw) (eq_sym Hh)) as Hb.
    destruct (processFrame_begin t0 t1 fr (st w, cv w)) as [[s c] b].
    simpl in Hb. destruct b; simplify_eq/=; exact Hb.
  - destruct (awaiting w !! k) as [[t0 fr] |]; [| discriminate].
    pose proof (processFrame_resume_keeps t0 tseg tend ok fr (st w, cv w)) as Hr.
    destruct (processFrame_resume t0 tseg tend ok fr (st w, cv w)) as [[s c] r].
    destruct Hr as (_ & _ & _ & Hb & Hw & Hh). simplify_eq/=. auto.
  - simplify_eq/=. auto.
  - simplify_eq/=. destruct (adaptiveTick_mode (st w)) as (_ & Hb & _). auto.
  - simplify_eq/=. destruct (dispose_mode (st w)) as (_ & Hb & _). auto.
Qed.

(** X8: the buffer through which the person is matted is resized only by
    a call that finds the output canvas at another size than the video.
    When the caller keeps the canvas at the size of the video, as
    [processVideoFrames] does before every call, the buffer keeps the size it
    has, which [init] set to 640x480, whatever the size of the video. *)
Theorem buffer_keeps_size (es : list event) (w w' : world) :
  run es w = Some w' ->
  callsSized (width (cv w)) (height (cv w)) es ->
  bufferCanvas (st w') = bufferCanvas (st w) /\
  width (cv w') = width (cv w) /\ height (cv w') = height (cv w).
Proof.
  revert w. induction es as [| e es IH]; intros w Hrun Hsz; simpl in Hrun.
  - simplify_eq. auto.
  - destruct (step e w) as [w1 |] eqn:Hstep; [| discriminate].
    apply Forall_cons in Hsz as [He Hes].
    destruct (step_sized e w w1 Hstep) as (Hb & Hw & Hh).
    { constructor; [exact He | constructor]. }
    unfold callsSized in IH. rewrite <- Hw, <- Hh in Hes.
    destruct (IH w1 Hrun Hes) as (Hb' & Hw' & Hh').
    rewrite Hb', Hw', Hh'. auto.
Qed.

Lemma buffer_keeps_size_witness :
  let w := {| st := Scenario.readyState;
              cv := {| width := 1280; height := 720; shown := Blank |};
              awaiting := []; sends := 0 |} in
  let hd := {| videoWidth := 1280; videoHeight := 720;
               backgroundType := "blur"; backgroundImage := None |} in
  let es := [Call 0 1 hd; Call 16 17 hd; Results 7;
             SendSettles 0 true 40 41; Call 48 49 hd] in
  let w' := default w (run es w) in
  bufferCanvas (st w') = bufferCanvas (st w) /\
  width (cv w') = width (cv w) /\ height (cv w') = height (cv w).
Proof.
  intros w hd es w'. apply (buffer_keeps_size es w w').
  - vm_compute. reflexivity.
  - repeat constructor.
Defined.

(** The buffer of an adapter that [init] has set up measures 640x480. *)
Lemma init_buffer (ctorOk : bool) (s : state) (h : heap) :
  loadingPromise s = None ->
  bufferCanvas (init ctorOk (s, h)).1.1 = Some (640, 480)%Z.
Proof.
  intros Hn. unfold init. rewrite Hn. destruct ctorOk; reflexivity.
Qed.

(** X9: a call that finds the canvas at another size than a video of
    non-zero size leaves the canvas, and unless it throws the buffer too, at
    the size of the video. *)
Theorem resize_follows_video (t0 t1 : Q) (fr : frame) (s : state) (c : canvas) :
  videoWidth fr <> 0%Z -> videoHeight fr <> 0%Z ->
  (width c <> videoWidth fr \/ height c <> videoHeight fr) ->
  let '(s', c', b) := processFrame_begin t0 t1 fr (s, c) in
  width c' = videoWidth fr /\ height c' = videoHeight fr /\
  (b <> Threw -> bufferCanvas s' = Some (videoWidth fr, videoHeight fr)).
Proof.
  intros Hw Hh Hne. unfold processFrame_begin.
  assert (Hres : negb (width c =? videoWidth fr)%Z
                 || negb (height c =? videoHeight fr)%Z = true).
  { destruct Hne as [H | H]; apply Z.eqb_neq in H; rewrite H; simpl;
      [reflexivity | apply orb_true_r]. }
  rewrite Hres. unfold or_dim.
  apply Z.eqb_neq in Hw, Hh. rewrite Hw, Hh. simpl.
  repeat case_match; simplify_eq/=; repeat split; try reflexivity;
    try congruence.
  all: repeat match goal with
       | H : context [if ?b then _ else _] |- _ => destruct b; simpl in *
       end; try congruence.
Qed.

Lemma resize_follows_video_witness :
  let '(s', c', b) :=
    processFrame_begin 0 1 Scenario.blurFrame
      (Scenario.readyState,
       {| width := 300; height := 150; shown := Blank |}) in
  width c' = videoWidth Scenario.blurFrame /\
  height c' = videoHeight Scenario.blurFrame /\
  (b <> Threw ->
   bufferCanvas s' = Some (videoWidth Scenario.blurFrame,
                           videoHeight Scenario.blurFrame)).
Proof.
  apply (resize_follows_video 0 1 Scenario.blurFrame Scenario.readyState
           {| width := 300; height := 150; shown := Blank |}).
  - vm_compute. discriminate.
  - vm_compute. discriminate.
  - left. vm_compute. discriminate.
Defined.

End MediaPipeAdapter.

Section MediaPipeLifecycle.

Import Canvas MediaPipeModel MediaPipeTrace.
Local Open Scope Q_scope.

(** X10: [dispose()] does not cancel an [init()] that is still loading.
    Called between the start of [init] and the end of the preload it changes
    nothing, and when the preload ends the adapter becomes initialised with
    the segmenter that [init] constructed. *)
Theorem dispose_does_not_cancel_init (s : state) (h : heap) :
  segmenter s = None -> loadingPromise s = None ->
  let '(s1, h1, p) := init true (s, h) in
  dispose s1 = s1 /\
  let '(s2, h2) := init_complete (dispose s1, h1) in
  isInitialized s2 = true /\ segmenter s2 = Some (constructed h) /\
  loadingPromise s2 = Some p.
Proof.
  intros Hs Hl. unfold init. rewrite Hl. unfold dispose. simpl. rewrite Hs.
  simpl. auto.
Qed.

Lemma dispose_does_not_cancel_init_witness :
  let '(s1, h1, p) := init true (new, heap0) in
  dispose s1 = s1 /\
  let '(s2, h2) := init_complete (dispose s1, h1) in
  isInitialized s2 = true /\ segmenter s2 = Some (constructed heap0) /\
  loadingPromise s2 = Some p.
Proof.
  apply (dispose_does_not_cancel_init new heap0); reflexivity.
Defined.

(** X11: an adapter whose [init()] failed cannot be initialised again.
    The rejected promise stays in [loadingPromise]; [dispose()] does not
    clear it, since no segmenter was installed, and every later [init()],
    whether or not the segmenter could now be constructed, returns the same
    rejected promise without constructing anything. *)
Theorem failed_init_is_final (c : bool) (s : state) (h : heap) :
  segmenter s = None -> loadingPromise s = None ->
  let '(s1, h1, p) := init false (s, h) in
  promises h1 !! p = Some Rejected /\
  dispose s1 = s1 /\
  init c (dispose s1, h1) = (s1, h1, p) /\
  constructed h1 = constructed h /\ isInitialized s1 = false.
Proof.
  intros Hs Hl. unfold init at 1. rewrite Hl. unfold dispose. simpl.
  rewrite Hs. unfold init. simpl.
  repeat split.
  rewrite lookup_app_r by lia. rewrite Nat.sub_diag. reflexivity.
Qed.

Lemma failed_init_is_final_witness :
  let '(s1, h1, p) := init false (new, heap0) in
  promises h1 !! p = Some Rejected /\
  dispose s1 = s1 /\
  init true (dispose s1, h1) = (s1, h1, p) /\
  constructed h1 = constructed heap0 /\ isInitialized s1 = false.
Proof.
  apply (failed_init_is_final true new heap0); reflexivity.
Defined.

(** X12: [dispose()] leaves low-power mode but keeps the skip limit that
    low-power mode had set, and the periodic check does not lower it again:
    as long as the last processing time stays at or under 33 ms the disposed
    adapter, and the adapter initialised again from it, skips at the
    low-power rate. *)
Theorem dispose_keeps_skip_limit (s : state) :
  is_Some (segmenter s) -> isLowPowerMode s = true ->
  lastProcessingTime s <= 33 ->
  isLowPowerMode (dispose s) = false /\
  maxSkippedFrames (dispose s) = maxSkippedFrames s /\
  adaptiveTick (dispose s) = dispose s /\
  maxSkippedFrames (init_complete (init true (dispose s, heap0)).1).1
  = maxSkippedFrames s.
Proof.
  intros [i Hi] Hlow Ht. unfold dispose. rewrite Hi.
  repeat split.
  - unfold adaptiveTick. simpl.
    destruct (Qlt_le_dec 33 (lastProcessingTime s)) as [Hlt | _].
    + exfalso. apply (Qlt_not_le _ _ Hlt). exact Ht.
    + destruct (Qlt_le_dec (lastProcessingTime s) 20); reflexivity.
Qed.

Lemma dispose_keeps_skip_limit_witness :
  let s := set_lastProcessingTime 25
             (adaptiveTick (set_lastProcessingTime 40 Scenario.readyState)) in
  isLowPowerMode (dispose s) = false /\
  maxSkippedFrames (dispose s) = maxSkippedFrames s /\
  adaptiveTick (dispose s) = dispose s /\
  maxSkippedFrames (init_complete (init true (dispose s, heap0)).1).1
  = maxSkippedFrames s.
Proof.
  intros s. apply (dispose_keeps_skip_limit s).
  - eexists. vm_compute. reflexivity.
  - vm_compute. reflexivity.
  - vm_compute. discriminate.
Defined.

(** X13: a call reports a segmentation time other than zero only when the
    inference it issued succeeded and results are at hand; it is then the
    time between entry and the end of the wait, the total time is stored as
    the last processing time, and no other path of [processFrame] touches
    that field. *)
Theorem segmentation_time_reported (t0 t1 tseg tend : Q) (ok : bool)
        (fr : frame) (s : state) (c : canvas) :
  (forall s' c' r,
     processFrame_begin t0 t1 fr (s, c) = (s', c', Returned r) ->
     segmentationTime r = 0 /\ totalTime r = t1 - t0 /\
     lastProcessingTime s' = lastProcessingTime s) /\
  (let '(s', c', r) := processFrame_resume t0 tseg tend ok fr (s, c) in
   totalTime r = tend - t0 /\
   ((segmentationTime r = 0 /\ lastProcessingTime s' = lastProcessingTime s) \/
    (ok = true /\ is_Some (lastResults s) /\
     segmentationTime r = tseg - t0 /\
     lastProcessingTime s' = tend - t0))).
Proof.
  split.
  - intros s' c' r. unfold processFrame_begin.
    repeat case_match; intros; simplify_eq/=; auto.
  - unfold processFrame_resume.
    repeat case_match; simplify_eq/=; split; auto.
Qed.

Lemma drawLast_not_ready (s : state) (fr : frame) :
  effectReady fr = false -> drawLast s fr = (SourceFrame, true).
Proof.
  unfold effectReady, drawLast, _drawResultsWithBackground. intros H.
  apply orb_false_iff in H as [Hb Hi]. rewrite Hb.
  destruct (lastResults s); [|reflexivity].
  destruct (bool_decide (backgroundType fr = "beach")
            || bool_decide (backgroundType fr = "office")
            || bool_decide (backgroundType fr = "custom")); [|reflexivity].
  simpl in Hi. destruct (backgroundImage fr) as [[]|]; try discriminate;
    reflexivity.
Qed.

(** X14: when no effect can be drawn (the type is 'none' or unknown, or the
    image of an image background is missing or not loaded) every path of
    [processFrame] that draws shows the raw frame: the early returns, the
    frame-skip and busy paths, and the continuation after the inference. *)
Theorem no_effect_shows_source (t0 t1 tseg tend : Q) (ok : bool)
        (fr : frame) (s : state) (c : canvas) :
  effectReady fr = false ->
  (forall s' c' r,
     processFrame_begin t0 t1 fr (s, c) = (s', c', Returned r) ->
     shown c' = SourceFrame) /\
  shown (processFrame_resume t0 tseg tend ok fr (s, c)).1.2 = SourceFrame.
Proof.
  intros Hn. split.
  - intros s' c' r. unfold processFrame_begin.
    rewrite !drawLast_not_ready by exact Hn.
    repeat case_match; intros; simplify_eq/=; reflexivity.
  - unfold processFrame_resume.
    assert (Hd : forall buf m, _drawResultsWithBackground buf m fr
                               = (SourceFrame, true)).
    { intros buf m.
      pose proof (drawLast_not_ready
                    (onResults m (set_bufferCanvas buf s)) fr Hn) as H.
      exact H. }
    destruct ok; [|reflexivity].
    destruct (lastResults s); [|reflexivity].
    rewrite Hd. reflexivity.
Qed.

Lemma no_effect_shows_source_witness :
  let fr := {| videoWidth := 640; videoHeight := 480;
               backgroundType := "office"; backgroundImage := Some false |} in
  (forall s' c' r,
     processFrame_begin 0 1 fr
       (onResults 7 Scenario.readyState, cv Scenario.readyAdapter)
     = (s', c', Returned r) ->
     shown c' = SourceFrame) /\
  shown (processFrame_resume 0 40 41 true fr
           (onResults 7 Scenario.readyState, cv Scenario.readyAdapter)).1.2
  = SourceFrame.
Proof.
  intros fr.
  apply (no_effect_shows_source 0 1 40 41 true fr).
  reflexivity.
Defined.

End MediaPipeLifecycle.

(** ** The BodyPix adapter on a frame *)

Section BodyPixAdapter.

Import BodyPixModel BodyPixFrames.
Local Open Scope Q_scope.

(** X15: the two adapters disagree on the 'office' background.  The BodyPix
    adapter (the first of the two classes named BodyPixModel) has no branch
    for it and shows the raw frame of any video of non-zero size, even with
    the image loaded; the MediaPipe adapter, given the same arguments after
    a successful inference, composites the person over the image. *)
Theorem office_only_in_mediapipe (t0 tseg tend : Q) (lib : library)
        (fr : MediaPipeModel.frame) (st : state) (cv : canvas)
        (ms : MediaPipeModel.state) (mc : MediaPipeModel.canvas) (m : nat) :
  MediaPipeModel.backgroundType fr = "office" ->
  MediaPipeModel.backgroundImage fr = Some true ->
  MediaPipeModel.videoWidth fr <> 0%Z ->
  MediaPipeModel.videoHeight fr <> 0%Z ->
  MediaPipeModel.lastResults ms = Some m ->
  is_Some (MediaPipeModel.bufferCanvas ms) ->
  painted (processFrame t0 tseg tend lib fr (st, cv)).1 = Video /\
  MediaPipeModel.shown
    (MediaPipeModel.processFrame_resume t0 tseg tend true fr (ms, mc)).1.2
  = Canvas.ImageComposite m.
Proof.
  intros Hbt Himg Hw Hh Hres [buf Hbuf]. split.
  - unfold processFrame. rewrite Hbt.
    apply Z.eqb_neq in Hw, Hh. rewrite Hw, Hh. simpl.
    repeat case_match; reflexivity.
  - unfold MediaPipeModel.processFrame_resume,
      MediaPipeModel._drawResultsWithBackground.
    rewrite Hres, Hbt, Himg, Hbuf. reflexivity.
Qed.

Lemma office_only_in_mediapipe_witness :
  let fr := {| MediaPipeModel.videoWidth := 640;
               MediaPipeModel.videoHeight := 480;
               MediaPipeModel.backgroundType := "office";
               MediaPipeModel.backgroundImage := Some true |} in
  let st := {| model := Some 0%nat; isInitialized := true |} in
  let cv := {| width := 640; height := 480; painted := Cleared |} in
  let lib := {| segmentPerson := Some 3%nat; drawOk := true |} in
  let ms := MediaPipeModel.onResults 7 Scenario.readyState in
  let mc := MediaPipeModel.cv Scenario.readyAdapter in
  painted (processFrame 0 30 31 lib fr (st, cv)).1 = Video /\
  MediaPipeModel.shown
    (MediaPipeModel.processFrame_resume 0 30 31 true fr (ms, mc)).1.2
  = Canvas.ImageComposite 7.
Proof.
  intros fr st cv lib ms mc.
  apply (office_only_in_mediapipe 0 30 31 lib fr st cv ms mc 7).
  - reflexivity.
  - reflexivity.
  - vm_compute. discriminate.
  - vm_compute. discriminate.
  - reflexivity.
  - eexists. vm_compute. reflexivity.
Defined.

(** X16: the BodyPix adapter (the first of the two classes named
    BodyPixModel) never fails a frame and sizes the canvas to the video.
    For a video of non-zero size the canvas has the size of the
    video after the call; for a video without size it is painted black at
    the size it has, and no segmentation is reported.  A segmentation time
    other than zero is reported only when [segmentPerson] answered. *)
Theorem bodypix_frame_shape (t0 tseg tend : Q) (lib : library)
        (fr : MediaPipeModel.frame) (st : state) (cv : canvas) :
  let out := processFrame t0 tseg tend lib fr (st, cv) in
  MediaPipeModel.totalTime out.2 = tend - t0 /\
  (MediaPipeModel.segmentationTime out.2 = 0 \/
   (MediaPipeModel.segmentationTime out.2 = tseg - t0 /\
    is_Some (segmentPerson lib) /\ isInitialized st = true)) /\
  (if (MediaPipeModel.videoWidth fr =? 0)%Z
      || (MediaPipeModel.videoHeight fr =? 0)%Z
   then out.1 = paint Black cv /\ MediaPipeModel.segmentationTime out.2 = 0
   else width out.1 = MediaPipeModel.videoWidth fr /\
        height out.1 = MediaPipeModel.videoHeight fr /\
        painted out.1 <> Black /\ painted out.1 <> Cleared).
Proof.
  unfold processFrame, MediaPipeModel.or_dim.
  destruct (MediaPipeModel.videoWidth fr =? 0)%Z eqn:Ew;
    [simpl; auto|].
  destruct (MediaPipeModel.videoHeight fr =? 0)%Z eqn:Eh;
    [simpl; auto|].
  simpl orb. cbv iota.
  destruct (negb (width cv =? MediaPipeModel.videoWidth fr)%Z
            || negb (height cv =? MediaPipeModel.videoHeight fr)%Z) eqn:Er.
  - simpl.
    repeat case_match; simpl; repeat split; auto; try discriminate;
      try (right; repeat split; eauto;
           match goal with
           | H : negb (isInitialized _) || _ = false |- _ =>
               apply orb_false_iff in H as [H _];
               apply negb_false_iff in H; exact H
           end).
  - apply orb_false_iff in Er as [Erw Erh].
    apply negb_false_iff in Erw, Erh. apply Z.eqb_eq in Erw, Erh.
    repeat case_match; simpl; repeat split; auto; try discriminate;
      try (right; repeat split; eauto;
           match goal with
           | H : negb (isInitialized _) || _ = false |- _ =>
               apply orb_false_iff in H as [H _];
               apply negb_false_iff in H; exact H
           end).
Qed.

(** X17: once disposed, the BodyPix adapter (the first of the two classes
    named BodyPixModel) keeps accepting frames and passes them through: every frame of a video of non-zero size is shown
    raw, with a segmentation time of zero, whatever background is asked
    for. *)
Theorem bodypix_disposed_passes_through (t0 tseg tend : Q) (lib : library)
        (fr : MediaPipeModel.frame) (st : state) (cv : canvas) :
  MediaPipeModel.videoWidth fr <> 0%Z ->
  MediaPipeModel.videoHeight fr <> 0%Z ->
  let out := processFrame t0 tseg tend lib fr (dispose true st, cv) in
  painted out.1 = Video /\ MediaPipeModel.segmentationTime out.2 = 0.
Proof.
  intros Hw Hh. unfold processFrame, dispose.
  apply Z.eqb_neq in Hw, Hh. rewrite Hw, Hh. simpl.
  repeat case_match; simpl; auto.
Qed.

Lemma bodypix_disposed_passes_through_witness :
  let fr := {| MediaPipeModel.videoWidth := 640;
               MediaPipeModel.videoHeight := 480;
               MediaPipeModel.backgroundType := "blur";
               MediaPipeModel.backgroundImage := None |} in
  let st := {| model := Some 0%nat; isInitialized := true |} in
  let cv := {| width := 640; height := 480; painted := Cleared |} in
  let lib := {| segmentPerson := Some 3%nat; drawOk := true |} in
  let out := processFrame 0 30 31 lib fr (dispose true st, cv) in
  painted out.1 = Video /\ MediaPipeModel.segmentationTime out.2 = 0.
Proof.
  intros fr st cv lib.
  apply (bodypix_disposed_passes_through 0 30 31 lib fr st cv).
  - vm_compute. discriminate.
  - vm_compute. discriminate.
Defined.

End BodyPixAdapter.

(** ** The session clock *)

Section SessionClockFacts.

Import SessionClock.
Local Open Scope Q_scope.

Lemma Qfloor_unique (z : Z) (x : Q) :
  inject_Z z <= x -> x < inject_Z (z + 1) -> Qfloor x = z.
Proof.
  intros Hle Hlt.
  pose proof (Qfloor_le x) as H1. pose proof (Qlt_floor x) as H2.
  assert (Ha : (z < Qfloor x + 1)%Z).
  { rewrite Zlt_Qlt. eapply Qle_lt_trans; eassumption. }
  assert (Hb : (Qfloor x < z + 1)%Z).
  { rewrite Zlt_Qlt. eapply Qle_lt_trans; eassumption. }
  lia.
Qed.

Lemma padStart2_length (n : Z) :
  (0 <= n < 100)%Z -> String.length (padStart2 (pretty n)) = 2%nat.
Proof.
  intros Hn. assert (Hk : exists k : nat, (k < 100)%nat /\ n = Z.of_nat k).
  { exists (Z.to_nat n). split; lia. }
  destruct Hk as (k & Hk & ->). clear Hn.
  do 100 (destruct k as [| k]; [vm_compute; reflexivity |]).
  lia.
Qed.

Lemma string_length_app (a b : string) :
  String.length (a +:+ b) = (String.length a + String.length b)%nat.
Proof. induction a as [| c a IH]; simpl; [reflexivity | rewrite IH; reflexivity]. Qed.

(** X18: [formatTime] splits a duration that is not negative into whole
    minutes and the whole seconds left over: the seconds shown lie between 0
    and 59, and minutes and seconds together are the duration rounded down
    to a second.  Up to 100 minutes the text has the five characters of
    MM:SS. *)
Theorem formatTime_splits (seconds : Q) :
  0 <= seconds ->
  (0 <= mins seconds)%Z /\
  (0 <= secs seconds <= 59)%Z /\
  (60 * mins seconds + secs seconds = Qfloor seconds)%Z /\
  (seconds < 6000 -> String.length (formatTime seconds) = 5%nat).
Proof.
  intros Hs. unfold mins, secs, remainder, trunc.
  set (m := Qfloor (seconds / 60)).
  pose proof (Qfloor_le (seconds / 60)) as Hm1.
  pose proof (Qlt_floor (seconds / 60)) as Hm2. fold m in Hm1, Hm2.
  assert (Hdiv : seconds / 60 == seconds * (1 # 60)) by (unfold Qdiv; reflexivity).
  rewrite Hdiv in Hm1, Hm2.
  assert (Hq0 : 0 <= seconds / 60).
  { rewrite Hdiv. lra. }
  destruct (Qlt_le_dec (seconds / 60) 0) as [Hneg | _].
  { exfalso. exact (Qlt_not_le _ _ Hneg Hq0). }
  fold m.
  rewrite inject_Z_plus in Hm2. change (inject_Z 1) with 1 in Hm2.
  set (r := Qfloor (seconds - 60 * inject_Z m)).
  pose proof (Qfloor_le (seconds - 60 * inject_Z m)) as Hr1.
  pose proof (Qlt_floor (seconds - 60 * inject_Z m)) as Hr2.
  fold r in Hr1, Hr2.
  rewrite inject_Z_plus in Hr2. change (inject_Z 1) with 1 in Hr2.
  assert (Hm0 : (0 <= m)%Z).
  { change 0%Z with (Qfloor 0). apply Qfloor_resp_le. exact Hq0. }
  assert (Hr0 : (0 <= r)%Z).
  { change 0%Z with (Qfloor 0). apply Qfloor_resp_le. lra. }
  assert (Hr59 : (r < 60)%Z).
  { rewrite Zlt_Qlt. change (inject_Z 60) with 60. lra. }
  assert (Hsum : (60 * m + r = Qfloor seconds)%Z).
  { symmetry. apply Qfloor_unique.
    - rewrite inject_Z_plus, inject_Z_mult. change (inject_Z 60) with 60. lra.
    - rewrite !inject_Z_plus, inject_Z_mult. change (inject_Z 60) with 60.
      change (inject_Z 1) with 1. lra. }
  repeat split; try lia.
  intros Hlt. unfold formatTime, mins, secs, remainder, trunc.
  destruct (Qlt_le_dec (seconds / 60) 0) as [Hneg | _].
  { exfalso. exact (Qlt_not_le _ _ Hneg Hq0). }
  fold m. fold r.
  rewrite !string_length_app.
  assert (Hm100 : (m < 100)%Z).
  { rewrite Zlt_Qlt. change (inject_Z 100) with 100. lra. }
  rewrite !padStart2_length by lia. reflexivity.
Qed.

Lemma formatTime_splits_witness :
  (0 <= mins (1507 # 10))%Z /\
  (0 <= secs (1507 # 10) <= 59)%Z /\
  (60 * mins (1507 # 10) + secs (1507 # 10) = Qfloor (1507 # 10))%Z /\
  ((1507 # 10) < 6000 -> String.length (formatTime (1507 # 10)) = 5%nat).
Proof.
  apply (formatTime_splits (1507 # 10)). vm_compute. discriminate.
Defined.

End SessionClockFacts.

(** ** Session totals *)

Section SessionTotals.

Import BackgroundService.
Local Open Scope Q_scope.

Lemma recordAll_totals (ss : list sample) (m : metrics) :
  totalProcessedFrames (recordAll ss m)
  = (totalProcessedFrames m + length ss)%nat /\
  totalSegmentationTime (recordAll ss m)
  = fold_left Qplus (map seg ss) (totalSegmentationTime m) /\
  totalFrameProcessingTime (recordAll ss m)
  = fold_left Qplus (map total ss) (totalFrameProcessingTime m) /\
  sessionStartTime (recordAll ss m) = sessionStartTime m.
Proof.
  revert m. induction ss as [| s ss IH]; intros m.
  - simpl. repeat split; try reflexivity. lia.
  - change (recordAll (s :: ss) m) with (recordAll ss (recordSample m s)).
    destruct (IH (recordSample m s)) as (H1 & H2 & H3 & H4).
    rewrite H1, H2, H3, H4. simpl. repeat split; try reflexivity. lia.
Qed.

Lemma fold_plus_le (xs ys : list Q) (a b : Q) :
  Forall2 Qle xs ys -> a <= b ->
  fold_left Qplus xs a <= fold_left Qplus ys b.
Proof.
  intros H. revert a b. induction H as [| x y xs ys Hxy _ IH]; intros a b Hab.
  - exact Hab.
  - simpl. apply IH. apply Qplus_le_compat; assumption.
Qed.

(** X19: between two resets the session counters are exact: the number of
    frames counted is the number of results recorded, and the two totals are
    the sums of the segmentation times and of the processing times of all of
    them, however many there are, while the windows keep the last 30 only.
    The session averages shown are these sums divided by the count, and the
    average segmentation time does not exceed the average processing time
    when no single frame reports more segmentation than total time. *)
Theorem session_totals (t0 clock : Q) (m0 : metrics) (ss : list sample)
        (w : world) :
  mt w = recordAll ss (resetMetrics t0 m0) ->
  Forall (fun s => seg s <= total s) ss ->
  totalProcessedFrames (mt w) = length ss /\
  totalSegmentationTime (mt w) = sum (map seg ss) /\
  totalFrameProcessingTime (mt w) = sum (map total ss) /\
  (ss <> [] ->
   avgSegTime (updateMetricsDisplay clock w)
   = sum (map seg ss) / inject_Z (Z.of_nat (length ss)) /\
   avgFrameProcessTime (updateMetricsDisplay clock w)
   = sum (map total ss) / inject_Z (Z.of_nat (length ss))) /\
  avgSegTime (updateMetricsDisplay clock w)
  <= avgFrameProcessTime (updateMetricsDisplay clock w).
Proof.
  intros Hm Hle.
  destruct (recordAll_totals ss (resetMetrics t0 m0)) as (H1 & H2 & H3 & _).
  rewrite <- Hm in H1, H2, H3. simpl in H1, H2, H3.
  assert (Hsum : sum (map seg ss) <= sum (map total ss)).
  { unfold sum. apply fold_plus_le; [| apply Qle_refl].
    clear -Hle. induction Hle; simpl; constructor; assumption. }
  split; [exact H1 |]. split; [exact H2 |]. split; [exact H3 |].
  unfold updateMetricsDisplay. simpl. rewrite H1, H2, H3.
  destruct ss as [| s ss'].
  - split; [intros Hne; exfalso; apply Hne; reflexivity |].
    simpl. apply Qle_refl.
  - set (n := length (s :: ss')).
    assert (Hn : (0 <? n)%nat = true) by (apply Nat.ltb_lt; subst n; simpl; lia).
    rewrite Hn. split; [intros _; split; reflexivity |].
    unfold Qdiv. apply Qmult_le_compat_r; [exact Hsum |].
    apply Qinv_le_0_compat.
    change 0 with (inject_Z 0). rewrite <- Zle_Qle. lia.
Qed.

Lemma session_totals_witness :
  let w := upd_mt (fun m => recordAll Scenario.samples32 (resetMetrics 0 m))
                  Scenario.fastWorld in
  totalProcessedFrames (mt w) = length Scenario.samples32 /\
  totalSegmentationTime (mt w) = sum (map seg Scenario.samples32) /\
  totalFrameProcessingTime (mt w) = sum (map total Scenario.samples32) /\
  (Scenario.samples32 <> [] ->
   avgSegTime (updateMetricsDisplay 600 w)
   = sum (map seg Scenario.samples32)
     / inject_Z (Z.of_nat (length Scenario.samples32)) /\
   avgFrameProcessTime (updateMetricsDisplay 600 w)
   = sum (map total Scenario.samples32)
     / inject_Z (Z.of_nat (length Scenario.samples32))) /\
  avgSegTime (updateMetricsDisplay 600 w)
  <= avgFrameProcessTime (updateMetricsDisplay 600 w).
Proof.
  intros w.
  apply (session_totals 0 600 (mt Scenario.fastWorld) Scenario.samples32 w).
  - reflexivity.
  - unfold Scenario.samples32. apply Forall_forall. intros s Hs.
    apply list_elem_of_In in Hs. apply in_map_iff in Hs as (i & <- & _).
    simpl. lra.
Defined.

End SessionTotals.

(** ** The capture loop while the effect is on *)

Section LoopProgress.

Import Canvas BackgroundService ServiceTrace.
Local Open Scope Q_scope.

Lemma processVideoFrames_starts (tv : Q) (w : world) :
  enabled (vb w) = true -> localVideo (pg w) = true ->
  load_of (processVideoFrames tv w) = S (load_of w) /\
  enabled (vb (processVideoFrames tv w)) = true /\
  localVideo (pg (processVideoFrames tv w)) = true /\
  videoTrack (vb (processVideoFrames tv w)) = videoTrack (vb w) /\
  context (vb (processVideoFrames tv w)) = context (vb w) /\
  published (ob (processVideoFrames tv w)) = published (ob w) /\
  mt (processVideoFrames tv w) = mt w.
Proof.
  intros Hon Hvid. unfold processVideoFrames. rewrite Hon, Hvid. simpl.
  destruct (Qeq_bool (lastProcessedVideoTime (vb w)) tv).
  - unfold load_of. simpl. rewrite length_app. simpl.
    repeat split; try assumption; try reflexivity. lia.
  - unfold applyVirtualBackground_begin. simpl. rewrite Hon. simpl.
    destruct (activeModel (vb w)); unfold load_of; simpl;
      rewrite length_app; simpl;
      repeat split; try assumption; try reflexivity; lia.
Qed.

Lemma resume_keeps (out : outcome) (tv clock : Q) (w : world) :
  enabled (vb (applyVirtualBackground_resume out tv clock w)) = enabled (vb w) /\
  localVideo (pg (applyVirtualBackground_resume out tv clock w))
  = localVideo (pg w) /\
  videoTrack (vb (applyVirtualBackground_resume out tv clock w))
  = videoTrack (vb w) /\
  context (vb (applyVirtualBackground_resume out tv clock w))
  = context (vb w).
Proof.
  unfold applyVirtualBackground_resume, requestFrame.
  destruct out as [[r |] drawn | msg]; simpl.
  - destruct (videoTrack (vb w)) eqn:E; simpl; rewrite ?E; repeat split; reflexivity.
  - destruct (videoTrack (vb w)) eqn:E; simpl; rewrite ?E; repeat split; reflexivity.
  - destruct (context (vb w)) eqn:Ec; simpl;
      [destruct (videoTrack (vb w)) eqn:E; simpl; rewrite ?E, ?Ec |];
      repeat split; try reflexivity; assumption.
Qed.

Lemma resume_counts (out : outcome) (tv clock : Q) (w : world) :
  is_Some (videoTrack (vb w)) -> context (vb w) = true ->
  published (ob (applyVirtualBackground_resume out tv clock w))
  = S (published (ob w)) /\
  totalProcessedFrames (mt (applyVirtualBackground_resume out tv clock w))
  = (totalProcessedFrames (mt w)
     + measured [Settle 0 out tv clock])%nat.
Proof.
  intros [t Ht] Hc. unfold applyVirtualBackground_resume, requestFrame, measured.
  destruct out as [[r |] drawn | msg]; simpl.
  - rewrite Ht. simpl. split; [reflexivity | lia].
  - rewrite Ht. simpl. split; [reflexivity | lia].
  - rewrite Hc. simpl. rewrite Ht. simpl. split; [reflexivity | lia].
Qed.

Lemma step_running (e : event) (w w' : world) :
  step e w = Some w' -> running w ->
  running w' /\
  videoTrack (vb w') = videoTrack (vb w) /\
  context (vb w') = context (vb w) /\
  (is_Some (videoTrack (vb w)) -> context (vb w) = true ->
   published (ob w') = (published (ob w) + settles [e])%nat /\
   totalProcessedFrames (mt w')
   = (totalProcessedFrames (mt w) + measured [e])%nat).
Proof.
  intros Hstep (Hon & Hvid & Hload).
  destruct e as [h tv | k out tv clock]; unfold step in Hstep.
  - case_bool_decide as Hin; [| discriminate]. simplify_eq.
    assert (H0 : load_of (cancelAnimationFrame h w) = 0%nat).
    { unfold load_of in *. simpl.
      destruct (rafQueue (pg w)) as [| x q] eqn:Eq; [inversion Hin |].
      simpl in Hload.
      assert (q = []) by (destruct q; [reflexivity | simpl in Hload; lia]).
      subst q.
      rewrite (cancel_only_handle h [x] Hin) by (simpl; lia).
      destruct (outstanding (pg w)); simpl in *; lia. }
    destruct (processVideoFrames_starts tv (cancelAnimationFrame h w) Hon Hvid)
      as (Hl & He & Hv & Ht & Hc & Hp & Hm).
    unfold running. rewrite Hl, H0, He, Hv, Ht, Hc, Hp, Hm.
    unfold settles, measured. simpl.
    repeat split; try reflexivity; lia.
  - destruct (outstanding (pg w) !! k) as [i |] eqn:Ek; [| discriminate].
    simplify_eq.
    set (w1 := upd_pg (fun p => set_outstanding (delete k (outstanding p)) p) w).
    destruct (resume_keeps out tv clock w1) as (He & Hv & Ht & Hc).
    unfold running. rewrite resume_load, He, Hv, Ht, Hc.
    repeat split; try assumption.
    + unfold load_of in *. subst w1. simpl.
      rewrite length_delete by (eexists; exact Ek).
      pose proof (lookup_lt_Some _ _ _ Ek). lia.
    + destruct (resume_counts out tv clock w1 H H0) as [Hp _].
      rewrite Hp. unfold settles. simpl. lia.
    + destruct (resume_counts out tv clock w1 H H0) as [_ Hm].
      rewrite Hm. unfold measured. simpl.
      destruct out as [[r |] drawn | msg]; reflexivity.
Qed.

Lemma settles_cons (e : event) (es : list event) :
  settles (e :: es) = (settles [e] + settles es)%nat.
Proof. unfold settles. simpl. destruct e; reflexivity. Qed.

Lemma measured_cons (e : event) (es : list event) :
  measured (e :: es) = (measured [e] + measured es)%nat.
Proof.
  unfold measured. simpl. destruct e as [| k [[r |] d | m] tv c]; reflexivity.
Qed.

Lemma run_running (es : list event) (w w' : world) :
  run es w = Some w' -> running w ->
  running w' /\
  (is_Some (videoTrack (vb w)) -> context (vb w) = true ->
   published (ob w') = (published (ob w) + settles es)%nat /\
   totalProcessedFrames (mt w')
   = (totalProcessedFrames (mt w) + measured es)%nat).
Proof.
  revert w. induction es as [| e es IH]; intros w Hrun Hr; simpl in Hrun.
  - simplify_eq. split; [exact Hr |]. intros _ _.
    unfold settles, measured. simpl. split; lia.
  - destruct (step e w) as [w1 |] eqn:Hstep; [| discriminate].
    destruct (step_running e w w1 Hstep Hr) as (Hr1 & Ht & Hc & Hcount).
    destruct (IH w1 Hrun Hr1) as (Hr' & Hcount').
    split; [exact Hr' |]. intros Hs Hctx.
    destruct (Hcount Hs Hctx) as [Hp Hm].
    rewrite Ht, Hc in Hcount'.
    destruct (Hcount' Hs Hctx) as [Hp' Hm'].
    rewrite Hp', Hm', Hp, Hm, (settles_cons e es), (measured_cons e es).
    split; lia.
Qed.

(** X20: while the effect is on the capture loop never comes to rest and
    never doubles.  Started with one callback scheduled or one call
    outstanding, after any sequence of callbacks and settlements it has
    again exactly one of the two, so there is always a next event that
    carries it on. *)
Theorem loop_never_idle (es : list event) (w w' : world) :
  run es w = Some w' ->
  enabled (vb w) = true -> localVideo (pg w) = true -> load_of w = 1%nat ->
  enabled (vb w') = true /\ load_of w' = 1%nat /\
  exists e, is_Some (step e w').
Proof.
  intros Hrun Hon Hvid Hload.
  destruct (run_running es w w' Hrun) as [(Hon' & Hvid' & Hload') _].
  { repeat split; assumption. }
  split; [exact Hon' |]. split; [exact Hload' |].
  unfold load_of in Hload'.
  destruct (rafQueue (pg w')) as [| h q] eqn:Eq.
  - destruct (outstanding (pg w')) as [| i o] eqn:Eo; [simpl in Hload'; lia |].
    exists (Settle 0 (Rejected "") 0 0). unfold step. rewrite Eo. simpl.
    eexists. reflexivity.
  - exists (RafFire h 0). unfold step. rewrite Eq.
    rewrite bool_decide_eq_true_2 by (apply list_elem_of_here).
    eexists. reflexivity.
Qed.

Lemma loop_never_idle_witness :
  let w := toggle (Scenario.press 0) Scenario.page0 in
  let w' := default w (run Scenario.session w) in
  enabled (vb w') = true /\ load_of w' = 1%nat /\
  exists e, is_Some (step e w').
Proof.
  intros w w'. apply (loop_never_idle Scenario.session w w').
  - vm_compute. reflexivity.
  - vm_compute. reflexivity.
  - vm_compute. reflexivity.
  - vm_compute. reflexivity.
Defined.

(** X21: while the effect is on, with the canvas track and the 2D context
    in place and the loop running (one callback scheduled or one call
    outstanding), one frame is pushed to the outgoing track for every
    [processFrame] promise that settles, fulfilled or rejected, and none for
    a callback that finds no new video frame; the frame counter of the
    session grows only for the promises fulfilled with a result, so a frame
    whose processing failed is sent but not measured. *)
Theorem published_per_settlement (es : list event) (w w' : world) :
  run es w = Some w' ->
  enabled (vb w) = true -> localVideo (pg w) = true -> load_of w = 1%nat ->
  is_Some (videoTrack (vb w)) -> context (vb w) = true ->
  published (ob w') = (published (ob w) + settles es)%nat /\
  totalProcessedFrames (mt w')
  = (totalProcessedFrames (mt w) + measured es)%nat /\
  (measured es <= settles es)%nat.
Proof.
  intros Hrun Hon Hvid Hload Ht Hc.
  destruct (run_running es w w' Hrun) as [_ Hcount].
  { repeat split; assumption. }
  destruct (Hcount Ht Hc) as [Hp Hm].
  split; [exact Hp |]. split; [exact Hm |].
  clear. induction es as [| e es IH]; [unfold measured, settles; simpl; lia |].
  rewrite (settles_cons e es), (measured_cons e es).
  assert (measured [e] <= settles [e])%nat; [| lia].
  unfold measured, settles.
  destruct e as [| k [[r |] d | m] tv c]; simpl; lia.
Qed.

Lemma published_per_settlement_witness :
  let w := toggle (Scenario.press 0) Scenario.page0 in
  let w' := default w (run Scenario.session w) in
  published (ob w') = (published (ob w) + settles Scenario.session)%nat /\
  totalProcessedFrames (mt w')
  = (totalProcessedFrames (mt w) + measured Scenario.session)%nat /\
  (measured Scenario.session <= settles Scenario.session)%nat.
Proof.
  intros w w'. apply (published_per_settlement Scenario.session w w').
  - vm_compute. reflexivity.
  - vm_compute. reflexivity.
  - vm_compute. reflexivity.
  - vm_compute. reflexivity.
  - eexists. vm_compute. reflexivity.
  - vm_compute. reflexivity.
Defined.

End LoopProgress.

(** ** Switching the effect on, and off again *)

Section SwitchingOn.

Import Canvas BackgroundService ServiceTrace.
Local Open Scope Q_scope.

(** What [loadSelectedModel] leaves alone. *)
Lemma loadSelectedModel_frame (m : option string) (env : loadEnv) (w : world) :
  let w' := (loadSelectedModel m env w).1 in
  mt w' = mt w /\
  (peerConnection (pg w') = peerConnection (pg w) /\
   srcObject (pg w') = srcObject (pg w) /\
   canvasDisplayed (pg w') = canvasDisplayed (pg w) /\
   nextHandle (pg w') = nextHandle (pg w) /\
   metricUpdateInterval (pg w') = metricUpdateInterval (pg w) /\
   nextTrack (pg w') = nextTrack (pg w)) /\
  (stream (vb w') = stream (vb w) /\
   context (vb w') = context (vb w) /\
   targetFps (vb w') = targetFps (vb w) /\
   videoTrack (vb w') = videoTrack (vb w) /\
   canvasStream (vb w') = canvasStream (vb w)) /\
  published (ob w') = published (ob w).
Proof.
  unfold loadSelectedModel.
  repeat case_match; simpl; repeat split; reflexivity.
Qed.

(** What [loadSelectedModel] does to the adapter instances. *)
Lemma loadSelectedModel_instances (m : option string) (env : loadEnv)
      (w : world) :
  let w' := (loadSelectedModel m env w).1 in
  let old := match activeModel (vb w) with Some i => [iid i] | None => [] end in
  disposed (ob w') = disposed (ob w) ++ old /\
  (is_Some (modelFactory (pg w')) <-> is_Some (modelFactory (pg w))) /\
  match modelFactory (pg w) with
  | None =>
      activeModel (vb w') = activeModel (vb w) /\
      nextInstance (pg w') = nextInstance (pg w)
  | Some f =>
      (activeModel (vb w') = None /\
       nextInstance (pg w') = nextInstance (pg w)) \/
      (exists k,
          activeModel (vb w') = Some {| kind := k; iid := nextInstance (pg w) |} /\
          nextInstance (pg w') = S (nextInstance (pg w)))
  end.
Proof.
  unfold loadSelectedModel.
  repeat case_match; simplify_eq/=;
    repeat split; rewrite ?app_nil_r; try reflexivity; eauto;
    try (intros [? ?]; discriminate);
    try (intros [? ?]; congruence).
Qed.

Lemma accounted_ext (w w' : world) :
  disposed (ob w') = disposed (ob w) ->
  activeModel (vb w') = activeModel (vb w) ->
  nextInstance (pg w') = nextInstance (pg w) ->
  (is_Some (modelFactory (pg w')) <-> is_Some (modelFactory (pg w))) ->
  accounted w -> accounted w'.
Proof.
  unfold accounted. intros -> -> -> Hf (H1 & H2 & H3 & H4).
  repeat split; try assumption.
  destruct (activeModel (vb w)); [| exact I].
  destruct H4 as (Ha & Hb & Hc). repeat split; try assumption.
  apply Hf. exact Hc.
Qed.

Lemma loadSelectedModel_accounted (m : option string) (env : loadEnv)
      (w : world) :
  accounted w -> accounted (loadSelectedModel m env w).1.
Proof.
  intros (Hnd & Hlt & Hall & Hact).
  pose proof (loadSelectedModel_instances m env w) as Hi.
  cbv zeta in Hi. destruct Hi as (Hd & Hf & Hcase).
  set (w' := (loadSelectedModel m env w).1) in *.
  unfold accounted.
  destruct (modelFactory (pg w)) as [f |] eqn:Ef.
  - assert (Hold : match activeModel (vb w) with
                   | Some i => [iid i] | None => [] end
                   = match activeModel (vb w) with
                     | Some i => [iid i] | None => [] end) by reflexivity.
    assert (Hnd' : NoDup (disposed (ob w'))).
    { rewrite Hd. destruct (activeModel (vb w)) as [i |].
      - destruct Hact as (_ & Hni & _).
        apply NoDup_app. split; [exact Hnd |]. split.
        + intros x Hx Hx'. apply list_elem_of_singleton in Hx'. subst x.
          exact (Hni Hx).
        + apply NoDup_singleton.
      - rewrite app_nil_r. exact Hnd. }
    assert (Hlt' : forall i, i ∈ disposed (ob w') -> (i < nextInstance (pg w))%nat).
    { intros i. rewrite Hd. intros Hin. apply elem_of_app in Hin as [Hin | Hin].
      - exact (Hlt i Hin).
      - destruct (activeModel (vb w)) as [a |]; [| inversion Hin].
        apply list_elem_of_singleton in Hin. subst i. apply Hact. }
    assert (Hall' : forall i, (i < nextInstance (pg w))%nat -> i ∈ disposed (ob w')).
    { intros i Hi. rewrite Hd. apply elem_of_app.
      destruct (Hall i Hi) as [Hin | Hin]; [left; exact Hin | right].
      destruct (activeModel (vb w)) as [a |]; [| discriminate].
      simpl in Hin. injection Hin as <-. apply list_elem_of_here. }
    destruct Hcase as [[Ha Hn] | (k & Ha & Hn)]; rewrite Ha, Hn.
    + repeat split; try assumption.
      intros i Hi. left. exact (Hall' i Hi).
    + repeat split; try assumption.
      * intros i Hin. pose proof (Hlt' i Hin). lia.
      * intros i Hi. destruct (decide (i = nextInstance (pg w))) as [-> | Hne].
        -- right. reflexivity.
        -- left. apply Hall'. lia.
      * simpl. lia.
      * simpl. intros Hin. pose proof (Hlt' _ Hin). lia.
      * apply Hf. eexists. reflexivity.
  - destruct Hcase as [Ha Hn]. rewrite Ha, Hn.
    destruct (activeModel (vb w)) as [a |].
    + destruct Hact as (_ & _ & [f Hf']). discriminate.
    + rewrite Hd, app_nil_r. repeat split; assumption.
Qed.

Lemma processVideoFrames_instances (tv : Q) (w : world) :
  disposed (ob (processVideoFrames tv w)) = disposed (ob w) /\
  activeModel (vb (processVideoFrames tv w)) = activeModel (vb w) /\
  nextInstance (pg (processVideoFrames tv w)) = nextInstance (pg w) /\
  modelFactory (pg (processVideoFrames tv w)) = modelFactory (pg w).
Proof.
  unfold processVideoFrames, stopFrames, applyVirtualBackground_begin.
  repeat case_match; simplify_eq/=; repeat split; reflexivity.
Qed.

Lemma step_instances (e : event) (w w' : world) :
  step e w = Some w' ->
  disposed (ob w') = disposed (ob w) /\
  activeModel (vb w') = activeModel (vb w) /\
  nextInstance (pg w') = nextInstance (pg w) /\
  modelFactory (pg w') = modelFactory (pg w).
Proof.
  intros Hstep. destruct e as [h tv | k out tv clock]; unfold step in Hstep.
  - case_bool_decide; [| discriminate]. simplify_eq.
    apply (processVideoFrames_instances tv (cancelAnimationFrame h w)).
  - destruct (outstanding (pg w) !! k); [| discriminate]. simplify_eq.
    unfold applyVirtualBackground_resume, requestFrame.
    repeat case_match; simplify_eq/=; repeat split; reflexivity.
Qed.

Lemma accounted_debug (msg : string) (w : world) :
  accounted w -> accounted (debug msg w).
Proof. intros H. apply (accounted_ext w); [reflexivity .. | exact H]. Qed.

Lemma toggle_accounted (env : toggleEnv) (w : world) :
  accounted w -> accounted (toggle env w).
Proof.
  intros Hacc. unfold toggle.
  change (enabled (vb (upd_vb (set_enabled (negb (enabled (vb w)))) w)))
    with (negb (enabled (vb w))).
  destruct (negb (enabled (vb w))).
  - match goal with
    | |- context [loadSelectedModel None (load env) ?w1] =>
        assert (Hl : accounted (loadSelectedModel None (load env) w1).1)
          by (apply loadSelectedModel_accounted;
              apply (accounted_ext w); [reflexivity .. | exact Hacc]);
        destruct (loadSelectedModel None (load env) w1) as [w2 ok]
    end.
    simpl in Hl. destruct ok; simpl.
    + destruct (srcObject (pg w2)) as [src |].
      * apply accounted_debug.
        match goal with
        | |- accounted (processVideoFrames ?tv ?w3) =>
            destruct (processVideoFrames_instances tv w3) as (H1 & H2 & H3 & H4);
            apply (accounted_ext w3);
            [exact H1 | exact H2 | exact H3 | rewrite H4; reflexivity |];
            apply (accounted_ext w2); [reflexivity .. | exact Hl]
        end.
      * apply (accounted_ext w2); [reflexivity .. | exact Hl].
    + apply (accounted_ext w2); [reflexivity .. | exact Hl].
  - apply accounted_debug. unfold stopFrames.
    apply (accounted_ext w); [.. | exact Hacc];
      repeat case_match; simplify_eq/=; reflexivity.
Qed.

(** X22: the service keeps account of the adapters it creates, as long as
    its calls do not overlap.  From the start of the page, after any
    sequence of toggles and explicit model loads, each of which has run to
    its end before the next one starts, with animation-frame callbacks and
    settled calls in between, every instance created so far has been
    disposed exactly once, except the active one, which has not been
    disposed. *)
Theorem instances_accounted (l : list action) (w : world)
        (f : option BackgroundModelFactory.factory)
        (src : option mediaStream) (pc : option (list sender)) :
  acts l (initVirtualBackground f src pc) = Some w -> accounted w.
Proof.
  assert (H0 : accounted (initVirtualBackground f src pc)).
  { unfold accounted. simpl. repeat split.
    - apply NoDup_nil_2.
    - intros i Hi. inversion Hi.
    - intros i Hi. lia. }
  revert H0. generalize (initVirtualBackground f src pc). clear f src pc.
  induction l as [| a l IH]; intros w0 H0 Hacts; simpl in Hacts.
  - simplify_eq. exact H0.
  - destruct (act a w0) as [w1 |] eqn:Ha; [| discriminate].
    apply (IH w1); [| exact Hacts].
    destruct a as [env | m env | e]; simpl in Ha.
    + simplify_eq. apply toggle_accounted, H0.
    + simplify_eq. apply loadSelectedModel_accounted, H0.
    + destruct (step_instances e w0 w1 Ha) as (H1 & H2 & H3 & H4).
      apply (accounted_ext w0); [exact H1 | exact H2 | exact H3 | | exact H0].
      rewrite H4. reflexivity.
Qed.

Lemma instances_accounted_witness :
  let l := [Toggle (Scenario.press 0); Toggle (Scenario.press 1);
            LoadModel (Some "bodypix") (load Scenario.pressInitThrows);
            Toggle (Scenario.press 2);
            Browser (Settle 0 Scenario.composited 2 130)] in
  let w0 := initVirtualBackground (Some BackgroundModelFactory.new)
              (Some Scenario.camera) None in
  accounted (default w0 (acts l w0)).
Proof.
  intros l w0.
  apply (instances_accounted l _ (Some BackgroundModelFactory.new)
           (Some Scenario.camera) None).
  vm_compute. reflexivity.
Defined.

End SwitchingOn.

Section OnAndOff.

Import Canvas BackgroundService ServiceTrace.
Local Open Scope Q_scope.

Lemma createModel_some (io : BackgroundModelFactory.modelKind -> bool)
      (t : string) (f : BackgroundModelFactory.factory) :
  io BackgroundModelFactory.MediaPipe = true ->
  is_Some (BackgroundModelFactory.createModel io t f).2.
Proof.
  intros Hio. destruct (createModel_result io t f) as (wanted & Hr & _).
  rewrite Hr. unfold Capabilities.imported. rewrite Hio.
  destruct (io wanted); eexists; reflexivity.
Qed.

Lemma loadSelectedModel_succeeds (m : option string) (env : loadEnv)
      (w : world) :
  is_Some (modelFactory (pg w)) ->
  importOk env BackgroundModelFactory.MediaPipe = true ->
  initResult env = InitTrue ->
  (loadSelectedModel m env w).2 = true.
Proof.
  intros [f Hf] Hio Hinit. unfold loadSelectedModel.
  assert (Hf' : forall w0, modelFactory (pg w0) = modelFactory (pg w) ->
                modelFactory (pg w0) = Some f) by (intros; congruence).
  repeat match goal with
         | |- context [match ?x with _ => _ end] =>
             match x with
             | modelFactory _ => rewrite (Hf' _ eq_refl)
             end
         end.
  repeat case_match; simplify_eq/=; try reflexivity; try congruence.
  all: match goal with
       | H : BackgroundModelFactory.createModel ?io ?t ?f0 = (_, None) |- _ =>
           pose proof (createModel_some io t f0 Hio) as [k Hk];
           rewrite H in Hk; discriminate
       end.
Qed.

Lemma processVideoFrames_frame (tv : Q) (w : world) :
  let w' := processVideoFrames tv w in
  canvasDisplayed (pg w') = canvasDisplayed (pg w) /\
  metricUpdateInterval (pg w') = metricUpdateInterval (pg w) /\
  canvasStream (vb w') = canvasStream (vb w) /\
  stream (vb w') = stream (vb w) /\
  srcObject (pg w') = srcObject (pg w) /\
  peerConnection (pg w') = peerConnection (pg w) /\
  targetFps (vb w') = targetFps (vb w).
Proof.
  unfold processVideoFrames, stopFrames, applyVirtualBackground_begin.
  repeat case_match; simplify_eq/=; repeat split; reflexivity.
Qed.

Lemma processVideoFrames_handle (tv : Q) (w : world) :
  enabled (vb w) = true -> localVideo (pg w) = true ->
  rafQueue (pg w) = [] ->
  rafQueue (pg (processVideoFrames tv w)) = [] \/
  exists h, rafQueue (pg (processVideoFrames tv w)) = [h] /\
            animationFrame (vb (processVideoFrames tv w)) = Some h.
Proof.
  intros Hon Hvid Hq. unfold processVideoFrames. rewrite Hon, Hvid. simpl.
  destruct (Qeq_bool (lastProcessedVideoTime (vb w)) tv).
  - right. exists (nextHandle (pg w)). simpl. rewrite Hq. split; reflexivity.
  - unfold applyVirtualBackground_begin. simpl. rewrite Hon. simpl.
    destruct (activeModel (vb w)); simpl.
    + left. exact Hq.
    + right. exists (nextHandle (pg w)). rewrite Hq. split; reflexivity.
Qed.

(** What switching the effect on leaves behind when the model loads. *)
Lemma toggle_on_fields (env : toggleEnv) (w : world) (src : mediaStream) :
  enabled (vb w) = false ->
  is_Some (modelFactory (pg w)) ->
  importOk (load env) BackgroundModelFactory.MediaPipe = true ->
  initResult (load env) = InitTrue ->
  srcObject (pg w) = Some src ->
  localVideo (pg w) = true ->
  load_of w = 0%nat ->
  let on := toggle env w in
  let capture := Capture (nextTrack (pg w)) in
  running on /\
  (canvasDisplayed (pg on) = true /\ metricUpdateInterval (pg on) = true) /\
  videoTrack (vb on) = Some capture /\
  canvasStream (vb on)
  = Some {| videoTracks := [capture]; audioTracks := audioTracks src |} /\
  stream (vb on) = Some src /\ srcObject (pg on) = Some src /\
  peerConnection (pg on) = (replaceVideoTrack capture <$> peerConnection (pg w)) /\
  (rafQueue (pg on) = [] \/
   exists h, rafQueue (pg on) = [h] /\ animationFrame (vb on) = Some h).
Proof.
  intros Hoff Hf Hio Hinit Hsrc Hvid Hload. unfold toggle.
  change (enabled (vb (upd_vb (set_enabled (negb (enabled (vb w)))) w)))
    with (negb (enabled (vb w))).
  rewrite Hoff. cbv [negb]. cbv iota.
  match goal with
  | |- context [loadSelectedModel None (load env) ?w1] =>
      pose proof (loadSelectedModel_queues None (load env) w1) as Hq;
      pose proof (loadSelectedModel_frame None (load env) w1) as Hfr;
      pose proof (loadSelectedModel_succeeds None (load env) w1 Hf Hio Hinit)
        as Hok;
      destruct (loadSelectedModel None (load env) w1) as [w2 ok]
  end.
  cbv zeta in Hfr. simpl in Hq, Hfr, Hok. subst ok.
  destruct Hq as (Hq1 & Hq2 & Hq3 & Hq4 & Hq5 & Hq6 & Hq7).
  destruct Hfr as (Hm & (Hp1 & Hp2 & Hp3 & Hp4 & Hp5 & Hp6)
                   & (Hv1 & Hv2 & Hv3 & Hv4 & Hv5) & Hpub).
  cbv [negb]. cbv iota beta zeta.
  assert (Hsrc2 : srcObject (pg w2) = Some src) by congruence.
  match goal with
  | |- context [match srcObject (pg ?x) with _ => _ end] =>
      change (srcObject (pg x)) with (srcObject (pg w2))
  end.
  rewrite Hsrc2. cbv iota beta zeta.
  match goal with
  | |- context [debug ?msg (processVideoFrames ?tv ?w3)] =>
      set (w4 := w3);
      assert (He3 : enabled (vb w4) = true) by (subst w4; simpl; exact Hq4);
      assert (Hl3 : localVideo (pg w4) = true)
        by (subst w4; simpl; congruence);
      assert (Hr3 : rafQueue (pg w4) = [])
        by (subst w4; simpl; unfold load_of in Hload;
            destruct (rafQueue (pg w)); [congruence | simpl in Hload; lia]);
      assert (Hload3 : load_of w4 = 0%nat)
        by (subst w4; unfold load_of in *; simpl; rewrite Hq1, Hq2; exact Hload);
      pose proof (processVideoFrames_starts tv w4 He3 Hl3)
        as (Hs1 & Hs2 & Hs3 & Hs4 & _);
      pose proof (processVideoFrames_frame tv w4) as Hpf;
      pose proof (processVideoFrames_handle tv w4 He3 Hl3 Hr3) as Hh;
      cbv zeta in Hpf;
      destruct Hpf as (Hf1 & Hf2 & Hf3 & Hf4 & Hf5 & Hf6 & _);
      generalize dependent (processVideoFrames tv w4)
  end.
  intros w5 Hs1 Hs2 Hs3 Hs4 Hf1 Hf2 Hf3 Hf4 Hf5 Hf6 Hh.
  unfold running, load_of. simpl.
  unfold load_of in Hs1, Hload3. rewrite Hs1, Hload3.
  subst w4. simpl in *.
  repeat split; try assumption; try congruence.
Qed.

(** What switching the effect off leaves behind. *)
Lemma toggle_off_fields (env : toggleEnv) (w : world) :
  enabled (vb w) = true ->
  let off := toggle env w in
  enabled (vb off) = false /\
  (canvasDisplayed (pg off) = false /\ metricUpdateInterval (pg off) = false) /\
  srcObject (pg off)
  = match stream (vb w) with Some s => Some s | None => srcObject (pg w) end /\
  peerConnection (pg off)
  = match stream (vb w) with
    | Some s =>
        match videoTracks s with
        | cam :: _ => replaceVideoTrack cam <$> peerConnection (pg w)
        | [] => peerConnection (pg w)
        end
    | None => peerConnection (pg w)
    end /\
  rafQueue (pg off)
  = match animationFrame (vb w) with
    | Some h => filter (fun x => x <> h) (rafQueue (pg w))
    | None => rafQueue (pg w)
    end.
Proof.
  intros Hon. unfold toggle.
  change (enabled (vb (upd_vb (set_enabled (negb (enabled (vb w)))) w)))
    with (negb (enabled (vb w))).
  rewrite Hon. simpl. unfold stopFrames. simpl.
  destruct (stream (vb w)) as [s |]; simpl;
    [destruct (videoTracks s); simpl |];
    destruct (animationFrame (vb w)) eqn:Ea; simpl; rewrite ?Ea;
    repeat split; reflexivity.
Qed.

Lemma replaceVideoTrack_twice (t1 t2 : trackId) (senders : list sender) :
  isVideo t1 = true ->
  replaceVideoTrack t2 (replaceVideoTrack t1 senders)
  = replaceVideoTrack t2 senders.
Proof.
  intros Hv. induction senders as [| [t |] rest IH]; simpl.
  - reflexivity.
  - destruct (isVideo t) eqn:Et; simpl.
    + rewrite Hv. reflexivity.
    + rewrite Et, IH. reflexivity.
  - rewrite IH. reflexivity.
Qed.

Lemma replaceVideoTrack_same (t : trackId) (senders : list sender) :
  firstVideo senders = Some t \/ firstVideo senders = None ->
  replaceVideoTrack t senders = senders.
Proof.
  induction senders as [| [t0 |] rest IH]; simpl.
  - reflexivity.
  - destruct (isVideo t0); intros H.
    + destruct H as [H | H]; [injection H as ->; reflexivity | discriminate].
    + rewrite IH by exact H. reflexivity.
  - intros H. rewrite IH by exact H. reflexivity.
Qed.

(** X23: switching the effect on starts the pipeline, and switching it off
    again gives the call back what it had.  After a successful switch-on,
    made while nothing is scheduled and no call is outstanding, the loop
    runs, the canvas is shown, the outgoing stream is the canvas track
    with the audio tracks of the camera stream, and the first video sender
    of the call carries the canvas track.  After the switch-off the video
    element has the camera stream, nothing is scheduled any more, and the
    first video sender carries the first video track of the camera stream:
    the senders are exactly as before when that is the track it carried. *)
Theorem on_off_round_trip (env1 env2 : toggleEnv) (w : world)
        (src : mediaStream) (cam : trackId) (rest : list trackId)
        (senders : list sender) :
  enabled (vb w) = false ->
  is_Some (modelFactory (pg w)) ->
  importOk (load env1) BackgroundModelFactory.MediaPipe = true ->
  initResult (load env1) = InitTrue ->
  srcObject (pg w) = Some src -> videoTracks src = cam :: rest ->
  peerConnection (pg w) = Some senders ->
  localVideo (pg w) = true -> load_of w = 0%nat ->
  let on := toggle env1 w in
  let off := toggle env2 on in
  let capture := Capture (nextTrack (pg w)) in
  (running on /\ canvasDisplayed (pg on) = true /\
   canvasStream (vb on)
   = Some {| videoTracks := [capture]; audioTracks := audioTracks src |} /\
   peerConnection (pg on) = Some (replaceVideoTrack capture senders)) /\
  (enabled (vb off) = false /\ canvasDisplayed (pg off) = false /\
   srcObject (pg off) = Some src /\ rafQueue (pg off) = [] /\
   peerConnection (pg off) = Some (replaceVideoTrack cam senders) /\
   (firstVideo senders = Some cam \/ firstVideo senders = None ->
    peerConnection (pg off) = Some senders)).
Proof.
  intros Hoff Hf Hio Hinit Hsrc Hcam Hpc Hvid Hload on off capture.
  destruct (toggle_on_fields env1 w src Hoff Hf Hio Hinit Hsrc Hvid Hload)
    as (Hrun & (Hcd & _) & Hvt & Hcs & Hst & Hso & Hpc1 & Hq).
  fold on in Hrun, Hcd, Hvt, Hcs, Hst, Hso, Hpc1, Hq.
  fold capture in Hvt, Hcs, Hpc1.
  rewrite Hpc in Hpc1. simpl in Hpc1.
  split; [repeat split; try assumption; apply Hrun |].
  destruct Hrun as (Hon & _ & _).
  destruct (toggle_off_fields env2 on Hon) as (He & (Hc & _) & Hs & Hp & Hr).
  fold off in He, Hc, Hs, Hp, Hr.
  rewrite Hst in Hs, Hp. rewrite Hcam, Hpc1 in Hp. simpl in Hp.
  rewrite replaceVideoTrack_twice in Hp by reflexivity.
  assert (Hr0 : rafQueue (pg off) = []).
  { rewrite Hr. destruct Hq as [Hq | (h & Hq & Ha)].
    - rewrite Hq. destruct (animationFrame (vb on)); reflexivity.
    - rewrite Ha, Hq.
      rewrite filter_cons_False by (intros H; apply H; reflexivity).
      reflexivity. }
  repeat split; try assumption.
  intros Hfirst. rewrite Hp, replaceVideoTrack_same by exact Hfirst.
  reflexivity.
Qed.

Lemma on_off_round_trip_witness :
  let w := Scenario.page0 in
  let on := toggle (Scenario.press 0) w in
  let off := toggle (Scenario.press 1) on in
  let capture := Capture (nextTrack (pg w)) in
  let senders := [Some (Microphone 0); Some (Camera 0)] in
  (running on /\ canvasDisplayed (pg on) = true /\
   canvasStream (vb on)
   = Some {| videoTracks := [capture];
             audioTracks := audioTracks Scenario.camera |} /\
   peerConnection (pg on) = Some (replaceVideoTrack capture senders)) /\
  (enabled (vb off) = false /\ canvasDisplayed (pg off) = false /\
   srcObject (pg off) = Some Scenario.camera /\ rafQueue (pg off) = [] /\
   peerConnection (pg off) = Some (replaceVideoTrack (Camera 0) senders) /\
   (firstVideo senders = Some (Camera 0) \/ firstVideo senders = None ->
    peerConnection (pg off) = Some senders)).
Proof.
  intros w on off capture senders.
  apply (on_off_round_trip (Scenario.press 0) (Scenario.press 1) w
           Scenario.camera (Camera 0) [] senders).
  - reflexivity.
  - eexists. reflexivity.
  - reflexivity.
  - reflexivity.
  - reflexivity.
  - reflexivity.
  - reflexivity.
  - reflexivity.
  - reflexivity.
Defined.




End OnAndOff.

(** ** Reloading the model from the lab *)

Section Reloading.

Import Canvas BackgroundService ServiceTrace Reload.
Local Open Scope Q_scope.

Lemma createModel_preference (io : BackgroundModelFactory.modelKind -> bool)
      (t : string) (f : BackgroundModelFactory.factory) :
  BackgroundModelFactory.userPreferredModel
    (BackgroundModelFactory.createModel io t f).1
  = BackgroundModelFactory.userPreferredModel f.
Proof.
  unfold BackgroundModelFactory.createModel.
  repeat case_match; simplify_eq/=; try reflexivity; congruence.
Qed.

(** Reloading while the effect is off, when the new model initialises. *)
Lemma reload_disabled_ok (env : reloadEnv) (w : world)
      (f : BackgroundModelFactory.factory)
      (k : BackgroundModelFactory.modelKind) :
  enabled (vb w) = false ->
  modelFactory (pg w) = Some f ->
  (BackgroundModelFactory.createModel (importOk (created env)) "auto" f).2
  = Some k ->
  initResult (created env) = InitTrue ->
  let r := reloadBackgroundModel env w in
  r.2 = Resolved true /\
  enabled (vb r.1) = false /\
  activeModel (vb r.1) = Some {| kind := k; iid := nextInstance (pg w) |} /\
  nextInstance (pg r.1) = S (nextInstance (pg w)) /\
  disposed (ob r.1)
  = disposed (ob w)
    ++ match activeModel (vb w) with Some i => [iid i] | None => [] end /\
  model (vb r.1) = reloadedName f /\
  BackgroundModelFactory.userPreferredModel <$> modelFactory (pg r.1)
  = Some (BackgroundModelFactory.userPreferredModel f) /\
  (rafQueue (pg r.1) = rafQueue (pg w) /\
   outstanding (pg r.1) = outstanding (pg w) /\
   srcObject (pg r.1) = srcObject (pg w) /\
   localVideo (pg r.1) = localVideo (pg w) /\
   peerConnection (pg r.1) = peerConnection (pg w)).
Proof.
  intros Hoff Hf Hk Hinit. unfold reloadBackgroundModel.
  rewrite Hoff. cbv iota. rewrite Hf.
  pose proof (createModel_preference (importOk (created env)) "auto" f) as Hp.
  destruct (BackgroundModelFactory.createModel (importOk (created env)) "auto" f)
    as [f' made].
  simpl in Hk, Hp. subst made. cbv beta iota zeta. rewrite Hinit.
  unfold reloadedName. rewrite <- Hp.
  unfold resetAndSaveMetrics.
  rewrite _selectOptimalModel_mediapipe.
  destruct (activeModel (vb w)) as [i |] eqn:Ea; simpl; rewrite ?Ea; simpl;
    repeat case_match; simpl; rewrite ?app_nil_r, ?Ea;
    repeat split; try reflexivity; try assumption; congruence.
Qed.

Lemma toggle_off_instances (env : toggleEnv) (w : world) :
  enabled (vb w) = true ->
  model (vb (toggle env w)) = model (vb w) /\
  activeModel (vb (toggle env w)) = activeModel (vb w) /\
  nextInstance (pg (toggle env w)) = nextInstance (pg w) /\
  disposed (ob (toggle env w)) = disposed (ob w) /\
  modelFactory (pg (toggle env w)) = modelFactory (pg w) /\
  frameCalls (ob (toggle env w)) = frameCalls (ob w).
Proof.
  intros Hon. unfold toggle.
  change (enabled (vb (upd_vb (set_enabled (negb (enabled (vb w)))) w)))
    with (negb (enabled (vb w))).
  rewrite Hon. simpl. unfold stopFrames. simpl.
  destruct (stream (vb w)) as [s |]; simpl;
    [destruct (videoTracks s); simpl |];
    destruct (animationFrame (vb w)) eqn:Ea; simpl; rewrite ?Ea;
    repeat split; reflexivity.
Qed.

(** A load that creates and initialises an adapter. *)
Lemma loadSelectedModel_created (env : loadEnv) (w : world)
      (f : BackgroundModelFactory.factory)
      (k : BackgroundModelFactory.modelKind) :
  modelFactory (pg w) = Some f ->
  (BackgroundModelFactory.createModel (importOk env) (model (vb w)) f).2
  = Some k ->
  initResult env = InitTrue ->
  let l := loadSelectedModel None env w in
  l.2 = true /\
  model (vb l.1) = model (vb w) /\
  activeModel (vb l.1) = Some {| kind := k; iid := nextInstance (pg w) |} /\
  nextInstance (pg l.1) = S (nextInstance (pg w)) /\
  disposed (ob l.1)
  = disposed (ob w)
    ++ match activeModel (vb w) with Some i => [iid i] | None => [] end /\
  BackgroundModelFactory.userPreferredModel <$> modelFactory (pg l.1)
  = Some (BackgroundModelFactory.userPreferredModel f).
Proof.
  intros Hf Hk Hinit. unfold loadSelectedModel.
  pose proof (createModel_preference (importOk env) (model (vb w)) f) as Hp.
  destruct (activeModel (vb w)) as [i |] eqn:Ea; simpl;
    [destruct (disposeThrows env); simpl |];
    (rewrite Hf;
     destruct (BackgroundModelFactory.createModel (importOk env) (model (vb w)) f)
       as [f' made]; simpl in Hk, Hp; subst made; simpl; rewrite Hinit; simpl;
     rewrite ?app_nil_r, ?Ea; repeat split; try reflexivity; congruence).
Qed.

(** Switching the effect on when the load creates and initialises an
    adapter. *)
Lemma toggle_on_created (env : toggleEnv) (w : world)
      (f : BackgroundModelFactory.factory)
      (k : BackgroundModelFactory.modelKind) :
  enabled (vb w) = false ->
  modelFactory (pg w) = Some f ->
  (BackgroundModelFactory.createModel (importOk (load env)) (model (vb w)) f).2
  = Some k ->
  initResult (load env) = InitTrue ->
  model (vb (toggle env w)) = model (vb w) /\
  activeModel (vb (toggle env w))
  = Some {| kind := k; iid := nextInstance (pg w) |} /\
  nextInstance (pg (toggle env w)) = S (nextInstance (pg w)) /\
  disposed (ob (toggle env w))
  = disposed (ob w)
    ++ match activeModel (vb w) with Some i => [iid i] | None => [] end /\
  (is_Some (srcObject (pg w)) -> enabled (vb (toggle env w)) = true).
Proof.
  intros Hoff Hf Hk Hinit. unfold toggle.
  change (enabled (vb (upd_vb (set_enabled (negb (enabled (vb w)))) w)))
    with (negb (enabled (vb w))).
  rewrite Hoff. cbv [negb]. cbv iota.
  match goal with
  | |- context [loadSelectedModel None (load env) ?w1] =>
      pose proof (loadSelectedModel_created (load env) w1 f k Hf Hk Hinit) as Hc;
      pose proof (loadSelectedModel_queues None (load env) w1) as Hq;
      pose proof (loadSelectedModel_frame None (load env) w1) as Hfr;
      destruct (loadSelectedModel None (load env) w1) as [w2 ok]
  end.
  cbv zeta in Hc, Hfr. simpl in Hc, Hq, Hfr.
  destruct Hc as (Hok & Hm & Ha & Hn & Hd & _). subst ok.
  destruct Hq as (_ & _ & _ & He & _).
  destruct Hfr as (_ & (_ & Hs & _) & _).
  cbv [negb]. cbv iota beta zeta.
  match goal with
  | |- context [match srcObject (pg ?x) with _ => _ end] =>
      change (srcObject (pg x)) with (srcObject (pg w2))
  end.
  rewrite Hs. destruct (srcObject (pg w)) as [src |]; cbv iota beta zeta.
  - match goal with
    | |- context [debug ?msg (processVideoFrames ?tv ?w3)] =>
        destruct (processVideoFrames_instances tv w3) as (H1 & H2 & H3 & _);
        assert (H0 : model (vb (processVideoFrames tv w3)) = model (vb w3)
                     /\ (enabled (vb w3) = true ->
                         enabled (vb (processVideoFrames tv w3)) = true))
          by (unfold processVideoFrames, stopFrames,
                applyVirtualBackground_begin;
              repeat case_match; simplify_eq/=; split; try reflexivity;
              try (intros; assumption); try (intros; congruence));
        assert (He3 : enabled (vb w3) = true) by exact He;
        assert (Em : model (vb w3) = model (vb w2)) by reflexivity;
        assert (Ea : activeModel (vb w3) = activeModel (vb w2)) by reflexivity;
        assert (En : nextInstance (pg w3) = nextInstance (pg w2)) by reflexivity;
        assert (Ed : disposed (ob w3) = disposed (ob w2)) by reflexivity;
        generalize dependent (processVideoFrames tv w3);
        generalize dependent w3
    end.
    intros w3 He3 Em Ea En Ed w5 H1 H2 H3 [H0 H0e]. simpl.
    repeat split; try congruence. intros _. apply H0e. exact He3.
  - simpl. repeat split; try assumption. intros [x Hx]. discriminate.
Qed.

Lemma toLowerCase_nonempty (m : string) :
  m <> "" -> Js.truthy_str (Js.toLowerCase m) = true.
Proof. destruct m; [congruence | reflexivity]. Qed.

Lemma adapterFor_lower (m : string) :
  Capabilities.adapterFor (Js.toLowerCase m) = Capabilities.adapterFor m.
Proof. unfold Capabilities.adapterFor. rewrite toLowerCase_idem. reflexivity. Qed.

(** X25: a model chosen in the lab takes effect.  When the factory accepts
    the choice and the modules load, [_selectModel], made while the effect is
    off, leaves the service with an initialised adapter of the kind chosen as
    the active model and with the chosen name as the current model; the
    adapter that was active before is disposed, and the effect stays off.
    The next switch-on loads an adapter of the same kind again: the one the
    reload had prepared is disposed then. *)
Theorem lab_selection_takes_effect (m : string)
        (cfg : BackgroundModelFactory.config) (env : reloadEnv)
        (env2 : toggleEnv) (w : world)
        (f f1 : BackgroundModelFactory.factory) :
  enabled (vb w) = false ->
  modelFactory (pg w) = Some f ->
  m <> "auto" -> m <> "" ->
  BackgroundModelFactory.setUserPreferredModel m cfg f = (f1, true) ->
  (forall k, importOk (created env) k = true) ->
  initResult (created env) = InitTrue ->
  (forall k, importOk (load env2) k = true) ->
  initResult (load env2) = InitTrue ->
  let w1 := _selectModel m cfg env w in
  let w2 := toggle env2 w1 in
  let old := match activeModel (vb w) with Some i => [iid i] | None => [] end in
  (enabled (vb w1) = false /\
   model (vb w1) = Js.toLowerCase m /\
   activeModel (vb w1)
   = Some {| kind := Capabilities.adapterFor m; iid := nextInstance (pg w) |} /\
   disposed (ob w1) = disposed (ob w) ++ old) /\
  (model (vb w2) = Js.toLowerCase m /\
   activeModel (vb w2)
   = Some {| kind := Capabilities.adapterFor m;
             iid := S (nextInstance (pg w)) |} /\
   disposed (ob w2) = disposed (ob w) ++ old ++ [nextInstance (pg w)]).
Proof.
  intros Hoff Hf Hauto Hne Hset Hio Hinit Hio2 Hinit2 w1 w2 old.
  pose proof (setUserPreferredModel_accepted m cfg f f1 Hset) as Hpref.
  assert (Hw1 : w1 = (reloadBackgroundModel env
                        (upd_pg (set_modelFactory (Some f1)) w)).1).
  { subst w1. unfold _selectModel, ModelList._selectModel. rewrite Hf.
    rewrite bool_decide_eq_false_2 by exact Hauto. rewrite Hset. reflexivity. }
  assert (Hk : (BackgroundModelFactory.createModel (importOk (created env))
                  "auto" f1).2 = Some (Capabilities.adapterFor m)).
  { rewrite (createModel_auto_preferred _ _ _ Hpref), adapterFor_lower.
    unfold Capabilities.imported. rewrite Hio. reflexivity. }
  destruct (reload_disabled_ok env (upd_pg (set_modelFactory (Some f1)) w) f1
              (Capabilities.adapterFor m) Hoff eq_refl Hk Hinit)
    as (_ & He & Ha & Hn & Hd & Hm & Hp & _).
  rewrite <- Hw1 in He, Ha, Hn, Hd, Hm, Hp. simpl in Ha, Hn, Hd.
  assert (Hname : model (vb w1) = Js.toLowerCase m).
  { rewrite Hm. unfold reloadedName. rewrite Hpref.
    rewrite toLowerCase_nonempty by exact Hne. reflexivity. }
  split; [repeat split; assumption |].
  destruct (modelFactory (pg w1)) as [f2 |] eqn:Ef2; [| discriminate].
  simpl in Hp. injection Hp as Hp. rewrite Hpref in Hp.
  assert (Hk2 : (BackgroundModelFactory.createModel (importOk (load env2))
                   (model (vb w1)) f2).2 = Some (Capabilities.adapterFor m)).
  { rewrite Hname, (createModel_named _ _ _ Hp), adapterFor_lower.
    unfold Capabilities.imported. rewrite Hio2. reflexivity. }
  destruct (toggle_on_created env2 w1 f2 (Capabilities.adapterFor m)
              He Ef2 Hk2 Hinit2) as (Tm & Ta & Tn & Td & _).
  fold w2 in Tm, Ta, Tn, Td.
  rewrite Hn in Ta. rewrite Ha, Hd in Td. simpl in Td.
  repeat split.
  - congruence.
  - exact Ta.
  - rewrite Td, <- app_assoc. reflexivity.
Qed.

Lemma lab_selection_takes_effect_witness :
  let env := {| off := Scenario.press 0;
                created := load (Scenario.press 0);
                shownFps := 0; comparison := ""; resetAt := 50;
                on := Scenario.press 0 |} in
  let w := Scenario.page0 in
  let w1 := _selectModel "BodyPix" BackgroundModelFactory.emptyConfig env w in
  let w2 := toggle (Scenario.press 1) w1 in
  let old := match activeModel (vb w) with Some i => [iid i] | None => [] end in
  (enabled (vb w1) = false /\
   model (vb w1) = Js.toLowerCase "BodyPix" /\
   activeModel (vb w1)
   = Some {| kind := Capabilities.adapterFor "BodyPix";
             iid := nextInstance (pg w) |} /\
   disposed (ob w1) = disposed (ob w) ++ old) /\
  (model (vb w2) = Js.toLowerCase "BodyPix" /\
   activeModel (vb w2)
   = Some {| kind := Capabilities.adapterFor "BodyPix";
             iid := S (nextInstance (pg w)) |} /\
   disposed (ob w2) = disposed (ob w) ++ old ++ [nextInstance (pg w)]).
Proof.
  intros env w.
  apply (lab_selection_takes_effect "BodyPix" BackgroundModelFactory.emptyConfig
           env (Scenario.press 1) w BackgroundModelFactory.new
           (BackgroundModelFactory.setUserPreferredModel "BodyPix"
              BackgroundModelFactory.emptyConfig BackgroundModelFactory.new).1).
  - reflexivity.
  - reflexivity.
  - discriminate.
  - discriminate.
  - vm_compute. reflexivity.
  - intros k. reflexivity.
  - reflexivity.
  - intros k. reflexivity.
  - reflexivity.
Defined.

(** X26: reloading the model while the effect is on loads the model twice.
    [reloadBackgroundModel] switches the effect off, creates and initialises
    the new adapter, and switches the effect on again; the switch-on loads a
    model of its own, so the adapter just initialised is disposed at once and
    a second one of the same name becomes the active model.  The promise
    resolves to [true] and the effect is on again. *)
Theorem reload_while_enabled_loads_twice (env : reloadEnv) (w : world)
        (f : BackgroundModelFactory.factory) (src : mediaStream) :
  enabled (vb w) = true ->
  stream (vb w) = Some src ->
  modelFactory (pg w) = Some f ->
  (forall k, importOk (created env) k = true) ->
  initResult (created env) = InitTrue ->
  (forall k, importOk (load (on env)) k = true) ->
  initResult (load (on env)) = InitTrue ->
  let r := reloadBackgroundModel env w in
  let k := Capabilities.adapterFor (reloadedName f) in
  let old := match activeModel (vb w) with Some i => [iid i] | None => [] end in
  r.2 = Resolved true /\
  enabled (vb r.1) = true /\
  model (vb r.1) = reloadedName f /\
  activeModel (vb r.1) = Some {| kind := k; iid := S (nextInstance (pg w)) |} /\
  nextInstance (pg r.1) = S (S (nextInstance (pg w))) /\
  disposed (ob r.1) = disposed (ob w) ++ old ++ [nextInstance (pg w)].
Proof.
  intros Hon Hst Hf Hio Hinit Hio2 Hinit2 r k old.
  (* the state in which the effect is switched on again *)
  assert (Hx : exists wx,
    r = (toggle (on env) wx, Resolved true) /\
    enabled (vb wx) = false /\ srcObject (pg wx) = Some src /\
    model (vb wx) = reloadedName f /\
    activeModel (vb wx) = Some {| kind := k; iid := nextInstance (pg w) |} /\
    nextInstance (pg wx) = S (nextInstance (pg w)) /\
    disposed (ob wx) = disposed (ob w) ++ old /\
    (exists f', modelFactory (pg wx) = Some f' /\
       BackgroundModelFactory.userPreferredModel f'
       = BackgroundModelFactory.userPreferredModel f)).
  { subst r. unfold reloadBackgroundModel. rewrite Hon. cbv iota.
    destruct (toggle_off_instances (off env) w Hon)
      as (Tm & Ta & Tn & Td & Tf & _).
    destruct (toggle_off_fields (off env) w Hon) as (Te & _ & Ts & _).
    rewrite Hst in Ts.
    generalize dependent (toggle (off env) w). intros w0 Tm Ta Tn Td Tf Te Ts.
    rewrite Tf, Hf.
    pose proof (createModel_preference (importOk (created env)) "auto" f) as Hp.
    assert (Hk : (BackgroundModelFactory.createModel (importOk (created env))
                    "auto" f).2 = Some k).
    { subst k. unfold reloadedName.
      destruct (BackgroundModelFactory.userPreferredModel f) as [p |] eqn:Ep.
      - rewrite (createModel_auto_preferred _ _ _ Ep).
        unfold Capabilities.imported. rewrite Hio.
        destruct p; reflexivity.
      - rewrite (createModel_auto_none _ _ Ep).
        unfold Capabilities.imported. rewrite Hio. reflexivity. }
    destruct (BackgroundModelFactory.createModel (importOk (created env))
                "auto" f) as [f' made].
    simpl in Hk, Hp. subst made. cbv beta iota zeta. rewrite Hinit.
    unfold toggleRejects, resetAndSaveMetrics.
    rewrite _selectOptimalModel_mediapipe.
    eexists. split.
    - match goal with
      | |- (if ?c then _ else _) = _ =>
          assert (Hc : c = false); [| rewrite Hc; reflexivity]
      end.
      apply andb_false_iff. right. apply negb_false_iff.
      apply bool_decide_eq_true_2.
      repeat case_match; simpl; rewrite ?Ts; eexists; reflexivity.
    - unfold reloadedName. rewrite <- Hp. subst old. rewrite <- Ta, <- Tn, <- Td.
      destruct (activeModel (vb w0)) as [i |] eqn:Ea; simpl; rewrite ?Ea; simpl;
        repeat case_match; simpl; rewrite ?app_nil_r, ?Ea;
        repeat split; try reflexivity; try assumption; try congruence;
        try (eexists; split; [reflexivity | congruence]). }
  destruct Hx as (wx & Hr & He & Hs & Hm & Ha & Hn & Hd & f' & Hf' & Hp').
  rewrite Hr. simpl.
  assert (Hk2 : (BackgroundModelFactory.createModel (importOk (load (on env)))
                   (model (vb wx)) f').2 = Some k).
  { rewrite Hm. subst k. unfold reloadedName. rewrite <- Hp'.
    destruct (BackgroundModelFactory.userPreferredModel f') as [p |] eqn:Ep.
    - destruct (Js.truthy_str p) eqn:Et.
      + rewrite (createModel_named _ _ _ Ep).
        unfold Capabilities.imported. rewrite Hio2. reflexivity.
      + rewrite createModel_explicit by discriminate.
        unfold Capabilities.imported. rewrite Hio2. reflexivity.
    - rewrite createModel_explicit by discriminate.
      unfold Capabilities.imported. rewrite Hio2. reflexivity. }
  destruct (toggle_on_created (on env) wx f' k He Hf' Hk2 Hinit2)
    as (Tm & Ta & Tn & Td & Ten).
  rewrite Hn in Ta, Tn. rewrite Ha, Hd in Td. simpl in Td.
  repeat split.
  - apply Ten. eexists. exact Hs.
  - congruence.
  - exact Ta.
  - exact Tn.
  - rewrite Td, <- app_assoc. reflexivity.
Qed.

Lemma reload_while_enabled_loads_twice_witness :
  let env := {| off := Scenario.press 1;
                created := load (Scenario.press 1);
                shownFps := 0; comparison := ""; resetAt := 50;
                on := Scenario.press 2 |} in
  let w := toggle (Scenario.press 0) Scenario.page0 in
  let f := default BackgroundModelFactory.new (modelFactory (pg w)) in
  let r := reloadBackgroundModel env w in
  let k := Capabilities.adapterFor (reloadedName f) in
  let old := match activeModel (vb w) with Some i => [iid i] | None => [] end in
  r.2 = Resolved true /\
  enabled (vb r.1) = true /\
  model (vb r.1) = reloadedName f /\
  activeModel (vb r.1) = Some {| kind := k; iid := S (nextInstance (pg w)) |} /\
  nextInstance (pg r.1) = S (S (nextInstance (pg w))) /\
  disposed (ob r.1) = disposed (ob w) ++ old ++ [nextInstance (pg w)].
Proof.
  intros env w f.
  apply (reload_while_enabled_loads_twice env w f Scenario.camera).
  - vm_compute. reflexivity.
  - vm_compute. reflexivity.
  - vm_compute. reflexivity.
  - intros k. reflexivity.
  - reflexivity.
  - intros k. reflexivity.
  - reflexivity.
Defined.

(** X27: a reload that fails at the new model, made while the effect is
    off, resolves to [false], raises the error alert and restores the name of
    the current model, but not what stood behind it: the adapter that was
    active has been disposed and the one that failed to initialise has taken
    its place, and the preference stored in the factory is the one that
    failed. *)
Theorem reload_failure_keeps_name (env : reloadEnv) (w : world)
        (f : BackgroundModelFactory.factory) :
  enabled (vb w) = false ->
  modelFactory (pg w) = Some f ->
  initResult (created env) <> InitTrue ->
  let r := reloadBackgroundModel env w in
  let made :=
    (BackgroundModelFactory.createModel (importOk (created env)) "auto" f).2 in
  r.2 = Resolved false /\
  enabled (vb r.1) = false /\
  model (vb r.1) = model (vb w) /\
  (exists before message,
      alerts (ob r.1)
      = before ++ [("Could not reload model: " +:+ message, "error")]) /\
  activeModel (vb r.1)
  = match made with
    | Some k => Some {| kind := k; iid := nextInstance (pg w) |}
    | None => None
    end /\
  disposed (ob r.1)
  = disposed (ob w)
    ++ match activeModel (vb w) with Some i => [iid i] | None => [] end /\
  (BackgroundModelFactory.userPreferredModel <$> modelFactory (pg r.1))
  = Some (BackgroundModelFactory.userPreferredModel f).
Proof.
  intros Hoff Hf Hinit. unfold reloadBackgroundModel.
  rewrite Hoff. cbv iota. rewrite Hf.
  pose proof (createModel_preference (importOk (created env)) "auto" f) as Hp.
  destruct (BackgroundModelFactory.createModel (importOk (created env)) "auto" f)
    as [f' made].
  simpl in Hp. cbv beta iota zeta. simpl snd.
  unfold resetAndSaveMetrics.
  destruct (initResult (created env)) as [| | msg] eqn:Ei; [congruence | |];
    destruct made as [k |];
    destruct (activeModel (vb w)) as [i |] eqn:Ea; simpl; rewrite ?Ea; simpl;
    repeat case_match; simpl; rewrite ?app_nil_r, ?Ea;
    repeat split; try reflexivity; try assumption; try congruence;
    try (eexists; eexists; reflexivity).
Qed.

Lemma reload_failure_keeps_name_witness :
  let env := {| off := Scenario.press 0;
                created := load Scenario.pressInitThrows;
                shownFps := 0; comparison := ""; resetAt := 50;
                on := Scenario.press 0 |} in
  let w := Scenario.page0 in
  let f := BackgroundModelFactory.new in
  let r := reloadBackgroundModel env w in
  let made :=
    (BackgroundModelFactory.createModel (importOk (created env)) "auto" f).2 in
  r.2 = Resolved false /\
  enabled (vb r.1) = false /\
  model (vb r.1) = model (vb w) /\
  (exists before message,
      alerts (ob r.1)
      = before ++ [("Could not reload model: " +:+ message, "error")]) /\
  activeModel (vb r.1)
  = match made with
    | Some k => Some {| kind := k; iid := nextInstance (pg w) |}
    | None => None
    end /\
  disposed (ob r.1)
  = disposed (ob w)
    ++ match activeModel (vb w) with Some i => [iid i] | None => [] end /\
  (BackgroundModelFactory.userPreferredModel <$> modelFactory (pg r.1))
  = Some (BackgroundModelFactory.userPreferredModel f).
Proof.
  intros env w f.
  apply (reload_failure_keeps_name env w f).
  - reflexivity.
  - reflexivity.
  - vm_compute. discriminate.
Defined.

End Reloading.

(** ** Loads that overlap *)

Section Overlapping.

Import BackgroundService LoadPhases.

Lemma createModel_phases (io : BackgroundModelFactory.modelKind -> bool)
      (t : string) (f : BackgroundModelFactory.factory) :
  BackgroundModelFactory.createModel io t f
  = let '(f1, wanted, name) := createModel_begin t f in
    createModel_imported io wanted name f1.
Proof.
  unfold BackgroundModelFactory.createModel, createModel_begin,
    createModel_imported.
  repeat case_match; simplify_eq/=; reflexivity.
Qed.

Lemma createModel_begin_log (t : string) (f : BackgroundModelFactory.factory) :
  exists l,
    BackgroundModelFactory.debugLog (createModel_begin t f).1.1
    = BackgroundModelFactory.debugLog f ++ l.
Proof.
  unfold createModel_begin.
  repeat case_match; simplify_eq/=; rewrite <- ?app_assoc; eexists; reflexivity.
Qed.

Lemma createModel_imported_log io k t (f : BackgroundModelFactory.factory) :
  exists l,
    BackgroundModelFactory.debugLog (createModel_imported io k t f).1
    = BackgroundModelFactory.debugLog f ++ l.
Proof.
  unfold createModel_imported.
  repeat case_match; simplify_eq/=; rewrite <- ?app_assoc;
    try (eexists; reflexivity).
  exists []. rewrite app_nil_r. reflexivity.
Qed.

Lemma handed_app (f f' : BackgroundModelFactory.factory) (l : list string) :
  BackgroundModelFactory.debugLog f' = BackgroundModelFactory.debugLog f ++ l ->
  handed f f' = l.
Proof.
  intros H. unfold handed. rewrite H. apply drop_app_length.
Qed.

Lemma handed_trans (f f1 f2 : BackgroundModelFactory.factory) (l1 l2 : list string) :
  BackgroundModelFactory.debugLog f1 = BackgroundModelFactory.debugLog f ++ l1 ->
  BackgroundModelFactory.debugLog f2 = BackgroundModelFactory.debugLog f1 ++ l2 ->
  handed f f2 = handed f f1 ++ handed f1 f2.
Proof.
  intros H1 H2.
  rewrite (handed_app f f1 l1 H1), (handed_app f1 f2 l2 H2).
  apply handed_app. rewrite H2, H1, app_assoc. reflexivity.
Qed.

Lemma debugAll_app (a b : list string) (w : world) :
  debugAll b (debugAll a w) = debugAll (a ++ b) w.
Proof.
  unfold debugAll, upd_ob, set_debugInfo. simpl. rewrite app_assoc. reflexivity.
Qed.


Lemma created_world (f f1 f2 : BackgroundModelFactory.factory)
      (l1 l2 : list string) (w : world) :
  BackgroundModelFactory.debugLog f1 = BackgroundModelFactory.debugLog f ++ l1 ->
  BackgroundModelFactory.debugLog f2 = BackgroundModelFactory.debugLog f1 ++ l2 ->
  debugAll (handed f1 f2)
    (upd_pg (set_modelFactory (Some f2))
       (debugAll (handed f f1) (upd_pg (set_modelFactory (Some f1)) w)))
  = debugAll (handed f f2) (upd_pg (set_modelFactory (Some f2)) w).
Proof.
  intros H1 H2. rewrite (handed_trans f f1 f2 l1 l2 H1 H2).
  unfold debugAll, upd_ob, upd_pg, set_debugInfo, set_modelFactory. simpl.
  rewrite app_assoc. reflexivity.
Qed.

(** Run one after the other, the parts make up the whole. *)
Lemma loadSelectedModel_phases_whole (m : option string) (env : loadEnv)
      (atCall later : list string) (w : world) :
  initSaid env = atCall ++ later ->
  loadSelectedModel_phases m env atCall later w = loadSelectedModel m env w.
Proof.
  intros Hsaid.
  unfold loadSelectedModel_phases, loadSelectedModel, loadSelectedModel_begin.
  cbv zeta.
  match goal with
  | |- context [modelFactory (pg ?w0)] => generalize w0
  end.
  clear w. intros w.
  destruct (modelFactory (pg w)) as [f |] eqn:Ef; [| reflexivity].
  rewrite createModel_phases.
  destruct (createModel_begin_log (model (vb w)) f) as [l1 Hl1].
  destruct (createModel_begin (model (vb w)) f) as [[f1 wanted] name].
  simpl in Hl1.
  unfold loadSelectedModel_created. simpl.
  destruct (createModel_imported_log (importOk env) wanted name f1) as [l2 Hl2].
  destruct (createModel_imported (importOk env) wanted name f1) as [f2 made].
  simpl in Hl2.
  rewrite (created_world f f1 f2 l1 l2 w Hl1 Hl2).
  destruct made as [k |]; [| reflexivity].
  unfold loadSelectedModel_settled. cbv zeta.
  rewrite debugAll_app, <- Hsaid.
  destruct (initResult env); reflexivity.
Qed.


(** What the first part of a call does to the adapter instances. *)
Lemma loadSelectedModel_begin_instances (m : option string) (env : loadEnv)
      (w w1 : world) (r : BackgroundModelFactory.modelKind * string) :
  loadSelectedModel_begin m env w = (w1, Some r) ->
  disposed (ob w1)
  = disposed (ob w)
    ++ match activeModel (vb w) with Some i => [iid i] | None => [] end /\
  activeModel (vb w1) = activeModel (vb w) /\
  nextInstance (pg w1) = nextInstance (pg w).
Proof.
  unfold loadSelectedModel_begin.
  repeat case_match; simplify_eq/=; intros; simplify_eq/=;
    repeat match goal with
           | H : activeModel (vb _) = _ |- _ => rewrite H
           end;
    rewrite ?app_nil_r; repeat split; reflexivity.
Qed.

(** What the second part does to them. *)
Lemma loadSelectedModel_created_instances (env : loadEnv)
      (wanted : BackgroundModelFactory.modelKind) (name : string)
      (atCall : list string) (w w2 : world) :
  loadSelectedModel_created env wanted name atCall w = (w2, true) ->
  disposed (ob w2) = disposed (ob w) /\
  (iid <$> activeModel (vb w2)) = Some (nextInstance (pg w)) /\
  nextInstance (pg w2) = S (nextInstance (pg w)).
Proof.
  unfold loadSelectedModel_created.
  repeat case_match; simplify_eq/=; intros; simplify_eq/=;
    repeat split; reflexivity.
Qed.

(** X28: calls of [loadSelectedModel] that overlap lose an adapter.  When
    a second call starts while the first one awaits [createModel], both
    dispose the adapter that was active, and the adapter created for the
    first call is replaced by the one created for the second without being
    disposed: of the two instances created, the later one is the active
    model and the earlier one is neither active nor disposed. *)
Theorem overlapping_loads_lose_an_adapter (m1 m2 : option string)
        (env1 env2 : loadEnv) (atCall1 atCall2 : list string) (w w' : world)
        (i : instance) :
  activeModel (vb w) = Some i ->
  (iid i < nextInstance (pg w))%nat ->
  Forall (fun j => (j < nextInstance (pg w))%nat) (disposed (ob w)) ->
  overlapped m1 m2 env1 env2 atCall1 atCall2 w = Some w' ->
  disposed (ob w') = disposed (ob w) ++ [iid i; iid i] /\
  nextInstance (pg w') = S (S (nextInstance (pg w))) /\
  (iid <$> activeModel (vb w')) = Some (S (nextInstance (pg w))) /\
  (nextInstance (pg w) ∉ disposed (ob w')) /\
  ~ ServiceTrace.accounted w'.
Proof.
  intros Ha Hi Hd Hover. unfold overlapped in Hover.
  destruct (loadSelectedModel_begin m1 env1 w) as [w1 [[k1 n1] |]] eqn:E1;
    [| discriminate].
  destruct (loadSelectedModel_begin m2 env2 w1) as [w2 [[k2 n2] |]] eqn:E2;
    [| discriminate].
  destruct (loadSelectedModel_created env1 k1 n1 atCall1 w2) as [w3 [|]] eqn:E3;
    [| discriminate].
  destruct (loadSelectedModel_created env2 k2 n2 atCall2 w3) as [w4 [|]] eqn:E4;
    [| discriminate].
  simplify_eq.
  destruct (loadSelectedModel_begin_instances _ _ _ _ _ E1) as (D1 & A1 & N1).
  destruct (loadSelectedModel_begin_instances _ _ _ _ _ E2) as (D2 & A2 & N2).
  destruct (loadSelectedModel_created_instances _ _ _ _ _ _ E3) as (D3 & A3 & N3).
  destruct (loadSelectedModel_created_instances _ _ _ _ _ _ E4) as (D4 & A4 & N4).
  rewrite Ha in D1. rewrite A1, Ha in D2.
  assert (Hdis : disposed (ob w') = disposed (ob w) ++ [iid i; iid i]).
  { rewrite D4, D3, D2, D1, <- app_assoc. reflexivity. }
  assert (Hnew : nextInstance (pg w) ∉ disposed (ob w')).
  { rewrite Hdis. intros Hin. apply elem_of_app in Hin as [Hin | Hin].
    - rewrite Forall_forall in Hd. specialize (Hd _ Hin). lia.
    - repeat (apply elem_of_cons in Hin as [Hin | Hin]; [lia |]).
      inversion Hin. }
  split; [exact Hdis |].
  split; [rewrite N4, N3, N2, N1; reflexivity |].
  split; [rewrite A4, N3, N2, N1; reflexivity |].
  split; [exact Hnew |].
  intros (Hnodup & _). rewrite Hdis in Hnodup.
  apply NoDup_app in Hnodup as (_ & _ & Hnodup).
  apply NoDup_cons in Hnodup as [Hnot _].
  apply Hnot. apply list_elem_of_singleton. reflexivity.
Qed.

Lemma overlapping_loads_lose_an_adapter_witness :
  let env := load (Scenario.press 0) in
  let w := (loadSelectedModel None env Scenario.page0).1 in
  exists w',
    overlapped None None env env [] [] w = Some w' /\
    disposed (ob w') = disposed (ob w) ++ [0%nat; 0%nat] /\
    nextInstance (pg w') = S (S (nextInstance (pg w))) /\
    (iid <$> activeModel (vb w')) = Some (S (nextInstance (pg w))) /\
    (nextInstance (pg w) ∉ disposed (ob w')) /\
    ~ ServiceTrace.accounted w'.
Proof.
  intros env w. eexists. split; [vm_compute; reflexivity |].
  apply (overlapping_loads_lose_an_adapter None None env env [] [] w _
           {| kind := BackgroundModelFactory.MediaPipe; iid := 0 |}).
  - vm_compute. reflexivity.
  - vm_compute. lia.
  - vm_compute. constructor.
  - vm_compute. reflexivity.
Defined.

(** The same run, by its numbers: instance 0 is disposed twice, instance 1
    is dropped, instance 2 is the active model. *)
Example overlapping_loads_run :
  let env := load (Scenario.press 0) in
  (fun w => (disposed (ob w), iid <$> activeModel (vb w), nextInstance (pg w)))
    <$> overlapped None None env env [] []
          (loadSelectedModel None env Scenario.page0).1
  = Some ([0; 0]%nat, Some 2%nat, 3%nat).
Proof. vm_compute. reflexivity. Qed.

End Overlapping.
